(** * Arbhunter: the request layer, the normalisers' question extraction and
      the arbitrage detector, embedded from the Python sources.

    Conventions of the embedding.
    - A Python [float] is an exact rational ([Q]); rounding is not modelled.
      Division is the one float operation that can raise, so it is fallible.
    - [None] is [option]'s [None]; a value is "present" when it is [Some _].
    - An exception that leaves a function is the [Raise] outcome of [result];
      [try ... except Exception] is a case analysis on the outcome of the
      [try] body.
    - Methods of [KalshiClient], [PolymarketClient] and [BaseAPIClient] that
      share a name carry the client as a prefix ([kalshi_get_markets] is
      [KalshiClient.get_markets]).
    - A [datetime] is an instant on one common timeline, in microseconds. *)

From Stdlib Require Import QArith Qabs Qminmax ZArith List String Ascii Bool Lia Lqa.
From Stdlib Require Decimal DecimalString.
Import ListNotations.
Close Scope Q_scope.

(** ** Exceptions and fallible computations *)

Inductive exn : Type :=
| ZeroDivisionError
| ValueError
| RuntimeError (msg : string)
| RateLimitError (msg : string)
| APIError (msg : string)
| ClientError (msg : string)
| AsyncTimeoutError
| PlainException (msg : string).

Inductive result (A : Type) : Type :=
| Return (a : A)
| Raise (e : exn).
Arguments Return {A} a.
Arguments Raise {A} e.

Definition bind {A B : Type} (c : result A) (k : A -> result B) : result B :=
  match c with
  | Return a => k a
  | Raise e => Raise e
  end.

(** [str(e)]; the texts of the runtime's own exceptions are abbreviated. *)
Definition exn_message (e : exn) : string :=
  match e with
  | ZeroDivisionError => "float division by zero"
  | ValueError => "invalid literal for int() with base 10"
  | RuntimeError msg => msg
  | RateLimitError msg => msg
  | APIError msg => msg
  | ClientError msg => msg
  | AsyncTimeoutError => ""
  | PlainException msg => msg
  end.

Definition is_APIError (e : exn) : bool :=
  match e with
  | APIError _ => true
  | _ => false
  end.

Definition string_of_nat (n : nat) : string :=
  DecimalString.NilEmpty.string_of_uint (Nat.to_uint n).

Declare Scope py_scope.
Delimit Scope py_scope with py.
Notation "x <- c ;; k" := (bind c (fun x => k))
  (at level 61, c at next level, right associativity) : py_scope.

(** ** Float operations used by the detector *)

Module PyFloat.
Local Open Scope Q_scope.

Definition leb (x y : Q) : bool := Qle_bool x y.
Definition ltb (x y : Q) : bool := negb (Qle_bool y x).

(** [x / y] on floats: [ZeroDivisionError] when the divisor is zero. *)
Definition div (x y : Q) : result Q :=
  if Qeq_bool y 0 then Raise ZeroDivisionError else Return (x / y).

(** The builtin [min]: a later argument replaces the running minimum only
    when it is strictly smaller. *)
Definition min2 (a b : Q) : Q := if ltb b a then b else a.
Definition min3 (a b c : Q) : Q := min2 (min2 a b) c.

(** The builtin [sum]: a left fold from [0]. *)
Definition sum (l : list Q) : Q := fold_left Qplus l 0.

End PyFloat.

(** ** market_data.py: the canonical model (the fields the detector reads) *)

Record MarketOutcome : Type := mkMarketOutcome {
  outcome_id : string;
  outcome_name : string;
  yes_price : option Q;
  no_price : option Q;
  volume : option Q;
  last_trade_price : option Q;
  bid : option Q;
  ask : option Q;
  is_winner : option bool
}.

Record StandardizedMarket : Type := mkStandardizedMarket {
  market_id : string;
  title : string;
  close_date : option Z;
  outcomes : list MarketOutcome;
  total_volume : option Q;
  source_url : option string;
  primary_question : string
}.

Record ArbitrageOpportunity : Type := mkArbitrageOpportunity {
  market_1 : StandardizedMarket;
  market_2 : StandardizedMarket;
  profit_percentage : Q;
  required_investment : Q;
  potential_profit : Q;
  risk_score : Q;
  confidence_score : Q;
  similarity_score : Q;
  price_difference : Q
}.

(** ** detector.py *)

Module Detector.
Local Open Scope Q_scope.

(** [ArbitrageDetector.__init__] *)
Record ArbitrageDetector : Type := mkDetector {
  min_profit_percentage : Q;
  default_investment : Q
}.

Definition __init__ : ArbitrageDetector :=
  {| min_profit_percentage := 2.0; default_investment := 1000.0 |}.

(** The keys of the [match] dictionary read by the risk score; an absent key
    is [None]. *)
Record Match : Type := mkMatch {
  match_similarity_score : option Q;
  match_price_difference : option Q
}.

Definition _normalize_price (price : Q) : Q :=
  if PyFloat.leb price 1.0 then price
  else if PyFloat.leb price 100.0 then price / 100.0
  else PyFloat.min2 (price / 100.0) 1.0.

(** The dictionary returned by [_calculate_arbitrage]. *)
Record ArbitrageCalc : Type := mkArbitrageCalc {
  calc_profit_percentage : Q;
  calc_required_investment : Q;
  calc_potential_profit : Q;
  calc_buy_price : Q;
  calc_sell_price : Q;
  calc_buy_platform : string;
  calc_sell_platform : string;
  calc_shares : Q;
  calc_gross_profit : Q;
  calc_transaction_cost : Q
}.

Definition _calculate_arbitrage_body (self : ArbitrageDetector) (price1 price2 : Q)
  : result (option ArbitrageCalc) :=
  let price1 := _normalize_price price1 in
  let price2 := _normalize_price price2 in
  let '(buy_price, sell_price, buy_platform, sell_platform) :=
    if PyFloat.ltb price1 price2
    then (price1, price2, "Market 1"%string, "Market 2"%string)
    else (price2, price1, "Market 2"%string, "Market 1"%string) in
  let price_difference := sell_price - buy_price in
  if PyFloat.leb price_difference 0 then Return None
  else
    let investment_per_share := buy_price in
    let profit_per_share := price_difference in
    (shares_to_buy <- PyFloat.div (default_investment self) investment_per_share ;;
     let total_profit := shares_to_buy * profit_per_share in
     tp_ratio <- PyFloat.div total_profit (default_investment self) ;;
     let profit_percentage := tp_ratio * 100 in
     let transaction_cost := default_investment self * 0.01 in
     let net_profit := total_profit - transaction_cost in
     np_ratio <- PyFloat.div net_profit (default_investment self) ;;
     let net_profit_percentage := np_ratio * 100 in
     Return (Some {|
       calc_profit_percentage := net_profit_percentage;
       calc_required_investment := default_investment self;
       calc_potential_profit := net_profit;
       calc_buy_price := buy_price;
       calc_sell_price := sell_price;
       calc_buy_platform := buy_platform;
       calc_sell_platform := sell_platform;
       calc_shares := shares_to_buy;
       calc_gross_profit := total_profit;
       calc_transaction_cost := transaction_cost |}))%py.

(** [try: ... except Exception: return None] *)
Definition _calculate_arbitrage (self : ArbitrageDetector) (price1 price2 : Q)
  : option ArbitrageCalc :=
  match _calculate_arbitrage_body self price1 price2 with
  | Return r => r
  | Raise _ => None
  end.

(** [(d1 - d2).days]: a [timedelta] keeps its day count as the floor of the
    difference, so the count is negative for a negative difference. *)
Definition microseconds_per_day : Z := 86400000000.
Definition timedelta_days (delta : Z) : Z := (delta / microseconds_per_day)%Z.

(** [x or 0] on an optional float. *)
Definition or_zero (x : option Q) : Q :=
  match x with
  | Some v => if Qeq_bool v 0 then 0 else v
  | None => 0
  end.

Definition get_default (x : option Q) (default : Q) : Q :=
  match x with
  | Some v => v
  | None => default
  end.

Definition _calculate_risk_score (mt : Match) (market1 market2 : StandardizedMarket) : Q :=
  let risk_factors : list Q := [] in
  let risk_factors :=
    match close_date market1, close_date market2 with
    | Some d1, Some d2 =>
        let time_diff := Z.abs (timedelta_days (d1 - d2)) in
        if (7 <? time_diff)%Z then risk_factors ++ [0.3] else risk_factors
    | _, _ => risk_factors
    end in
  let total_volume_1 := or_zero (total_volume market1) in
  let total_volume_2 := or_zero (total_volume market2) in
  let risk_factors :=
    if PyFloat.ltb total_volume_1 1000 || PyFloat.ltb total_volume_2 1000
    then risk_factors ++ [0.2] else risk_factors in
  let platform_risk := 0.1 in
  let risk_factors := risk_factors ++ [platform_risk] in
  let similarity_score := get_default (match_similarity_score mt) 0.5 in
  let similarity_risk := 1.0 - similarity_score in
  let risk_factors := risk_factors ++ [similarity_risk * 0.4] in
  let price_diff := get_default (match_price_difference mt) 0 in
  let risk_factors :=
    if PyFloat.ltb 0.3 price_diff then risk_factors ++ [0.3] else risk_factors in
  let total_risk := PyFloat.sum risk_factors in
  PyFloat.min2 total_risk 1.0.

(** The dictionary returned by [calculate_optimal_bet_sizing]. *)
Record BetSizing : Type := mkBetSizing {
  optimal_investment : Q;
  kelly_fraction : Q;
  position_percentage : Q;
  expected_profit : Q;
  max_loss : Q
}.

(** The body of the [try] block. *)
Definition calculate_optimal_bet_sizing_body
  (opportunity : ArbitrageOpportunity) (available_capital max_position_size : Q)
  : result BetSizing :=
  let win_probability := 1.0 - risk_score opportunity in
  let profit_ratio := profit_percentage opportunity / 100.0 in
  (kelly_fraction <- PyFloat.div (win_probability * profit_ratio) profit_ratio ;;
   let conservative_factor := 0.5 in
   let kelly_fraction := kelly_fraction * conservative_factor in
   let max_position := available_capital * max_position_size in
   let optimal_investment :=
     PyFloat.min3 (kelly_fraction * available_capital) max_position
                  (required_investment opportunity) in
   position <- PyFloat.div optimal_investment available_capital ;;
   Return {|
     optimal_investment := optimal_investment;
     kelly_fraction := kelly_fraction;
     position_percentage := position * 100;
     expected_profit := optimal_investment * (profit_ratio * win_probability);
     max_loss := optimal_investment * risk_score opportunity |})%py.

(** The dictionary of the [except] branch. *)
Definition bet_sizing_fallback (opportunity : ArbitrageOpportunity) : BetSizing :=
  {| optimal_investment := required_investment opportunity;
     kelly_fraction := 0.0;
     position_percentage := 0.0;
     expected_profit := 0.0;
     max_loss := 0.0 |}.

Definition default_max_position_size : Q := 0.1.

Definition calculate_optimal_bet_sizing
  (opportunity : ArbitrageOpportunity) (available_capital max_position_size : Q)
  : BetSizing :=
  match calculate_optimal_bet_sizing_body opportunity available_capital max_position_size with
  | Return r => r
  | Raise _ => bet_sizing_fallback opportunity
  end.

(** The first loop of [_get_best_price]: the first outcome that carries a
    [yes_price] or a [last_trade_price] decides. *)
Fixpoint first_yes_or_last_trade (os : list MarketOutcome) : option Q :=
  match os with
  | [] => None
  | outcome :: rest =>
      match yes_price outcome with
      | Some p => Some p
      | None =>
          match last_trade_price outcome with
          | Some p => Some p
          | None => first_yes_or_last_trade rest
          end
      end
  end.

(** The second loop: the first present [no_price], converted. *)
Fixpoint first_no_converted (os : list MarketOutcome) : option Q :=
  match os with
  | [] => None
  | outcome :: rest =>
      match no_price outcome with
      | Some p => Some (1.0 - p)
      | None => first_no_converted rest
      end
  end.

Definition _get_best_price (market : StandardizedMarket) : option Q :=
  match outcomes market with
  | [] => None
  | _ =>
      match first_yes_or_last_trade (outcomes market) with
      | Some p => Some p
      | None => first_no_converted (outcomes market)
      end
  end.

(** The dictionary returned by [_calculate_arbitrage_opportunity]. *)
Record PairOpportunity : Type := mkPairOpportunity {
  pair_kalshi_market : StandardizedMarket;
  pair_polymarket_market : StandardizedMarket;
  pair_kalshi_price : Q;
  pair_polymarket_price : Q;
  pair_spread : Q;
  pair_profit_percentage : Q;
  pair_profit_per_dollar : Q;
  pair_buy_market : string;
  pair_sell_market : string;
  pair_buy_price : Q;
  pair_sell_price : Q;
  pair_kalshi_url : option string;
  pair_polymarket_url : option string;
  pair_detected_at : string
}.

(** [utcnow] is the clock reading, rendered in ISO format by the caller of
    the model. No float operation of the body can raise. *)
Definition _calculate_arbitrage_opportunity
  (utcnow : string) (kalshi_market polymarket_market : StandardizedMarket)
  : option PairOpportunity :=
  match _get_best_price kalshi_market, _get_best_price polymarket_market with
  | Some kalshi_price, Some polymarket_price =>
      let spread := Qabs (kalshi_price - polymarket_price) in
      let min_spread := 0.03 in
      if PyFloat.ltb spread min_spread then None
      else
        let '(buy_market, sell_market, buy_price, sell_price) :=
          if PyFloat.ltb kalshi_price polymarket_price
          then ("kalshi"%string, "polymarket"%string, kalshi_price, polymarket_price)
          else ("polymarket"%string, "kalshi"%string, polymarket_price, kalshi_price) in
        let profit_per_dollar := sell_price - buy_price in
        let profit_percentage := profit_per_dollar * 100 in
        Some {|
          pair_kalshi_market := kalshi_market;
          pair_polymarket_market := polymarket_market;
          pair_kalshi_price := kalshi_price;
          pair_polymarket_price := polymarket_price;
          pair_spread := spread;
          pair_profit_percentage := profit_percentage;
          pair_profit_per_dollar := profit_per_dollar;
          pair_buy_market := buy_market;
          pair_sell_market := sell_market;
          pair_buy_price := buy_price;
          pair_sell_price := sell_price;
          pair_kalshi_url := source_url kalshi_market;
          pair_polymarket_url := source_url polymarket_market;
          pair_detected_at := utcnow |}
  | _, _ => None
  end.

(** The reading of the best price that takes the three price fields one
    after the other over the whole outcome list, for comparison with
    [_get_best_price]. *)
Fixpoint first_present (field : MarketOutcome -> option Q) (os : list MarketOutcome)
  : option Q :=
  match os with
  | [] => None
  | outcome :: rest =>
      match field outcome with
      | Some p => Some p
      | None => first_present field rest
      end
  end.

Definition best_price_field_by_field (market : StandardizedMarket) : option Q :=
  match first_present yes_price (outcomes market) with
  | Some p => Some p
  | None =>
      match first_present last_trade_price (outcomes market) with
      | Some p => Some p
      | None =>
          match first_present no_price (outcomes market) with
          | Some p => Some (1.0 - p)
          | None => None
          end
      end
  end.

Definition carries_yes_or_last_trade (outcome : MarketOutcome) : bool :=
  match yes_price outcome, last_trade_price outcome with
  | None, None => false
  | _, _ => true
  end.

Definition carries_no (outcome : MarketOutcome) : bool :=
  match no_price outcome with
  | Some _ => true
  | None => false
  end.

End Detector.

(** ** Concrete inputs of the detector used below *)

Module DetectorSamples.
Import Detector.
Local Open Scope Q_scope.

Definition outcome_with (yes no last : option Q) : MarketOutcome :=
  {| outcome_id := "o"; outcome_name := "Yes";
     yes_price := yes; no_price := no; volume := None;
     last_trade_price := last; bid := None; ask := None; is_winner := None |}.

Definition market_with (os : list MarketOutcome) : StandardizedMarket :=
  {| market_id := "M"; title := "Will it rain?"; close_date := None;
     outcomes := os; total_volume := Some 5000; source_url := None;
     primary_question := "it rain" |}.

(** A liquid market without close date. *)
Definition liquid_market : StandardizedMarket := market_with [].

(** A match whose similarity score is 2. *)
Definition oversimilar_match : Match :=
  {| match_similarity_score := Some 2; match_price_difference := None |}.

Definition plain_match : Match :=
  {| match_similarity_score := Some 0.8; match_price_difference := Some 0.15 |}.

(** First outcome with a last trade only, second outcome with a YES price. *)
Definition last_trade_before_yes : StandardizedMarket :=
  market_with [outcome_with None None (Some 0.3); outcome_with (Some 0.6) None None].

Definition priced_market (p : Q) : StandardizedMarket :=
  market_with [outcome_with (Some p) None None].

Definition unpriced_market : StandardizedMarket :=
  market_with [outcome_with None None None].

Definition opportunity_with (profit risk required : Q) : ArbitrageOpportunity :=
  {| market_1 := liquid_market; market_2 := liquid_market;
     profit_percentage := profit; required_investment := required;
     potential_profit := 0; risk_score := risk; confidence_score := 0.8;
     similarity_score := 0.8; price_difference := 0.15 |}.

End DetectorSamples.

(** ** Strings

    A [str] is the list of its characters; a character is a code point
    below 256. *)

Module PyStr.

Definition str : Type := list ascii.

Definition lit (s : string) : str := list_ascii_of_string s.

(** [str.isspace] on one character: tab to carriage return, the four
    separators 0x1c-0x1f, the space, NEL and the no-break space. *)
Definition isspace (c : ascii) : bool :=
  let n := nat_of_ascii c in
  ((9 <=? n) && (n <=? 13)) || ((28 <=? n) && (n <=? 32))
  || (n =? 133) || (n =? 160).

Definition is_question_mark (c : ascii) : bool := Ascii.eqb c "?"%char.

(** [s.lstrip(chars)] and [s.rstrip(chars)], the character set given as a
    predicate. *)
Fixpoint lstrip (chars : ascii -> bool) (s : str) : str :=
  match s with
  | [] => []
  | c :: rest => if chars c then lstrip chars rest else s
  end.

Definition rstrip (chars : ascii -> bool) (s : str) : str :=
  rev (lstrip chars (rev s)).

(** [s.strip()] *)
Definition strip (s : str) : str := rstrip isspace (lstrip isspace s).

(** [s.startswith(prefix)] *)
Fixpoint startswith (s prefix : str) : bool :=
  match prefix with
  | [] => true
  | p :: prefix' =>
      match s with
      | [] => false
      | c :: s' => Ascii.eqb c p && startswith s' prefix'
      end
  end.

(** [s.replace(c, "")] for a one-character [c]. *)
Definition remove_char (c : ascii) (s : str) : str :=
  filter (fun x => negb (Ascii.eqb x c)) s.

(** [s.lower()]: the letters A-Z and the Latin-1 capitals 0xC0-0xDE (the
    multiplication sign 0xD7 apart) move up by 32; other characters are kept. *)
Definition lower_char (c : ascii) : ascii :=
  let n := nat_of_ascii c in
  if ((65 <=? n) && (n <=? 90))
     || ((192 <=? n) && (n <=? 222) && negb (n =? 215))
  then ascii_of_nat (n + 32) else c.

Definition lower (s : str) : str := map lower_char s.

(** [needle in haystack] *)
Fixpoint contains (haystack needle : str) : bool :=
  startswith haystack needle ||
  match haystack with
  | [] => false
  | _ :: rest => contains rest needle
  end.

End PyStr.

(** ** [_extract_primary_question] of the two clients *)

Module PrimaryQuestion.
Import PyStr.

Definition prefixes_to_remove : list str :=
  [lit "Will "; lit "Does "; lit "Did "; lit "Is "; lit "Are "; lit "Has "; lit "Have "].

(** [for prefix in prefixes: if question.startswith(prefix): question =
    question[len(prefix):]; break] *)
Fixpoint remove_first_prefix (prefixes : list str) (question : str) : str :=
  match prefixes with
  | [] => question
  | prefix :: rest =>
      if startswith question prefix then skipn (List.length prefix) question
      else remove_first_prefix rest question
  end.

(** [if len(question) > 200: question = question[:200] + "..."] *)
Definition ensure_reasonable_length (question : str) : str :=
  if 200 <? List.length question then firstn 200 question ++ lit "..." else question.

(** [KalshiClient._extract_primary_question] *)
Definition kalshi_extract_primary_question (title description : str) : str :=
  let question := title in
  let question := remove_first_prefix prefixes_to_remove question in
  let question := strip (rstrip is_question_mark question) in
  ensure_reasonable_length question.

(** [PolymarketClient._extract_primary_question] *)
Definition polymarket_extract_primary_question (title description : str) : str :=
  let question := title in
  let question := strip (remove_char "?"%char question) in
  let question := remove_first_prefix prefixes_to_remove question in
  ensure_reasonable_length question.

(** The extraction as the specification words it: the result is the title
    without at most one of the prefixes in front and without question marks
    at its end, nothing else removed (for results of at most 200
    characters). *)
Definition only_prefix_and_trailing_marks_removed (title result : str) : bool :=
  existsb
    (fun prefix =>
       startswith title (prefix ++ result)
       && forallb is_question_mark (skipn (List.length prefix + List.length result) title)
       && (List.length prefix + List.length result <=? List.length title))
    ([] :: prefixes_to_remove).

(** [result] is [clean] cut to 200 characters, with the ellipsis marker when
    something was cut. *)
Definition truncated_to_200 (clean result : str) : Prop :=
  (List.length clean <= 200 -> result = clean) /\
  (200 < List.length clean -> result = firstn 200 clean ++ lit "...").

(** [prefix] is what the prefix loop takes off [question]: the one listed
    prefix it starts with, or nothing when it starts with none. *)
Definition removed_prefix (prefix question : str) : Prop :=
  (In prefix prefixes_to_remove /\ startswith question prefix = true) \/
  (prefix = [] /\ forall x, In x prefixes_to_remove -> startswith question x = false).

End PrimaryQuestion.

(** ** Dictionaries, ranges and slices *)

Module PyData.

(** A [dict] with string keys, in insertion order. *)
Definition dict (V : Type) : Type := list (string * V).

Fixpoint dict_get {V : Type} (d : dict V) (key : string) : option V :=
  match d with
  | [] => None
  | (k, v) :: rest => if String.eqb k key then Some v else dict_get rest key
  end.

(** [d[key] = value]: an existing key keeps its place. *)
Fixpoint dict_set {V : Type} (d : dict V) (key : string) (value : V) : dict V :=
  match d with
  | [] => [(key, value)]
  | (k, v) :: rest =>
      if String.eqb k key then (k, value) :: rest
      else (k, v) :: dict_set rest key value
  end.

Definition dict_keys {V : Type} (d : dict V) : list string := map fst d.

Fixpoint range_from (start count step : nat) : list nat :=
  match count with
  | O => []
  | S count' => start :: range_from (start + step) count' step
  end.

(** [range(start, stop, step)] for a positive [step]. *)
Definition range (start stop step : nat) : list nat :=
  range_from start ((stop - start + step - 1) / step) step.

(** [l[i:j]] *)
Definition slice {A : Type} (l : list A) (i j : nat) : list A :=
  firstn (j - i) (skipn i l).

End PyData.

(** ** polymarket_client.py: [get_market_prices]

    The environment is a state [W] and the transport
    [_make_post_request('prices', payload)], which answers (or raises) and
    moves the state. The function is modelled with the requests it issues. *)

Module PolymarketPrices.
Import PyData.

Inductive Side : Type := BUY | SELL.

Record BookParams : Type := mkBookParams {
  token_id : string;
  side : Side
}.

Definition Payload : Type := list BookParams.

(** The value stored for one token: [{side: price}], prices as sent. *)
Record TokenPrices : Type := mkTokenPrices {
  price_BUY : option string;
  price_SELL : option string
}.

(** A decoded JSON body: a dictionary keyed by token, or anything else. *)
Inductive PostResponse : Type :=
| ResponseDict (d : dict TokenPrices)
| ResponseOther (truthy : bool).

Definition truthy (r : PostResponse) : bool :=
  match r with
  | ResponseDict [] => false
  | ResponseDict (_ :: _) => true
  | ResponseOther b => b
  end.

Inductive Event : Type :=
| Posted (payload : Payload)
| SleptBetweenChunks.

Section WithTransport.
Variable W : Type.
Variable _make_post_request : W -> Payload -> result PostResponse * W.

Record PriceLoop : Type := mkPriceLoop {
  loop_payload : Payload;
  loop_all_prices : dict TokenPrices;
  loop_world : W;
  loop_events : list Event
}.

(** [for token_id in chunk: if token_id in prices_response:
    all_prices[token_id] = prices_response[token_id]] *)
Definition merge_response (chunk : list string) (prices_response all_prices : dict TokenPrices)
  : dict TokenPrices :=
  fold_left
    (fun all token =>
       match dict_get prices_response token with
       | Some v => dict_set all token v
       | None => all
       end)
    chunk all_prices.

(** One turn of [for token_id in chunk:], whose body runs down to the
    inter-chunk delay: the two entries of the token are appended to the one
    [payload] list, and the list so far is posted. [i] is the value the
    chunking loop left behind. *)
Definition price_request_step (i chunk_size n : nat) (chunk : list string)
  (st : PriceLoop) (token : string) : PriceLoop :=
  let payload :=
    loop_payload st ++ [ {| token_id := token; side := BUY |};
                         {| token_id := token; side := SELL |} ] in
  let '(outcome, w) := _make_post_request (loop_world st) payload in
  let events := loop_events st ++ [Posted payload] in
  match outcome with
  | Raise _ =>
      {| loop_payload := payload; loop_all_prices := loop_all_prices st;
         loop_world := w; loop_events := events |}
  | Return prices_response =>
      if negb (truthy prices_response) then
        {| loop_payload := payload; loop_all_prices := loop_all_prices st;
           loop_world := w; loop_events := events |}
      else
        let all_prices :=
          match prices_response with
          | ResponseDict d => merge_response chunk d (loop_all_prices st)
          | ResponseOther _ => loop_all_prices st
          end in
        let events :=
          if i + chunk_size <? n
          then events ++ [SleptBetweenChunks] else events in
        {| loop_payload := payload; loop_all_prices := all_prices;
           loop_world := w; loop_events := events |}
  end.

(** [for i in range(0, len(token_ids), chunk_size): chunk = token_ids[i:i +
    chunk_size]]: the loop body is this assignment alone, so the loop leaves
    the last start and the last chunk. [None] is "never assigned". *)
Definition chunking_loop (token_ids : list string) (chunk_size : nat)
  : option (nat * list string) :=
  fold_left
    (fun _ i => Some (i, slice token_ids i (i + chunk_size)))
    (range 0 (List.length token_ids) chunk_size)
    None.

Definition get_market_prices (w : W) (token_ids : list string)
  : option (dict TokenPrices) * W * list Event :=
  match token_ids with
  | [] => (Some [], w, [])
  | _ :: _ =>
      let chunk_size := 10 in
      let all_prices : dict TokenPrices := [] in
      match chunking_loop token_ids chunk_size with
      | None => (None, w, [])
      | Some (i, chunk) =>
          let st :=
            fold_left
              (price_request_step i chunk_size (List.length token_ids) chunk)
              chunk
              {| loop_payload := []; loop_all_prices := all_prices;
                 loop_world := w; loop_events := [] |} in
          (match loop_all_prices st with
           | [] => None
           | _ :: _ => Some (loop_all_prices st)
           end,
           loop_world st, loop_events st)
      end
  end.

End WithTransport.

Arguments loop_payload {W} _.
Arguments loop_all_prices {W} _.
Arguments loop_world {W} _.
Arguments loop_events {W} _.
Arguments price_request_step {W} _ _ _ _ _ _ _.
Arguments get_market_prices {W} _ _ _.

(** The payloads posted, in order. *)
Fixpoint posted_payloads (events : list Event) : list Payload :=
  match events with
  | [] => []
  | Posted payload :: rest => payload :: posted_payloads rest
  | SleptBetweenChunks :: rest => posted_payloads rest
  end.

(** The entries of a request for the tokens [tokens]. *)
Definition entries_of (tokens : list string) : Payload :=
  flat_map (fun token => [ {| token_id := token; side := BUY |};
                           {| token_id := token; side := SELL |} ]) tokens.

(** A server that prices every token it is asked about. *)
Definition quoting_server (w : unit) (payload : Payload) : result PostResponse * unit :=
  (Return (ResponseDict
     (fold_left
        (fun d entry =>
           dict_set d (token_id entry)
             {| price_BUY := Some "0.55"%string; price_SELL := Some "0.56"%string |})
        payload [])),
   tt).

(** Twenty-five token identifiers, "A" to "Y". *)
Definition tokens_25 : list string :=
  map (fun k => String (ascii_of_nat (65 + k)) EmptyString) (seq 0 25).

End PolymarketPrices.

(** ** The request layer: [_make_request] of the three clients

    One exchange with the server either fails in transport or brings a
    response: status, [Retry-After] header, text and decoded JSON body. The
    environment is a state [W] and [send], the session's request method;
    [Json] is the type of decoded bodies. Each function is modelled with the
    sleeps and sends it performs. The wait that keeps requests
    [1 / MAX_CONCURRENT_REQUESTS] apart depends on the wall clock and is the
    event [Throttled]. The [sleep_and_retry]/[limits] decorators of the base
    client act on the call rate before the request runs, and are left out. *)

Module RequestLayer.

Inductive RetryAfterHeader : Type :=
| HeaderAbsent
| HeaderInt (seconds : Z)
| HeaderNotInt.

(** [int(response.headers.get('Retry-After', 60))] *)
Definition retry_after_seconds (h : RetryAfterHeader) : result Z :=
  match h with
  | HeaderAbsent => Return 60%Z
  | HeaderInt seconds => Return seconds
  | HeaderNotInt => Raise ValueError
  end.

Inductive Event : Type :=
| Slept (seconds : Q)
| Throttled
| Sent.

Definition default_max_retries : nat := 3.

Section WithSession.
Variable Json : Type.

Record Response : Type := mkResponse {
  status : nat;
  retry_after : RetryAfterHeader;
  text : string;
  json : option Json
}.

(** A transport failure is an [aiohttp.ClientError] or a timeout. *)
Inductive Exchange : Type :=
| Answered (response : Response)
| TransportFailure (timed_out : bool) (msg : string).

Definition transport_exn (timed_out : bool) (msg : string) : exn :=
  if timed_out then AsyncTimeoutError else ClientError msg.

Variable W : Type.
Variable send : W -> Exchange * W.
Variable vpn_is_connected : W -> bool.

(** *** polymarket_client.py: [_make_request]; [_make_post_request] has the
    same body around [session.post] *)

Record PolymarketClient : Type := mkPolymarketClient {
  poly_session : bool;
  vpn_required : bool
}.

(** The body of the [try] of one attempt: the result, and the environment
    and events after it. *)
Definition polymarket_attempt (w : W) (events : list Event)
  : result Json * W * list Event :=
  let events := events ++ [Slept 0.1] in
  let '(exchange, w) := send w in
  let events := events ++ [Sent] in
  match exchange with
  | TransportFailure timed_out msg => (Raise (transport_exn timed_out msg), w, events)
  | Answered response =>
      if status response =? 429 then
        match retry_after_seconds (retry_after response) with
        | Raise e => (Raise e, w, events)
        | Return retry_after =>
            (Raise (PlainException "Rate limit exceeded"), w,
             events ++ [Slept (inject_Z retry_after)])
        end
      else if 400 <=? status response then
        (Raise (PlainException
           ("HTTP " ++ string_of_nat (status response) ++ ": " ++ text response)),
         w, events)
      else
        match json response with
        | Some result => (Return result, w, events)
        | None => (Raise ValueError, w, events)
        end
  end.

(** [for attempt in range(1, max_retries + 1)], [remaining] turns to go. The
    function returns [None] when the loop ends without a turn returning. *)
Fixpoint polymarket_attempts (max_retries remaining attempt : nat)
  (w : W) (events : list Event) : result (option Json) * W * list Event :=
  match remaining with
  | O => (Return None, w, events)
  | S remaining' =>
      let '(outcome, w, events) := polymarket_attempt w events in
      match outcome with
      | Return result => (Return (Some result), w, events)
      | Raise e =>
          let last_exception := e in
          if attempt <? max_retries then
            let wait_time := 2 * attempt in
            polymarket_attempts max_retries remaining' (S attempt) w
              (events ++ [Slept (inject_Z (Z.of_nat wait_time))])
          else (Raise last_exception, w, events)
      end
  end.

(** [PolymarketClient._make_request] *)
Definition polymarket_make_request (self : PolymarketClient) (max_retries : nat) (w : W)
  : result (option Json) * W * list Event :=
  if negb (poly_session self) then
    (Raise (RuntimeError "Client session not initialized. Use async context manager."),
     w, [])
  else if vpn_required self && negb (vpn_is_connected w) then
    (Raise (RuntimeError
       "Cannot make API request: VPN connection required but not active"), w, [])
  else polymarket_attempts max_retries max_retries 1 w [].

(** *** kalshi_client.py and base_client.py *)

Record KalshiClient : Type := mkKalshiClient {
  kalshi_session : bool;
  api_key : bool;
  private_key : bool;
  signing_fails : bool
}.

(** The [try] body shared by the two: throttle, send, inspect the status;
    [rate_limit_error] is the exception each raises on 429. *)
Definition single_request (rate_limit_error : exn) (w : W)
  : result Json * W * list Event :=
  let events := [Throttled] in
  let '(exchange, w) := send w in
  let events := events ++ [Sent] in
  match exchange with
  | TransportFailure timed_out msg => (Raise (transport_exn timed_out msg), w, events)
  | Answered response =>
      if status response =? 429 then
        match retry_after_seconds (retry_after response) with
        | Raise e => (Raise e, w, events)
        | Return retry_after =>
            (Raise rate_limit_error, w, events ++ [Slept (inject_Z retry_after)])
        end
      else if 400 <=? status response then
        (Raise (APIError
           ("HTTP " ++ string_of_nat (status response) ++ ": " ++ text response)),
         w, events)
      else
        match json response with
        | Some result => (Return result, w, events)
        | None => (Raise (APIError "Invalid JSON response"), w, events)
        end
  end.

(** [KalshiClient._make_request]; its handler is [except Exception as e: if
    isinstance(e, APIError): raise; raise APIError(f"Request failed: {e}")].
    The messages "Authentication failed" and "Invalid JSON response" go on
    with a colon and the text of the exception caught, which is not
    modelled. *)
Definition kalshi_make_request (self : KalshiClient) (w : W)
  : result Json * W * list Event :=
  if negb (kalshi_session self) then
    (Raise (RuntimeError "Client session not initialized. Use async context manager."),
     w, [])
  else if api_key self && private_key self && signing_fails self then
    (Raise (APIError "Authentication failed"), w, [])
  else
    let '(outcome, w, events) := single_request (APIError "Rate limit exceeded") w in
    match outcome with
    | Return result => (Return result, w, events)
    | Raise e =>
        if is_APIError e then (Raise e, w, events)
        else (Raise (APIError ("Request failed: " ++ exn_message e)), w, events)
    end.

(** [BaseAPIClient._make_request]: it raises [RateLimitError] on 429; its
    handlers turn a transport error, a timeout and every other exception
    into an [APIError]. *)
Definition base_make_request (session : bool) (w : W)
  : result Json * W * list Event :=
  if negb session then
    (Raise (RuntimeError "Client session not initialized. Use async context manager."),
     w, [])
  else
    let '(outcome, w, events) := single_request (RateLimitError "Rate limit exceeded") w in
    match outcome with
    | Return result => (Return result, w, events)
    | Raise (ClientError msg) => (Raise (APIError ("Client error: " ++ msg)), w, events)
    | Raise AsyncTimeoutError => (Raise (APIError "Request timeout"), w, events)
    | Raise e => (Raise (APIError ("Unexpected error: " ++ exn_message e)), w, events)
    end.

(** The environment answers 429 to the next requests, with the headers
    read as [seconds], and is then in state [w']. *)
Inductive rate_limited_run : W -> list Z -> W -> Prop :=
| run_done (w : W) : rate_limited_run w [] w
| run_429 (w w1 w' : W) (response : Response) (s : Z) (seconds : list Z) :
    send w = (Answered response, w1) ->
    status response = 429 ->
    retry_after_seconds (retry_after response) = Return s ->
    rate_limited_run w1 seconds w' ->
    rate_limited_run w (s :: seconds) w'.

(** The events of attempts [attempt], [attempt + 1], ... that are answered
    429: the pacing sleep, the send, the [Retry-After] sleep, and the backoff
    of twice the attempt number when another attempt follows. *)
Fixpoint rate_limited_events (max_retries attempt : nat) (seconds : list Z) : list Event :=
  match seconds with
  | [] => []
  | s :: rest =>
      [Slept 0.1; Sent; Slept (inject_Z s)]
      ++ (if attempt <? max_retries
          then [Slept (inject_Z (Z.of_nat (2 * attempt)))] else [])
      ++ rate_limited_events max_retries (S attempt) rest
  end.

Fixpoint count_sent (events : list Event) : nat :=
  match events with
  | [] => 0
  | Sent :: rest => S (count_sent rest)
  | _ :: rest => count_sent rest
  end.

End WithSession.

Arguments Answered {Json} _.
Arguments TransportFailure {Json} _ _.
Arguments mkResponse {Json} _ _ _ _.
Arguments status {Json} _.
Arguments retry_after {Json} _.
Arguments text {Json} _.
Arguments json {Json} _.
Arguments polymarket_attempt {Json W} _ _ _.
Arguments polymarket_attempts {Json W} _ _ _ _ _ _.
Arguments polymarket_make_request {Json W} _ _ _ _ _.
Arguments single_request {Json W} _ _ _.
Arguments kalshi_make_request {Json W} _ _ _.
Arguments base_make_request {Json W} _ _ _.
Arguments rate_limited_run {Json W} _ _ _ _.

(** A scripted server: the exchanges it will give, in order; a refused
    connection once the script is over. *)
Definition scripted (script : list (Exchange string)) : Exchange string * list (Exchange string) :=
  match script with
  | [] => (TransportFailure false "Cannot connect to host", [])
  | exchange :: rest => (exchange, rest)
  end.

Definition too_many_requests (h : RetryAfterHeader) : Exchange string :=
  Answered {| status := 429; retry_after := h; text := "Too Many Requests"; json := None |}.

Definition ok (body : string) : Exchange string :=
  Answered {| status := 200; retry_after := HeaderAbsent; text := body; json := Some body |}.

Definition open_kalshi_client : KalshiClient :=
  {| kalshi_session := true; api_key := true; private_key := true; signing_fails := false |}.

Definition open_polymarket_client : PolymarketClient :=
  {| poly_session := true; vpn_required := true |}.

End RequestLayer.

(** ** Market listings of the two clients

    [_make_request] is taken by its outcome: the decoded page (or record),
    or the exception it lets out, and the next state of the environment.
    The normalisers are parameters; both catch their own failures and answer
    [None] for a record they reject. A [while True] loop runs on fuel, and a
    listing answers [None] when the fuel is spent before the loop ends. *)

Module Listing.
Import PyData PyStr.

Inductive LoopOutcome (A : Type) : Type :=
| Finished (a : A)
| Raised (e : exn)
| OutOfFuel.
Arguments Finished {A} a.
Arguments Raised {A} e.
Arguments OutOfFuel {A}.

(** Truth value of an optional string: [None] and [""] are false. *)
Definition str_truthy (x : option string) : bool :=
  match x with
  | Some EmptyString => false
  | Some _ => true
  | None => false
  end.

(** [[f(x) for x in l if f(x)]] *)
Fixpoint keep_converted {A B : Type} (f : A -> option B) (l : list A) : list B :=
  match l with
  | [] => []
  | x :: rest =>
      match f x with
      | Some y => y :: keep_converted f rest
      | None => keep_converted f rest
      end
  end.

(** *** kalshi_client.py *)

Record KalshiRaw : Type := mkKalshiRaw {
  raw_ticker : string;
  raw_title : str;
  raw_rules_primary : str
}.

Record KalshiPage : Type := mkKalshiPage {
  page_markets : list KalshiRaw;
  page_cursor : option string
}.

Record KalshiParams : Type := mkKalshiParams {
  param_limit : option nat;
  param_cursor : option string
}.

Section Kalshi.
Variable W : Type.
Variable request_markets : W -> KalshiParams -> result KalshiPage * W.
Variable request_market : W -> string -> result (option KalshiRaw) * W.
Variable _convert_to_standardized_market : KalshiRaw -> option StandardizedMarket.

(** [KalshiClient.get_markets] *)
Definition kalshi_get_markets (limit : option nat) (w : W)
  : result (list StandardizedMarket) * W :=
  let params :=
    {| param_limit := match limit with Some (S n) => Some (S n) | _ => None end;
       param_cursor := None |} in
  let '(outcome, w) := request_markets w params in
  match outcome with
  | Return response =>
      (Return (keep_converted _convert_to_standardized_market (page_markets response)), w)
  | Raise e =>
      (Raise (APIError ("Failed to fetch Kalshi markets: " ++ exn_message e)), w)
  end.

Definition kalshi_keyword_matches (keyword : str) (market_raw : KalshiRaw) : bool :=
  let title := lower (raw_title market_raw) in
  let description := lower (raw_rules_primary market_raw) in
  contains title (lower keyword) || contains description (lower keyword).

Definition kalshi_page_matches (keyword : str) (market_data : list KalshiRaw)
  : list StandardizedMarket :=
  keep_converted
    (fun market_raw =>
       if kalshi_keyword_matches keyword market_raw
       then _convert_to_standardized_market market_raw else None)
    market_data.

Definition kalshi_page_params (cursor : option string) : KalshiParams :=
  {| param_limit := Some 200;
     param_cursor := if str_truthy cursor then cursor else None |}.

Fixpoint kalshi_keyword_loop (fuel : nat) (keyword : str) (cursor : option string)
  (all_markets : list StandardizedMarket) (w : W) (requests : list KalshiParams)
  : LoopOutcome (list StandardizedMarket) * W * list KalshiParams :=
  match fuel with
  | O => (OutOfFuel, w, requests)
  | S fuel' =>
      let params := kalshi_page_params cursor in
      let '(outcome, w) := request_markets w params in
      let requests := requests ++ [params] in
      match outcome with
      | Raise e => (Raised e, w, requests)
      | Return response =>
          let market_data := page_markets response in
          let cursor := page_cursor response in
          match market_data with
          | [] => (Finished all_markets, w, requests)
          | _ :: _ =>
              let all_markets := all_markets ++ kalshi_page_matches keyword market_data in
              if negb (str_truthy cursor) || (List.length market_data <? 200)
              then (Finished all_markets, w, requests)
              else kalshi_keyword_loop fuel' keyword cursor all_markets w requests
          end
      end
  end.

(** [KalshiClient.get_markets_by_keyword] *)
Definition kalshi_get_markets_by_keyword (fuel : nat) (keyword : str) (w : W)
  : option (result (list StandardizedMarket)) * W * list KalshiParams :=
  let '(outcome, w, requests) := kalshi_keyword_loop fuel keyword None [] w [] in
  (match outcome with
   | Finished all_markets => Some (Return all_markets)
   | Raised e =>
       Some (Raise (APIError
         ("Failed to fetch Kalshi markets by keyword: " ++ exn_message e)))
   | OutOfFuel => None
   end, w, requests).

(** [KalshiClient.get_market_details] *)
Definition kalshi_get_market_details (market_id : string) (w : W)
  : result (option StandardizedMarket) * W :=
  let '(outcome, w) := request_market w market_id in
  match outcome with
  | Return (Some market_data) => (Return (_convert_to_standardized_market market_data), w)
  | Return None => (Return None, w)
  | Raise _ => (Return None, w)
  end.

End Kalshi.

Arguments kalshi_get_markets {W} _ _ _ _.
Arguments kalshi_keyword_loop {W} _ _ _ _ _ _ _ _.
Arguments kalshi_get_markets_by_keyword {W} _ _ _ _ _.
Arguments kalshi_get_market_details {W} _ _ _ _.

(** *** polymarket_client.py *)

Record PolyToken : Type := mkPolyToken {
  raw_token_id : string;
  raw_outcome : string
}.

(** [raw_active] and [raw_closed] are what [.get('active', False)] and
    [.get('closed', True)] give. *)
Record PolyRaw : Type := mkPolyRaw {
  raw_condition_id : string;
  raw_question : str;
  raw_active : bool;
  raw_closed : bool;
  raw_tokens : list PolyToken
}.

Record PolyPage : Type := mkPolyPage {
  page_data : list PolyRaw;
  page_next_cursor : string
}.

Definition end_cursor : string := "LTE=".

Section Polymarket.
Import PolymarketPrices.
Variable W : Type.
(** [None] is a false response; the parameter is [next_cursor], [""] when
    the key is not sent. *)
Variable request_markets : W -> string -> result (option PolyPage) * W.
Variable request_market : W -> string -> result (option PolyRaw) * W.
Variable _make_post_request : W -> Payload -> result PostResponse * W.
Variable _convert_to_standardized_market_with_prices :
  PolyRaw -> dict TokenPrices -> option StandardizedMarket.

Definition token_ids_of (market_raw : PolyRaw) : list string :=
  filter (fun token_id => negb (String.eqb token_id ""))
         (map raw_token_id (raw_tokens market_raw)).

(** Step 1 of the batch conversion: all token ids, and the token ids of
    each condition id. *)
Definition collect_token_ids (markets_data : list PolyRaw)
  : list string * dict (list string) :=
  fold_left
    (fun '(all_token_ids, market_token_mapping) market_raw =>
       if String.eqb (raw_condition_id market_raw) "" then
         (all_token_ids, market_token_mapping)
       else
         let market_token_ids := token_ids_of market_raw in
         (all_token_ids ++ market_token_ids,
          match market_token_ids with
          | [] => market_token_mapping
          | _ :: _ =>
              dict_set market_token_mapping (raw_condition_id market_raw) market_token_ids
          end))
    markets_data ([], []).

Definition prices_of_market (batch_prices : dict TokenPrices) (market_token_ids : list string)
  : dict TokenPrices :=
  fold_left
    (fun market_prices token =>
       match dict_get batch_prices token with
       | Some v => dict_set market_prices token v
       | None => market_prices
       end)
    market_token_ids [].

Definition _convert_markets_with_batch_pricing (w : W) (markets_data : list PolyRaw)
  : list StandardizedMarket * W :=
  match markets_data with
  | [] => ([], w)
  | _ :: _ =>
      let '(all_token_ids, market_token_mapping) := collect_token_ids markets_data in
      let '(batch_prices, w) :=
        match all_token_ids with
        | [] => ([], w)
        | _ :: _ =>
            let '(prices, w, _) := get_market_prices _make_post_request w all_token_ids in
            (match prices with Some d => d | None => [] end, w)
        end in
      (keep_converted
         (fun market_raw =>
            let market_token_ids :=
              match dict_get market_token_mapping (raw_condition_id market_raw) with
              | Some ids => ids
              | None => []
              end in
            _convert_to_standardized_market_with_prices market_raw
              (prices_of_market batch_prices market_token_ids))
         markets_data,
       w)
  end.

Definition is_active (market_raw : PolyRaw) : bool :=
  raw_active market_raw && negb (raw_closed market_raw).

Definition polymarket_keyword_matches (keyword : str) (market_raw : PolyRaw) : bool :=
  is_active market_raw && contains (lower (raw_question market_raw)) (lower keyword).

(** [if markets_to_process: all_markets.extend(await
    self._convert_markets_with_batch_pricing(markets_to_process))] *)
Definition process_page (w : W) (markets_to_process : list PolyRaw)
  : list StandardizedMarket * W :=
  match markets_to_process with
  | [] => ([], w)
  | _ :: _ => _convert_markets_with_batch_pricing w markets_to_process
  end.

Definition at_end (next_cursor : string) : bool :=
  String.eqb next_cursor end_cursor || String.eqb next_cursor "".

Fixpoint polymarket_keyword_loop (fuel : nat) (keyword : str) (next_cursor : string)
  (all_markets : list StandardizedMarket) (w : W) (requests : list string)
  : LoopOutcome (list StandardizedMarket) * W * list string :=
  match fuel with
  | O => (OutOfFuel, w, requests)
  | S fuel' =>
      let '(outcome, w) := request_markets w next_cursor in
      let requests := requests ++ [next_cursor] in
      match outcome with
      | Raise e => (Raised e, w, requests)
      | Return None => (Finished all_markets, w, requests)
      | Return (Some markets_response) =>
          let markets_data := page_data markets_response in
          let next_cursor := page_next_cursor markets_response in
          match markets_data with
          | [] => (Finished all_markets, w, requests)
          | _ :: _ =>
              let markets_to_process :=
                filter (polymarket_keyword_matches keyword) markets_data in
              let '(converted_markets, w) := process_page w markets_to_process in
              let all_markets := all_markets ++ converted_markets in
              if at_end next_cursor then (Finished all_markets, w, requests)
              else polymarket_keyword_loop fuel' keyword next_cursor all_markets w requests
          end
      end
  end.

(** [PolymarketClient.get_markets_by_keyword] *)
Definition polymarket_get_markets_by_keyword (fuel : nat) (keyword : str) (w : W)
  : option (result (list StandardizedMarket)) * W * list string :=
  let '(outcome, w, requests) := polymarket_keyword_loop fuel keyword "" [] w [] in
  (match outcome with
   | Finished all_markets => Some (Return all_markets)
   | Raised _ => Some (Return [])
   | OutOfFuel => None
   end, w, requests).

Fixpoint polymarket_markets_loop (fuel : nat) (limit : option nat) (next_cursor : string)
  (all_markets : list StandardizedMarket) (w : W) (requests : list string)
  : LoopOutcome (list StandardizedMarket) * W * list string :=
  match fuel with
  | O => (OutOfFuel, w, requests)
  | S fuel' =>
      let '(outcome, w) := request_markets w next_cursor in
      let requests := requests ++ [next_cursor] in
      match outcome with
      | Raise e => (Raised e, w, requests)
      | Return None => (Finished all_markets, w, requests)
      | Return (Some markets_response) =>
          let markets_data := page_data markets_response in
          let next_cursor := page_next_cursor markets_response in
          match markets_data with
          | [] => (Finished all_markets, w, requests)
          | _ :: _ =>
              let markets_to_process := filter is_active markets_data in
              let '(converted_markets, w) := process_page w markets_to_process in
              let all_markets := all_markets ++ converted_markets in
              if at_end next_cursor then (Finished all_markets, w, requests)
              else
                match limit with
                | Some (S n) =>
                    if S n <=? List.length all_markets
                    then (Finished (firstn (S n) all_markets), w, requests)
                    else polymarket_markets_loop fuel' limit next_cursor all_markets w requests
                | _ => polymarket_markets_loop fuel' limit next_cursor all_markets w requests
                end
          end
      end
  end.

(** [PolymarketClient.get_markets] *)
Definition polymarket_get_markets (fuel : nat) (limit : option nat) (w : W)
  : option (result (list StandardizedMarket)) * W * list string :=
  let '(outcome, w, requests) := polymarket_markets_loop fuel limit "" [] w [] in
  (match outcome with
   | Finished all_markets => Some (Return all_markets)
   | Raised _ => Some (Return [])
   | OutOfFuel => None
   end, w, requests).

(** [PolymarketClient.get_market_details] *)
Definition polymarket_get_market_details (market_id : string) (w : W)
  : result (option StandardizedMarket) * W :=
  let '(outcome, w) := request_market w market_id in
  match outcome with
  | Raise _ => (Return None, w)
  | Return None => (Return None, w)
  | Return (Some market_data) =>
      let token_ids := token_ids_of market_data in
      let '(market_prices, w) :=
        match token_ids with
        | [] => ([], w)
        | _ :: _ =>
            let '(prices_data, w, _) := get_market_prices _make_post_request w token_ids in
            (match prices_data with
             | Some (entry :: rest) => entry :: rest
             | _ => []
             end, w)
        end in
      (Return (_convert_to_standardized_market_with_prices market_data market_prices), w)
  end.

End Polymarket.

Arguments _convert_markets_with_batch_pricing {W} _ _ _ _.
Arguments process_page {W} _ _ _ _.
Arguments polymarket_keyword_loop {W} _ _ _ _ _ _ _ _ _.
Arguments polymarket_get_markets_by_keyword {W} _ _ _ _ _ _.
Arguments polymarket_markets_loop {W} _ _ _ _ _ _ _ _ _.
Arguments polymarket_get_markets {W} _ _ _ _ _ _.
Arguments polymarket_get_market_details {W} _ _ _ _ _.

(** When the loops go on to another page: Kalshi needs a cursor and a page
    of at least 200 records; Polymarket needs a non-empty page and a cursor
    that is neither empty nor the end sentinel. *)
Definition kalshi_continues (page : KalshiPage) : bool :=
  str_truthy (page_cursor page) && (200 <=? List.length (page_markets page)).

Definition polymarket_continues (page : PolyPage) : bool :=
  negb (at_end (page_next_cursor page))
  && match page_data page with [] => false | _ :: _ => true end.

End Listing.

(** ** Mocked sources used below *)

Module ListingSamples.
Import PyData PyStr Listing PolymarketPrices.

Definition market_titled (ident question : string) : StandardizedMarket :=
  {| market_id := ident; title := question; close_date := None; outcomes := [];
     total_volume := None; source_url := None; primary_question := question |}.

Definition kalshi_record (ticker question : string) : KalshiRaw :=
  {| raw_ticker := ticker; raw_title := lit question; raw_rules_primary := lit "" |}.

(** A normaliser that rejects a record without ticker or title. *)
Definition sample_kalshi_convert (market_raw : KalshiRaw) : option StandardizedMarket :=
  match raw_ticker market_raw, raw_title market_raw with
  | EmptyString, _ => None
  | _, [] => None
  | ticker, question => Some (market_titled ticker (string_of_list_ascii question))
  end.

(** Three pages of one record each; the first two carry a cursor. *)
Definition three_short_pages (w : unit) (params : KalshiParams) : result KalshiPage * unit :=
  (Return
     (match param_cursor params with
      | None =>
          {| page_markets := [kalshi_record "K1" "Will it rain in Paris?"];
             page_cursor := Some "c1"%string |}
      | Some cursor =>
          if String.eqb cursor "c1" then
            {| page_markets := [kalshi_record "K2" "Will it rain in Rome?"];
               page_cursor := Some "c2"%string |}
          else
            {| page_markets := [kalshi_record "K3" "Will it rain in Oslo?"];
               page_cursor := None |}
      end), tt).

(** Three pages, the first two of 200 records and with a cursor. *)
Definition full_page_1 : KalshiPage :=
  {| page_markets := repeat (kalshi_record "K1" "Will it rain in Paris?") 200;
     page_cursor := Some "c1"%string |}.

Definition full_page_2 : KalshiPage :=
  {| page_markets := repeat (kalshi_record "K2" "Will it snow in Rome?") 200;
     page_cursor := Some "c2"%string |}.

Definition last_page_3 : KalshiPage :=
  {| page_markets := [kalshi_record "K3" "Will it rain in Oslo?"];
     page_cursor := None |}.

Definition three_full_pages (w : unit) (params : KalshiParams) : result KalshiPage * unit :=
  (Return
     (match param_cursor params with
      | None => full_page_1
      | Some cursor => if String.eqb cursor "c1" then full_page_2 else last_page_3
      end), tt).

(** A source whose every request fails with HTTP 500. *)
Definition failing_kalshi (w : unit) (params : KalshiParams) : result KalshiPage * unit :=
  (Raise (APIError "HTTP 500: Internal Server Error"), tt).

Definition failing_kalshi_detail (w : unit) (market_id : string)
  : result (option KalshiRaw) * unit :=
  (Raise (APIError "HTTP 500: Internal Server Error"), tt).

Definition poly_record (condition question : string) : PolyRaw :=
  {| raw_condition_id := condition; raw_question := lit question;
     raw_active := true; raw_closed := false; raw_tokens := [] |}.

Definition sample_poly_convert (market_raw : PolyRaw) (prices : dict TokenPrices)
  : option StandardizedMarket :=
  match raw_condition_id market_raw, raw_question market_raw with
  | EmptyString, _ => None
  | _, [] => None
  | condition, question => Some (market_titled condition (string_of_list_ascii question))
  end.

Definition poly_page_1 : PolyPage :=
  {| page_data := [poly_record "P1" "Will it rain in Paris?"];
     page_next_cursor := "MTAw" |}.

Definition poly_page_2 : PolyPage :=
  {| page_data := [poly_record "P2" "Will it snow in Rome?";
                   poly_record "P3" "Rain in Oslo?"];
     page_next_cursor := "MjAw" |}.

Definition poly_page_3 : PolyPage :=
  {| page_data := [poly_record "P4" "Will it rain in Bern?"];
     page_next_cursor := "" |}.

Definition three_poly_pages (w : unit) (next_cursor : string)
  : result (option PolyPage) * unit :=
  (Return (Some
     (if String.eqb next_cursor "" then poly_page_1
      else if String.eqb next_cursor "MTAw" then poly_page_2
      else poly_page_3)), tt).

Definition failing_poly (w : unit) (next_cursor : string)
  : result (option PolyPage) * unit :=
  (Raise (PlainException "HTTP 500: Internal Server Error"), tt).

Definition failing_poly_detail (w : unit) (market_id : string)
  : result (option PolyRaw) * unit :=
  (Raise (PlainException "HTTP 500: Internal Server Error"), tt).

(** A first page with a match and a cursor, then a failure. *)
Definition poly_second_page_fails (w : unit) (next_cursor : string)
  : result (option PolyPage) * unit :=
  (if String.eqb next_cursor "" then
     Return (Some {| page_data := [poly_record "P1" "Will it rain in Paris?"];
                     page_next_cursor := "MTAw" |})
   else Raise (PlainException "HTTP 502: Bad Gateway"), tt).

End ListingSamples.

(** ** detector.py: [analyze_opportunity] and [detect_arbitrage_from_pairs] *)

Module DetectorFlows.
Import Detector.
Local Open Scope Q_scope.

(** The [match] dictionary as [analyze_opportunity] reads it. A market entry
    is the dictionary unpacked into the [StandardizedMarket] constructor:
    [None] when the key is absent or the dictionary empty. [risk_keys] are the two keys the
    risk score reads. *)
Record AnalysisMatch (MarketData : Type) : Type := mkAnalysisMatch {
  kalshi_market_data : option MarketData;
  polymarket_market_data : option MarketData;
  match_kalshi_price : option Q;
  match_polymarket_price : option Q;
  risk_keys : Match
}.
Arguments kalshi_market_data {MarketData} _.
Arguments polymarket_market_data {MarketData} _.
Arguments match_kalshi_price {MarketData} _.
Arguments match_polymarket_price {MarketData} _.
Arguments risk_keys {MarketData} _.

(** [Field(ge=0, le=1)] *)
Definition in_unit_interval (x : Q) : bool := Qle_bool 0 x && Qle_bool x 1.

Section Analysis.
Variable MarketData : Type.
(** The [StandardizedMarket] constructor on an unpacked dictionary: [None]
    when validation raises. *)
Variable validate_market : MarketData -> option StandardizedMarket.

(** The opportunity is the numeric part of [ArbitrageOpportunity]; its [id],
    time stamp and the two rationale texts are not kept. Every exception of
    the body, validation errors included, is caught and gives [None]. *)
Definition analyze_opportunity (self : ArbitrageDetector) (mt : AnalysisMatch MarketData)
  : option ArbitrageOpportunity :=
  match kalshi_market_data mt, polymarket_market_data mt with
  | Some kalshi_data, Some polymarket_data =>
      match validate_market kalshi_data, validate_market polymarket_data with
      | Some kalshi_market, Some polymarket_market =>
          match match_kalshi_price mt, match_polymarket_price mt with
          | Some kalshi_price, Some polymarket_price =>
              match _calculate_arbitrage self kalshi_price polymarket_price with
              | None => None
              | Some arbitrage_calc =>
                  if PyFloat.ltb (calc_profit_percentage arbitrage_calc)
                                 (min_profit_percentage self)
                  then None
                  else
                    let risk :=
                      _calculate_risk_score (risk_keys mt) kalshi_market polymarket_market in
                    let similarity :=
                      get_default (match_similarity_score (risk_keys mt)) 0.0 in
                    if in_unit_interval risk && in_unit_interval similarity
                    then Some {|
                      market_1 := kalshi_market;
                      market_2 := polymarket_market;
                      profit_percentage := calc_profit_percentage arbitrage_calc;
                      required_investment := calc_required_investment arbitrage_calc;
                      potential_profit := calc_potential_profit arbitrage_calc;
                      risk_score := risk;
                      confidence_score := similarity;
                      similarity_score := similarity;
                      price_difference := Qabs (kalshi_price - polymarket_price) |}
                    else None
              end
          | _, _ => None
          end
      | _, _ => None
      end
  | _, _ => None
  end.

End Analysis.
Arguments analyze_opportunity {MarketData} _ _ _.

(** A matched pair: [pair.get('kalshi_id')], [pair.get('polymarket_id')]. *)
Record Pair : Type := mkPair {
  kalshi_id : option string;
  polymarket_id : option string
}.

(** [{market.id: market for market in markets}.get(key)]: of two markets
    with one id the later one is kept. *)
Definition lookup_market (markets : list StandardizedMarket) (key : option string)
  : option StandardizedMarket :=
  match key with
  | None => None
  | Some wanted => find (fun m => String.eqb (market_id m) wanted) (rev markets)
  end.

(** [clock k] is the reading of [utcnow] while pair number [k] is handled. *)
Fixpoint detect_from (clock : nat -> string) (k : nat) (pairs : list Pair)
  (kalshi_markets polymarket_markets : list StandardizedMarket)
  : list PairOpportunity :=
  match pairs with
  | [] => []
  | matched :: rest =>
      let later := detect_from clock (S k) rest kalshi_markets polymarket_markets in
      match lookup_market kalshi_markets (kalshi_id matched),
            lookup_market polymarket_markets (polymarket_id matched) with
      | Some kalshi_market, Some polymarket_market =>
          match _calculate_arbitrage_opportunity (clock k) kalshi_market polymarket_market with
          | Some arbitrage => arbitrage :: later
          | None => later
          end
      | _, _ => later
      end
  end.

Definition detect_arbitrage_from_pairs (clock : nat -> string) (pairs : list Pair)
  (kalshi_markets polymarket_markets : list StandardizedMarket)
  : list PairOpportunity :=
  detect_from clock 0 pairs kalshi_markets polymarket_markets.

(** A market dictionary that validates to itself, for examples. *)
Definition plain_analysis_match (kalshi_price polymarket_price : Q) (similarity : option Q)
  : AnalysisMatch StandardizedMarket :=
  {| kalshi_market_data := Some DetectorSamples.liquid_market;
     polymarket_market_data := Some DetectorSamples.liquid_market;
     match_kalshi_price := Some kalshi_price;
     match_polymarket_price := Some polymarket_price;
     risk_keys := {| match_similarity_score := similarity;
                     match_price_difference := None |} |}.

(** A market closing at the instant [closes], in microseconds. *)
Definition market_closing (closes : Z) : StandardizedMarket :=
  {| market_id := "M"; title := "Will it rain?"; close_date := Some closes;
     outcomes := []; total_volume := Some 5000; source_url := None;
     primary_question := "it rain" |}.

(** The same opportunity with another profit percentage, and the same
    market with another close date. *)
Definition with_profit_percentage (opp : ArbitrageOpportunity) (profit : Q)
  : ArbitrageOpportunity :=
  {| market_1 := market_1 opp; market_2 := market_2 opp;
     profit_percentage := profit;
     required_investment := required_investment opp;
     potential_profit := potential_profit opp;
     risk_score := risk_score opp;
     confidence_score := confidence_score opp;
     similarity_score := similarity_score opp;
     price_difference := price_difference opp |}.

Definition with_close_date (m : StandardizedMarket) (closes : option Z)
  : StandardizedMarket :=
  {| market_id := market_id m; title := title m; close_date := closes;
     outcomes := outcomes m; total_volume := total_volume m;
     source_url := source_url m; primary_question := primary_question m |}.

Definition with_similarity (mt : Match) (similarity : Q) : Match :=
  {| match_similarity_score := Some similarity;
     match_price_difference := match_price_difference mt |}.

End DetectorFlows.

(** ** Vocabulary for statements about [get_market_prices] *)

Module PolymarketPricesTerms.
Import PyData PolymarketPrices.

(** [token in chunk] *)
Definition mentions (chunk : list string) (token : string) : bool :=
  existsb (String.eqb token) chunk.

(** The chunk the chunking loop leaves behind: the tokens from the last
    multiple of 10 below the length on. *)
Definition last_chunk (token_ids : list string) : list string :=
  skipn (10 * ((List.length token_ids - 1) / 10)) token_ids.

(** A transport that always raises, and the transports that answer every
    payload with a dictionary pricing each token asked. *)
Definition always_fails {W : Type}
  (transport : W -> Payload -> result PostResponse * W) : Prop :=
  forall w payload, exists e w', transport w payload = (Raise e, w').

Definition prices_what_is_asked {W : Type}
  (transport : W -> Payload -> result PostResponse * W) : Prop :=
  forall w payload, exists d w',
    transport w payload = (Return (ResponseDict d), w') /\
    forall entry, In entry payload -> dict_get d (token_id entry) <> None.

Definition refusing_server (w : unit) (payload : Payload) : result PostResponse * unit :=
  (Raise (PlainException "HTTP 503: Service Unavailable"), tt).

End PolymarketPricesTerms.

(** ** kalshi_client.py: [_convert_to_standardized_market]

    The raw record holds the keys that feed the fields of
    [StandardizedMarket] kept in this development; status, category, the
    opening and expiration times and the liquidity feed fields that are not
    kept. [fromisoformat] is [datetime.fromisoformat], [None] when it raises
    [ValueError]. Prices are in cents. *)

Module KalshiNormalizer.
Import PyStr PrimaryQuestion.
Local Open Scope Q_scope.

(** [s.replace(c, by)] for a one-character [c]. *)
Definition replace_char (c : ascii) (by_ : str) (s : str) : str :=
  flat_map (fun x => if Ascii.eqb x c then by_ else [x]) s.

(** [s.split(sep)] for a one-character separator: empty pieces are kept. *)
Fixpoint split_on (sep : ascii) (s : str) : list str :=
  match s with
  | [] => [[]]
  | c :: rest =>
      if Ascii.eqb c sep then [] :: split_on sep rest
      else
        match split_on sep rest with
        | [] => [[c]]
        | piece :: pieces => (c :: piece) :: pieces
        end
  end.

(** [sep.join(pieces)] *)
Fixpoint join (sep : str) (pieces : list str) : str :=
  match pieces with
  | [] => []
  | [piece] => piece
  | piece :: rest => piece ++ sep ++ join sep rest
  end.

Definition nonempty (piece : str) : bool :=
  match piece with
  | [] => false
  | _ :: _ => true
  end.

Record KalshiMarketJson : Type := mkKalshiMarketJson {
  json_ticker : string;
  json_title : string;
  json_rules_primary : option string;
  json_close_time : option string;
  json_yes_bid : option Q;
  json_yes_ask : option Q;
  json_no_bid : option Q;
  json_no_ask : option Q;
  json_last_price : option Q;
  json_volume : option Q
}.

(** [x is not None and x > 0] *)
Definition positive (x : option Q) : option Q :=
  match x with
  | Some v => if PyFloat.ltb 0 v then Some v else None
  | None => None
  end.

Definition is_present (x : option Q) : bool :=
  match x with
  | Some _ => true
  | None => false
  end.

(** The price of the YES side: last trade, then ask, then bid, the first
    that is strictly positive. *)
Definition kalshi_yes_price (kalshi_market : KalshiMarketJson) : option Q :=
  match positive (json_last_price kalshi_market) with
  | Some last_price => Some (last_price / 100.0)
  | None =>
      match positive (json_yes_ask kalshi_market) with
      | Some yes_ask => Some (yes_ask / 100.0)
      | None =>
          match positive (json_yes_bid kalshi_market) with
          | Some yes_bid => Some (yes_bid / 100.0)
          | None => None
          end
      end
  end.

Definition kalshi_no_price (kalshi_market : KalshiMarketJson) : option Q :=
  match positive (json_last_price kalshi_market) with
  | Some last_price => Some ((100 - last_price) / 100.0)
  | None =>
      match positive (json_no_ask kalshi_market) with
      | Some no_ask => Some (no_ask / 100.0)
      | None =>
          match positive (json_no_bid kalshi_market) with
          | Some no_bid => Some (no_bid / 100.0)
          | None => None
          end
      end
  end.

Definition kalshi_outcomes (kalshi_market : KalshiMarketJson) : list MarketOutcome :=
  let market_id := json_ticker kalshi_market in
  let outcomes := [] in
  let outcomes :=
    if is_present (json_yes_bid kalshi_market) || is_present (json_yes_ask kalshi_market)
    then outcomes ++ [ {| outcome_id := (market_id ++ "_yes")%string;
                          outcome_name := "Yes";
                          yes_price := kalshi_yes_price kalshi_market;
                          no_price := None;
                          volume := json_volume kalshi_market;
                          last_trade_price := None;
                          bid := None; ask := None; is_winner := None |} ]
    else outcomes in
  if is_present (json_no_bid kalshi_market) || is_present (json_no_ask kalshi_market)
  then outcomes ++ [ {| outcome_id := (market_id ++ "_no")%string;
                        outcome_name := "No";
                        yes_price := None;
                        no_price := kalshi_no_price kalshi_market;
                        volume := json_volume kalshi_market;
                        last_trade_price := None;
                        bid := None; ask := None; is_winner := None |} ]
  else outcomes.

(** The characters taken out of the title, in the order of the chain of
    [replace] calls: blank to dash, nine marks to nothing, slash to dash,
    ampersand to "and". *)
Definition slug_replacements (s : str) : str :=
  let s := replace_char " "%char (lit "-") s in
  let s := replace_char "?"%char [] s in
  let s := replace_char ":"%char [] s in
  let s := replace_char ","%char [] s in
  let s := replace_char "."%char [] s in
  let s := replace_char "("%char [] s in
  let s := replace_char ")"%char [] s in
  let s := replace_char "["%char [] s in
  let s := replace_char "]"%char [] s in
  let s := replace_char "/"%char (lit "-") s in
  replace_char "&"%char (lit "and") s.

Definition kalshi_title_slug (title : str) : str :=
  let title_lower := lower title in
  if contains title_lower (lit "bolivia") && contains title_lower (lit "first round")
  then lit "bolivia-first-round-winner"
  else if contains title_lower (lit "bolivia") then lit "bolivia-election"
  else
    let title_slug := slug_replacements (lower title) in
    let title_slug := join (lit "-") (filter nonempty (split_on "-"%char title_slug)) in
    let words := firstn 6 (split_on "-"%char title_slug) in
    join (lit "-") words.

Definition kalshi_ticker_prefix (ticker : str) : str :=
  lower (hd [] (split_on "-"%char ticker)).

Section WithClock.
Variable fromisoformat : str -> option Z.

Definition parse_time (time : option string) : option Z :=
  match time with
  | None => None
  | Some EmptyString => None
  | Some text => fromisoformat (replace_char "Z"%char (lit "+00:00") (lit text))
  end.

(** The record holds the values of the keys for an object whose values
    have the types the API gives them. The code runs the body under
    [try ... except Exception: return None]: on an object with a value of
    another type (a null [status], say) the body raises and the answer is
    [None]. The [None] of this definition is the early return; where the
    code returns a market, it is the market computed here. *)
Definition _convert_to_standardized_market (kalshi_market : KalshiMarketJson)
  : option StandardizedMarket :=
  let market_id := json_ticker kalshi_market in
  let title := json_title kalshi_market in
  let description :=
    match json_rules_primary kalshi_market with
    | Some rules => rules
    | None => title
    end in
  if String.eqb market_id "" || String.eqb title "" then None
  else
    let close_date := parse_time (json_close_time kalshi_market) in
    let outcomes := kalshi_outcomes kalshi_market in
    let primary_question :=
      kalshi_extract_primary_question (lit title) (lit description) in
    let source_url :=
      lit "https://kalshi.com/markets/" ++ kalshi_ticker_prefix (lit market_id)
      ++ lit "/" ++ kalshi_title_slug (lit title) in
    Some {| market_id := market_id;
            title := title;
            close_date := close_date;
            outcomes := outcomes;
            total_volume := json_volume kalshi_market;
            source_url := Some (string_of_list_ascii source_url);
            primary_question := string_of_list_ascii primary_question |}.

End WithClock.

(** Quotes in cents between 0 and 100. *)
Definition cents (x : option Q) : Prop :=
  match x with
  | Some v => 0 <= v /\ v <= 100
  | None => True
  end.

Definition quoted_in_cents (kalshi_market : KalshiMarketJson) : Prop :=
  cents (json_yes_bid kalshi_market) /\ cents (json_yes_ask kalshi_market) /\
  cents (json_no_bid kalshi_market) /\ cents (json_no_ask kalshi_market) /\
  cents (json_last_price kalshi_market).

(** A record with all four quotes and a last trade. *)
Definition traded_record : KalshiMarketJson :=
  {| json_ticker := "KXRAIN-25"; json_title := "Will it rain (in Paris)?";
     json_rules_primary := None; json_close_time := Some "2025-08-01T00:00:00Z"%string;
     json_yes_bid := Some 40; json_yes_ask := Some 44;
     json_no_bid := Some 56; json_no_ask := Some 60;
     json_last_price := Some 42; json_volume := Some 1500 |}.

(** A clock-free parser for examples. *)
Definition no_parse (text : str) : option Z := None.

(** The characters the slug rewriting takes out, and the dash. *)
Definition slug_separators : str := lit " ?:,.()[]/&-".

Definition slug_char (c : ascii) : bool :=
  negb (existsb (Ascii.eqb c) slug_separators) && Ascii.eqb (lower_char c) c.

(** A word of a slug: not empty, lower case, free of separators. *)
Definition slug_word (word : str) : bool := nonempty word && forallb slug_char word.

End KalshiNormalizer.

(** ** The range of floats

    Floats are modelled by exact rationals, which floats follow up to
    rounding as long as they stay in the normal range. The quotient
    [profit_percentage / 100.0] of the bet sizing leaves it for the smallest
    profits: below [2^-1022] it loses its precision and at last underflows to
    [0.0], which raises [ZeroDivisionError] like a zero profit. The
    comparison of a spread with [0.03] is made on rounded values, and can
    differ from the exact one within the rounding of the prices. The
    statements on the sizing formula and on the pairs that are accepted are
    made away from these two edges. *)

Module PyFloatRange.
Local Open Scope Q_scope.

(** The smallest positive normal double, [2^-1022]. *)
Definition smallest_normal : Q := 1 # (2 ^ 1022).

(** [x] is not closer to zero than the normal doubles are. *)
Definition normal (x : Q) : Prop := smallest_normal <= Qabs x.

(** A price on one of the two scales of the platforms, 0 to 1 or 0 to 100. *)
Definition on_price_scale (price : Q) : Prop := 0 <= price /\ price <= 100.

(** A spread clear of the threshold 0.03 by more than the rounding of two
    prices on that scale. *)
Definition clear_spread (spread : Q) : Prop := 0.030001 <= spread.

End PyFloatRange.

(** ** polymarket_client.py: [_convert_to_standardized_market_with_prices] *)

Module PolymarketNormalizer.
Import PyStr PrimaryQuestion PyData PolymarketPrices Listing KalshiNormalizer.
Local Open Scope Q_scope.

(** The assignments [outcome.yes_price = v] and the like. *)
Definition set_yes_price (outcome : MarketOutcome) (v : Q) : MarketOutcome :=
  {| outcome_id := outcome_id outcome; outcome_name := outcome_name outcome;
     yes_price := Some v; no_price := no_price outcome; volume := volume outcome;
     last_trade_price := last_trade_price outcome; bid := bid outcome; ask := ask outcome;
     is_winner := is_winner outcome |}.

Definition set_no_price (outcome : MarketOutcome) (v : Q) : MarketOutcome :=
  {| outcome_id := outcome_id outcome; outcome_name := outcome_name outcome;
     yes_price := yes_price outcome; no_price := Some v; volume := volume outcome;
     last_trade_price := last_trade_price outcome; bid := bid outcome; ask := ask outcome;
     is_winner := is_winner outcome |}.

Definition set_bid (outcome : MarketOutcome) (v : Q) : MarketOutcome :=
  {| outcome_id := outcome_id outcome; outcome_name := outcome_name outcome;
     yes_price := yes_price outcome; no_price := no_price outcome; volume := volume outcome;
     last_trade_price := last_trade_price outcome; bid := Some v; ask := ask outcome;
     is_winner := is_winner outcome |}.

Definition set_ask (outcome : MarketOutcome) (v : Q) : MarketOutcome :=
  {| outcome_id := outcome_id outcome; outcome_name := outcome_name outcome;
     yes_price := yes_price outcome; no_price := no_price outcome; volume := volume outcome;
     last_trade_price := last_trade_price outcome; bid := bid outcome; ask := Some v;
     is_winner := is_winner outcome |}.

(** ["yes" in outcome.name.lower()] *)
Definition names_yes (name : string) : bool := contains (lower (lit name)) (lit "yes").

Section WithParsers.
(** [float(text)], [None] for a [ValueError]; [datetime.fromisoformat]; and
    the two keys of the market object that [PolyRaw] does not carry,
    [.get('market_slug', '')] and [.get('end_date_iso')]. *)
Variable float : string -> option Q.
Variable fromisoformat : str -> option Z.
Variable market_slug_of : PolyRaw -> string.
Variable end_date_iso_of : PolyRaw -> option string.

(** The pricing of one outcome: the body of
    [if prices_data and (str(token_id) in prices_data ...)]. The [try] ends
    at the first [float] that fails, keeping the assignments made so far. *)
Definition apply_prices (prices_data : dict TokenPrices) (token_id : string)
  (outcome : MarketOutcome) : MarketOutcome :=
  match dict_get prices_data token_id with
  | None => outcome
  | Some token_prices =>
      let buy_price := price_BUY token_prices in
      let sell_price := price_SELL token_prices in
      match buy_price with
      | None => outcome
      | Some buy_text =>
          match float buy_text with
          | None => outcome
          | Some price_value =>
              let outcome :=
                if names_yes (outcome_name outcome)
                then set_yes_price outcome price_value
                else set_no_price outcome price_value in
              match sell_price with
              | None => outcome
              | Some sell_text =>
                  let outcome := set_bid outcome price_value in
                  match float sell_text with
                  | None => outcome
                  | Some sell_value => set_ask outcome sell_value
                  end
              end
          end
      end
  end.

(** One turn of [for token in tokens:]. *)
Definition token_outcome (condition_id : string) (prices_data : dict TokenPrices)
  (token : PolyToken) : list MarketOutcome :=
  let token_id := raw_token_id token in
  let outcome_name := raw_outcome token in
  if String.eqb token_id "" then []
  else
    let outcome :=
      {| outcome_id :=
           (condition_id ++ "_"
            ++ string_of_list_ascii
                 (replace_char " "%char (lit "_") (lower (lit outcome_name))))%string;
         outcome_name := outcome_name;
         yes_price := None; no_price := None; volume := None;
         last_trade_price := None; bid := None; ask := None; is_winner := None |} in
    [apply_prices prices_data token_id outcome].

Definition polymarket_source_url (condition_id market_slug : string)
  (tokens : list PolyToken) : string :=
  let first_token_id :=
    match tokens with
    | [] => ""%string
    | token :: _ => raw_token_id token
    end in
  let base_url :=
    if negb (String.eqb market_slug "")
    then ("https://polymarket.com/event/" ++ market_slug)%string
    else ("https://polymarket.com/event/" ++ condition_id)%string in
  if negb (String.eqb first_token_id "")
  then (base_url ++ "?tid=" ++ first_token_id)%string
  else base_url.

(** As for Kalshi, the body runs under [try ... except Exception: return
    None], and [PolyRaw] holds an object whose values have their types: on
    another object (a token with a null [outcome], say) the body raises and
    the answer is [None]. The [None] of this definition is the early
    return; where the code returns a market, it is the market computed
    here. *)
Definition _convert_to_standardized_market_with_prices
  (polymarket_data : PolyRaw) (prices_data : dict TokenPrices)
  : option StandardizedMarket :=
  let condition_id := raw_condition_id polymarket_data in
  let question := raw_question polymarket_data in
  let market_slug := market_slug_of polymarket_data in
  if String.eqb condition_id "" || negb (nonempty question) then None
  else
    let close_date := parse_time fromisoformat (end_date_iso_of polymarket_data) in
    let tokens := raw_tokens polymarket_data in
    let outcomes := flat_map (token_outcome condition_id prices_data) tokens in
    let primary_question := polymarket_extract_primary_question question question in
    let source_url := polymarket_source_url condition_id market_slug tokens in
    Some {| market_id := condition_id;
            title := string_of_list_ascii question;
            close_date := close_date;
            outcomes := outcomes;
            total_volume := None;
            source_url := Some source_url;
            primary_question := string_of_list_ascii primary_question |}.

End WithParsers.

(** An outcome without any price. *)
Definition unpriced (outcome : MarketOutcome) : Prop :=
  yes_price outcome = None /\ no_price outcome = None /\
  last_trade_price outcome = None /\ bid outcome = None /\ ask outcome = None.

(** A parser for examples: two prices, anything else is not a number. *)
Definition two_prices (text : string) : option Q :=
  if String.eqb text "0.55" then Some 0.55
  else if String.eqb text "0.45" then Some 0.45
  else None.

Definition no_slug (polymarket_data : PolyRaw) : string := ""%string.
Definition no_end_date (polymarket_data : PolyRaw) : option string := None.

Definition yes_no_market : PolyRaw :=
  {| raw_condition_id := "0xabc"; raw_question := lit "Will it rain in Paris?";
     raw_active := true; raw_closed := false;
     raw_tokens := [ {| raw_token_id := "101"; raw_outcome := "Yes" |};
                     {| raw_token_id := "102"; raw_outcome := "No" |} ] |}.

Definition yes_no_prices : dict TokenPrices :=
  [ ("101"%string, {| price_BUY := Some "0.55"%string; price_SELL := Some "0.56"%string |});
    ("102"%string, {| price_BUY := Some "0.45"%string; price_SELL := None |}) ].

(** Six two-token markets: twelve tokens "A" to "L", so that the last
    chunk of ten holds the tokens of the sixth market only. *)
Definition two_token_market (k : nat) : PolyRaw :=
  {| raw_condition_id := String (ascii_of_nat (48 + k)) EmptyString;
     raw_question := lit "Will it rain in Paris?";
     raw_active := true; raw_closed := false;
     raw_tokens :=
       [ {| raw_token_id := String (ascii_of_nat (65 + 2 * k)) EmptyString;
            raw_outcome := "Yes" |};
         {| raw_token_id := String (ascii_of_nat (66 + 2 * k)) EmptyString;
            raw_outcome := "No" |} ] |}.

Definition six_markets : list PolyRaw := map two_token_market (seq 0 6).

End PolymarketNormalizer.

(** ** nordvpn_manager.py

    The environment is a state [W] and [run], the [subprocess.run] of the
    module: a command completes with a return code and its two texts, or
    raises. Each method is modelled with the manager it leaves, the commands
    it runs and the sleeps it makes. *)

Module NordVPN.
Import PyStr KalshiNormalizer.

Record Command : Type := mkCommand {
  argv : list string;
  cwd : option string;
  timeout : nat
}.

Record Completed : Type := mkCompleted {
  returncode : Z;
  stdout : str;
  stderr : str
}.

Inductive run_exn : Type :=
| TimeoutExpired
| FileNotFoundError
| SubprocessError
| OtherError.

Inductive Ran : Type :=
| Completes (result : Completed)
| Fails (e : run_exn).

Inductive Event : Type :=
| Run (command : Command)
| Sleep (seconds : nat).

Record NordVPNManager : Type := mkNordVPNManager {
  is_connected : bool;
  current_server : option string;
  nordvpn_path : string;
  nordvpn_dir : option string
}.

(** What a method leaves behind. *)
Record Outcome (A W : Type) : Type := mkOutcome {
  returned : A;
  manager : NordVPNManager;
  world : W;
  events : list Event
}.

Arguments mkOutcome {A W} _ _ _ _.
Arguments returned {A W} _.
Arguments manager {A W} _.
Arguments world {A W} _.
Arguments events {A W} _.

(** The result of [ensure_connection]: a boolean, or the [NameError] of the
    global name [NORDVPN_COUNTRY], which the module neither defines nor
    imports. *)
Inductive Ensured : Type :=
| Returned (connected : bool)
| RaisedNameError.

Definition connected_manager (self : NordVPNManager) : NordVPNManager :=
  {| is_connected := true; current_server := Some "NordVPN Connected"%string;
     nordvpn_path := nordvpn_path self; nordvpn_dir := nordvpn_dir self |}.

Definition disconnected_manager (self : NordVPNManager) : NordVPNManager :=
  {| is_connected := false; current_server := None;
     nordvpn_path := nordvpn_path self; nordvpn_dir := nordvpn_dir self |}.

(** [kwargs["cwd"] = self.nordvpn_dir] when the directory is set. *)
Definition nordvpn_command (self : NordVPNManager) (arguments : list string)
  (seconds : nat) : Command :=
  {| argv := nordvpn_path self :: arguments;
     cwd := match nordvpn_dir self with
            | Some EmptyString => None
            | dir => dir
            end;
     timeout := seconds |}.

Definition netsh_command : Command :=
  {| argv := ["netsh"; "interface"; "show"; "interface"]%string;
     cwd := None; timeout := 10 |}.

(** The test on one line of the lower-cased [netsh] output. *)
Definition is_vpn_line (line : str) : bool :=
  contains line (lit "connected")
  && (contains line (lit "nordvpn") || contains line (lit "tap")
      || contains line (lit "vpn")).

(** [country or NORDVPN_COUNTRY]: the country when it is given and not
    empty, the undefined name otherwise. *)
Definition country_or_default (country : option string) : option string :=
  match country with
  | Some EmptyString => None
  | Some name => Some name
  | None => None
  end.

Section WithSubprocess.
Variable W : Type.
Variable run : W -> Command -> Ran * W.

(** [check_nordvpn_installation]: [inr] for an exception it does not catch. *)
Definition check_nordvpn_installation (self : NordVPNManager) (w : W)
  : (bool + run_exn) * W :=
  let '(result, w) := run w (nordvpn_command self ["-v"%string] 10) in
  match result with
  | Completes result => (inl (returncode result =? 0)%Z, w)
  | Fails OtherError => (inr OtherError, w)
  | Fails _ => (inl false, w)
  end.

Definition _check_status_via_connect_attempt (self : NordVPNManager) (w : W)
  : Outcome bool W :=
  let command := nordvpn_command self ["-c"%string] 15 in
  let '(result, w) := run w command in
  match result with
  | Completes result =>
      let output := lower (stdout result) ++ lower (stderr result) in
      if existsb (contains output)
           [lit "already connected"; lit "currently connected"; lit "disconnect first"]
      then mkOutcome true (connected_manager self) w [Run command]
      else if contains output (lit "connected") && contains output (lit "success")
      then mkOutcome true (connected_manager self) w [Run command]
      else mkOutcome false (disconnected_manager self) w [Run command]
  | Fails _ => mkOutcome false (disconnected_manager self) w [Run command]
  end.

(** [get_status]: the boolean of the pair returned; the server of the pair
    is [current_server] of the manager left. *)
Definition get_status (self : NordVPNManager) (w : W) : Outcome bool W :=
  let '(result, w) := run w netsh_command in
  let fallback :=
    let after := _check_status_via_connect_attempt self w in
    mkOutcome (returned after) (manager after) (world after)
      (Run netsh_command :: events after) in
  match result with
  | Completes result =>
      if (returncode result =? 0)%Z then
        let output := lower (stdout result) in
        let lines := split_on (ascii_of_nat 10) output in
        if existsb is_vpn_line lines
        then mkOutcome true (connected_manager self) w [Run netsh_command]
        else mkOutcome false (disconnected_manager self) w [Run netsh_command]
      else fallback
  | Fails _ => fallback
  end.

(** [connect]: every exception of the body ends in [return False]. *)
Definition connect (self : NordVPNManager) (country : option string) (w : W)
  : Outcome bool W :=
  let check := nordvpn_command self ["-v"%string] 10 in
  let '(installed, w) := check_nordvpn_installation self w in
  match installed with
  | inr _ => mkOutcome false self w [Run check]
  | inl false => mkOutcome false self w [Run check]
  | inl true =>
      match country_or_default country with
      | None => mkOutcome false self w [Run check]
      | Some country =>
          let command := nordvpn_command self ["-c"; "-g"; country]%string 60 in
          let '(result, w) := run w command in
          match result with
          | Completes result =>
              if (returncode result =? 0)%Z then
                let self := {| is_connected := true; current_server := current_server self;
                               nordvpn_path := nordvpn_path self;
                               nordvpn_dir := nordvpn_dir self |} in
                let status := get_status self w in
                let self := manager status in
                let self :=
                  {| is_connected := is_connected self;
                     current_server :=
                       if returned status then current_server self else None;
                     nordvpn_path := nordvpn_path self;
                     nordvpn_dir := nordvpn_dir self |} in
                mkOutcome true self (world status)
                  (Run check :: Run command :: events status)
              else mkOutcome false self w [Run check; Run command]
          | Fails _ => mkOutcome false self w [Run check; Run command]
          end
      end
  end.

(** The turns of [for attempt in range(1, max_retries + 1):]. *)
Fixpoint connection_attempts (country : option string) (max_retries : nat)
  (attempts : list nat) (self : NordVPNManager) (w : W) : Outcome bool W :=
  match attempts with
  | [] => mkOutcome false self w []
  | attempt :: rest =>
      let connection := connect self country w in
      let verification :=
        if returned connection
        then get_status (manager connection) (world connection)
        else mkOutcome false (manager connection) (world connection) [] in
      if returned verification
      then mkOutcome true (manager verification) (world verification)
             (events connection ++ events verification)
      else
        let wait :=
          if attempt <? max_retries then [Sleep (2 * attempt)] else [] in
        let after :=
          connection_attempts country max_retries rest
            (manager verification) (world verification) in
        mkOutcome (returned after) (manager after) (world after)
          (events connection ++ events verification ++ wait ++ events after)
  end.

Definition ensure_connection (self : NordVPNManager) (country : option string)
  (max_retries : nat) (w : W) : Outcome Ensured W :=
  let status := get_status self w in
  if returned status
  then mkOutcome (Returned true) (manager status) (world status) (events status)
  else
    match country_or_default country with
    | None => mkOutcome RaisedNameError (manager status) (world status) (events status)
    | Some _ =>
        let after :=
          connection_attempts country max_retries (seq 1 max_retries)
            (manager status) (world status) in
        mkOutcome (Returned (returned after)) (manager after) (world after)
          (events status ++ events after)
    end.

End WithSubprocess.

Arguments check_nordvpn_installation {W} _ _ _.
Arguments _check_status_via_connect_attempt {W} _ _ _.
Arguments get_status {W} _ _ _.
Arguments connect {W} _ _ _ _.
Arguments connection_attempts {W} _ _ _ _ _ _.
Arguments ensure_connection {W} _ _ _ _ _.

(** The sleeps of a run, and its commands of a given kind: the connections
    to a country [nordvpn -c -g <country>] and the installation checks
    [nordvpn -v]. *)
Fixpoint sleeps (events : list Event) : list nat :=
  match events with
  | [] => []
  | Sleep seconds :: rest => seconds :: sleeps rest
  | Run _ :: rest => sleeps rest
  end.

Definition is_country_connection (event : Event) : bool :=
  match event with
  | Run command =>
      match argv command with
      | [_; dash_c; dash_g; _] => String.eqb dash_c "-c" && String.eqb dash_g "-g"
      | _ => false
      end
  | Sleep _ => false
  end.

Definition is_installation_check (event : Event) : bool :=
  match event with
  | Run command =>
      match argv command with
      | [_; dash_v] => String.eqb dash_v "-v"
      | _ => false
      end
  | Sleep _ => false
  end.

Definition country_connections (events : list Event) : nat :=
  List.length (filter is_country_connection events).

Definition installation_checks (events : list Event) : nat :=
  List.length (filter is_installation_check events).

(** A machine on which [netsh] lists a disconnected TAP adapter and every
    other command fails. *)
Definition adapter_down (w : unit) (command : Command) : Ran * unit :=
  match argv command with
  | "netsh"%string :: _ =>
      (Completes {| returncode := 0;
                    stdout := lit "Enabled  Disconnected  Dedicated  TAP-NordVPN";
                    stderr := [] |}, tt)
  | _ => (Fails FileNotFoundError, tt)
  end.

(** A machine without VPN adapter on which every [nordvpn] command returns
    code 1. *)
Definition no_adapter (w : unit) (command : Command) : Ran * unit :=
  match argv command with
  | "netsh"%string :: _ =>
      (Completes {| returncode := 0; stdout := lit "Enabled  Connected  Dedicated  Ethernet";
                    stderr := [] |}, tt)
  | [_; "-v"%string] => (Completes {| returncode := 0; stdout := []; stderr := [] |}, tt)
  | _ => (Completes {| returncode := 1; stdout := []; stderr := lit "failed" |}, tt)
  end.

Definition fresh_manager : NordVPNManager :=
  {| is_connected := false; current_server := None;
     nordvpn_path := "nordvpn"; nordvpn_dir := None |}.

End NordVPN.

(** ** The demo runner: [scanner_demo.py] *)

Module ScannerDemo.
Import Detector.
Local Open Scope Q_scope.

(** [_best_yes_price]: the two loops of the detector's [_get_best_price],
    without its test for an empty outcome list. *)
Definition _best_yes_price (m : StandardizedMarket) : option Q :=
  match first_yes_or_last_trade (outcomes m) with
  | Some p => Some p
  | None => first_no_converted (outcomes m)
  end.

(** One printed candidate of the cross comparison of [main]. *)
Record Candidate : Type := mkCandidate {
  candidate_spread : Q;
  candidate_kalshi_price : Q;
  candidate_polymarket_price : Q;
  candidate_kalshi_market : StandardizedMarket;
  candidate_polymarket_market : StandardizedMarket
}.

(** The nested loop of [main] over the fetched markets: the candidates in
    the order they are printed. *)
Definition cross_compare (min_spread : Q)
  (kalshi_markets poly_markets : list StandardizedMarket) : list Candidate :=
  flat_map (fun km =>
    match _best_yes_price km with
    | None => []
    | Some kp =>
        flat_map (fun pm =>
          match _best_yes_price pm with
          | None => []
          | Some pp =>
              let spread := Qabs (kp - pp) in
              if PyFloat.leb min_spread spread
              then [ {| candidate_spread := spread;
                        candidate_kalshi_price := kp;
                        candidate_polymarket_price := pp;
                        candidate_kalshi_market := km;
                        candidate_polymarket_market := pm |} ]
              else []
          end) poly_markets
    end) kalshi_markets.

(** The default of [--min-spread]. *)
Definition default_min_spread : Q := 0.03.

End ScannerDemo.

(** * Properties *)

(** ** Comparisons, [min] and division *)

Section FloatFacts.
Open Scope Q_scope.

Lemma leb_true_iff (x y : Q) : PyFloat.leb x y = true <-> x <= y.
Proof. apply Qle_bool_iff. Qed.

Lemma leb_false_iff (x y : Q) : PyFloat.leb x y = false <-> y < x.
Proof.
  unfold PyFloat.leb. split; intro H.
  - apply Qnot_le_lt. intro L. apply Qle_bool_iff in L. congruence.
  - destruct (Qle_bool x y) eqn:E; [|reflexivity].
    apply Qle_bool_iff in E. exfalso. exact (Qlt_not_le _ _ H E).
Qed.

Lemma ltb_true_iff (x y : Q) : PyFloat.ltb x y = true <-> x < y.
Proof.
  unfold PyFloat.ltb. rewrite negb_true_iff. apply leb_false_iff.
Qed.

Lemma ltb_false_iff (x y : Q) : PyFloat.ltb x y = false <-> y <= x.
Proof.
  unfold PyFloat.ltb. rewrite negb_false_iff. apply Qle_bool_iff.
Qed.

Lemma min2_le_l (a b : Q) : PyFloat.min2 a b <= a.
Proof.
  unfold PyFloat.min2. destruct (PyFloat.ltb b a) eqn:E.
  - apply ltb_true_iff in E. lra.
  - lra.
Qed.

Lemma min2_le_r (a b : Q) : PyFloat.min2 a b <= b.
Proof.
  unfold PyFloat.min2. destruct (PyFloat.ltb b a) eqn:E.
  - lra.
  - apply ltb_false_iff in E. exact E.
Qed.

Lemma min2_glb (a b c : Q) : c <= a -> c <= b -> c <= PyFloat.min2 a b.
Proof. unfold PyFloat.min2. destruct (PyFloat.ltb b a); auto. Qed.

Lemma min2_Qmin (a b : Q) : PyFloat.min2 a b == Qmin a b.
Proof.
  apply Qle_antisym.
  - apply Q.min_glb; [apply min2_le_l | apply min2_le_r].
  - apply min2_glb; [apply Q.le_min_l | apply Q.le_min_r].
Qed.

Lemma min3_Qmin (a b c : Q) : PyFloat.min3 a b c == Qmin (Qmin a b) c.
Proof.
  unfold PyFloat.min3. rewrite min2_Qmin. rewrite (min2_Qmin a b). reflexivity.
Qed.

Lemma normal_nonzero (x : Q) : PyFloatRange.normal x -> ~ x == 0.
Proof.
  unfold PyFloatRange.normal. intros H E. rewrite E in H.
  assert (Hpos : 0 < PyFloatRange.smallest_normal) by reflexivity.
  change (Qabs 0) with 0 in H. lra.
Qed.

Lemma normal_ratio_nonzero (x : Q) : PyFloatRange.normal (x / 100.0) -> ~ x == 0.
Proof.
  intros H E. apply (normal_nonzero _ H). rewrite E. reflexivity.
Qed.

Lemma div_nonzero (x y : Q) : ~ y == 0 -> PyFloat.div x y = Return (x / y).
Proof.
  intro H. unfold PyFloat.div. destruct (Qeq_bool y 0) eqn:E; [|reflexivity].
  apply Qeq_bool_iff in E. contradiction.
Qed.

Lemma div_zero (x y : Q) : y == 0 -> PyFloat.div x y = Raise ZeroDivisionError.
Proof.
  intro H. unfold PyFloat.div. apply Qeq_bool_iff in H. rewrite H. reflexivity.
Qed.

End FloatFacts.

(** ** The detector *)

Section DetectorFacts.
Import Detector DetectorSamples.
Open Scope Q_scope.

Lemma normalize_price_le_1 (p : Q) : _normalize_price p <= 1.
Proof.
  unfold _normalize_price.
  destruct (PyFloat.leb p 1.0) eqn:E1.
  - apply leb_true_iff in E1. lra.
  - destruct (PyFloat.leb p 100.0) eqn:E2.
    + apply leb_true_iff in E2.
      apply Qle_shift_div_r; lra.
    + pose proof (min2_le_r (p / 100.0) 1.0). lra.
Qed.

Lemma normalize_price_idempotent (p : Q) :
  _normalize_price (_normalize_price p) = _normalize_price p.
Proof.
  pose proof (normalize_price_le_1 p) as H.
  unfold _normalize_price at 1.
  assert (E : PyFloat.leb (_normalize_price p) 1.0 = true).
  { apply leb_true_iff. lra. }
  rewrite E. reflexivity.
Qed.


Ltac run_arbitrage_body :=
  destruct (PyFloat.leb _ 0); [discriminate|];
  destruct (PyFloat.div _ _); cbn [bind]; [|discriminate];
  destruct (PyFloat.div _ _); cbn [bind]; [|discriminate];
  destruct (PyFloat.div _ _); cbn [bind]; [|discriminate].

Lemma calculate_arbitrage_prices self (p q : Q) r :
  _calculate_arbitrage self p q = Some r ->
  calc_buy_price r = PyFloat.min2 (_normalize_price q) (_normalize_price p) /\
  calc_buy_price r <= calc_sell_price r /\
  (calc_sell_price r = _normalize_price p \/ calc_sell_price r = _normalize_price q).
Proof.
  unfold _calculate_arbitrage, _calculate_arbitrage_body, PyFloat.min2.
  destruct (PyFloat.ltb (_normalize_price p) (_normalize_price q)) eqn:E;
    cbv zeta; cbv beta iota.
  - apply ltb_true_iff in E. run_arbitrage_body.
    intro H; injection H as <-. cbn. repeat split; auto. lra.
  - apply ltb_false_iff in E. run_arbitrage_body.
    intro H; injection H as <-. cbn. repeat split; auto.
Qed.



(** C4, as stated, fails: with similarity score 2 on two liquid markets
    the risk score is -0.3. *)
Lemma risk_score_claim_counterexample :
  _calculate_risk_score oversimilar_match liquid_market liquid_market == -0.3 /\
  ~ (0 <= _calculate_risk_score oversimilar_match liquid_market liquid_market).
Proof.
  split.
  - vm_compute. reflexivity.
  - vm_compute. intro H. apply H. reflexivity.
Qed.

(** C4 (amended): for every match whose similarity score (0.5 when absent)
    is at most 1.25, hence for every similarity score of the documented
    range [[0,1]], and for all close dates, volumes and price differences,
    the risk score lies in [[0,1]]. *)
Theorem risk_score_in_unit_interval (mt : Match) (market1 market2 : StandardizedMarket) :
  get_default (match_similarity_score mt) 0.5 <= 1.25 ->
  0 <= _calculate_risk_score mt market1 market2 /\
  _calculate_risk_score mt market1 market2 <= 1.
Proof.
  intro Hs. split; [|apply (Qle_trans _ 1.0); [apply min2_le_r | lra]].
  unfold _calculate_risk_score.
  apply min2_glb; [|lra].
  set (s := get_default (match_similarity_score mt) 0.5) in *.
  destruct (close_date market1) as [d1|], (close_date market2) as [d2|];
    try destruct (7 <? Z.abs (timedelta_days (d1 - d2)))%Z;
    destruct (PyFloat.ltb (or_zero (total_volume market1)) 1000
              || PyFloat.ltb (or_zero (total_volume market2)) 1000);
    destruct (PyFloat.ltb 0.3 (get_default (match_price_difference mt) 0));
    cbn [app PyFloat.sum fold_left]; lra.
Qed.

Lemma risk_score_in_unit_interval_witness :
  0 <= _calculate_risk_score plain_match liquid_market liquid_market /\
  _calculate_risk_score plain_match liquid_market liquid_market <= 1.
Proof.
  apply (risk_score_in_unit_interval plain_match liquid_market liquid_market).
  vm_compute. discriminate.
Defined.

(** C10: when [profit_percentage] is zero the kelly fraction is a division
    of zero by zero, the [try] body raises, and the function returns the
    fallback dictionary: [optimal_investment] is [required_investment]
    whatever the capital and the position cap, the other four entries are
    zero. *)
Theorem zero_profit_takes_fallback
  (opportunity : ArbitrageOpportunity) (available_capital max_position_size : Q) :
  profit_percentage opportunity == 0 ->
  let profit_ratio := profit_percentage opportunity / 100.0 in
  let r := calculate_optimal_bet_sizing opportunity available_capital max_position_size in
  (1.0 - risk_score opportunity) * profit_ratio == 0 /\ profit_ratio == 0 /\
  PyFloat.div ((1.0 - risk_score opportunity) * profit_ratio) profit_ratio
    = Raise ZeroDivisionError /\
  r = bet_sizing_fallback opportunity /\
  optimal_investment r = required_investment opportunity /\
  kelly_fraction r == 0 /\ position_percentage r == 0 /\
  expected_profit r == 0 /\ max_loss r == 0.
Proof.
  intros Hz profit_ratio r.
  assert (Hr : profit_ratio == 0).
  { unfold profit_ratio. rewrite Hz. reflexivity. }
  assert (Hd : PyFloat.div ((1.0 - risk_score opportunity) * profit_ratio) profit_ratio
               = Raise ZeroDivisionError) by (apply div_zero; exact Hr).
  assert (Hf : r = bet_sizing_fallback opportunity).
  { unfold r, calculate_optimal_bet_sizing, calculate_optimal_bet_sizing_body.
    fold profit_ratio. rewrite Hd. reflexivity. }
  split; [rewrite Hr; ring|]. split; [exact Hr|]. split; [exact Hd|].
  split; [exact Hf|]. rewrite Hf. cbn. repeat split; reflexivity.
Qed.

Lemma zero_profit_takes_fallback_witness :
  optimal_investment
    (calculate_optimal_bet_sizing (opportunity_with 0 0.2 1000) 5000 0.1) = 1000.
Proof.
  exact (proj1 (proj2 (proj2 (proj2 (proj2
    (zero_profit_takes_fallback (opportunity_with 0 0.2 1000) 5000 0.1
       (Qeq_refl 0))))))).
Defined.

(** C5, as stated, fails at a zero profit percentage and at a zero capital:
    the fallback dictionary is returned, whose investment is the required
    investment and not the minimum of the three bounds. *)
Lemma bet_sizing_claim_counterexample :
  (let opp := opportunity_with 0 0.2 1000 in
   let r := calculate_optimal_bet_sizing opp 5000 0.1 in
   optimal_investment r == 1000 /\
   PyFloat.min3 (0.5 * (1 - risk_score opp) * 5000) (0.1 * 5000) (required_investment opp) == 500 /\
   max_loss r == 0 /\ ~ max_loss r == optimal_investment r * risk_score opp) /\
  (let opp := opportunity_with 5 0.2 1000 in
   let r := calculate_optimal_bet_sizing opp 0 0.1 in
   optimal_investment r == 1000 /\
   PyFloat.min3 (0.5 * (1 - risk_score opp) * 0) (0.1 * 0) (required_investment opp) == 0).
Proof.
  vm_compute. repeat split; discriminate.
Qed.

(** C5 (amended): for every opportunity whose profit ratio
    profit_percentage / 100 is in the normal range of floats (at least
    2^-1022 in magnitude) and every available capital in that range, bet
    sizing returns kelly_fraction = 0.5 * (1 - risk_score), investment =
    min(kelly_fraction * capital, max_position_size * capital,
    required_investment), the percentage of capital used, the expected
    profit investment * (profit_percentage / 100 * (1 - risk_score)) and
    max_loss = investment * risk_score. *)
Theorem bet_sizing_formula
  (opportunity : ArbitrageOpportunity) (available_capital max_position_size : Q) :
  PyFloatRange.normal (profit_percentage opportunity / 100.0) ->
  PyFloatRange.normal available_capital ->
  let r := calculate_optimal_bet_sizing opportunity available_capital max_position_size in
  let win_probability := 1 - risk_score opportunity in
  let kelly := 0.5 * win_probability in
  kelly_fraction r == kelly /\
  optimal_investment r ==
    Qmin (Qmin (kelly * available_capital) (max_position_size * available_capital))
         (required_investment opportunity) /\
  position_percentage r == optimal_investment r / available_capital * 100 /\
  expected_profit r ==
    optimal_investment r * (profit_percentage opportunity / 100 * win_probability) /\
  max_loss r == optimal_investment r * risk_score opportunity.
Proof.
  intros Hn Hnc r win_probability kelly.
  pose proof (normal_nonzero _ Hn) as Hr.
  pose proof (normal_nonzero _ Hnc) as Hc.
  assert (Hp : ~ profit_percentage opportunity == 0).
  { intro H. apply Hr. rewrite H. reflexivity. }
  unfold r, calculate_optimal_bet_sizing, calculate_optimal_bet_sizing_body.
  rewrite (div_nonzero _ _ Hr). cbn [bind].
  rewrite (div_nonzero _ _ Hc). cbn [bind].
  cbn [kelly_fraction optimal_investment position_percentage expected_profit max_loss].
  assert (Hk : (1.0 - risk_score opportunity) * (profit_percentage opportunity / 100.0)
               / (profit_percentage opportunity / 100.0) * 0.5 == kelly).
  { unfold kelly, win_probability. field. exact Hp. }
  split; [exact Hk|]. split.
  - rewrite min3_Qmin. rewrite Hk.
    setoid_replace (available_capital * max_position_size)
      with (max_position_size * available_capital) by ring.
    reflexivity.
  - split; [reflexivity|]. split; [|reflexivity].
    unfold win_probability. field.
Qed.

Lemma bet_sizing_formula_witness :
  optimal_investment (calculate_optimal_bet_sizing (opportunity_with 5 0.2 1000) 5000 0.1)
  == Qmin (Qmin (0.5 * (1 - 0.2) * 5000) (0.1 * 5000)) 1000.
Proof.
  refine (proj1 (proj2
    (bet_sizing_formula (opportunity_with 5 0.2 1000) 5000 0.1 _ _)));
    vm_compute; discriminate.
Defined.

(** C6, as stated, fails: when the first outcome carries only a last trade
    price (0.3) and the second a YES price (0.6), the code answers 0.3, not
    the first present YES price. *)
Lemma best_price_claim_counterexample :
  _get_best_price last_trade_before_yes = Some 0.3 /\
  best_price_field_by_field last_trade_before_yes = Some 0.6 /\
  _get_best_price last_trade_before_yes <> best_price_field_by_field last_trade_before_yes.
Proof.
  split; [reflexivity|]. split; [reflexivity|].
  cbv. discriminate.
Qed.

Lemma first_yes_or_last_trade_find (os : list MarketOutcome) :
  first_yes_or_last_trade os =
  match find carries_yes_or_last_trade os with
  | Some outcome =>
      match yes_price outcome with
      | Some p => Some p
      | None => last_trade_price outcome
      end
  | None => None
  end.
Proof.
  induction os as [|o os IH]; [reflexivity|].
  cbn [first_yes_or_last_trade find]. unfold carries_yes_or_last_trade at 1.
  destruct (yes_price o) eqn:Ey; [rewrite Ey; reflexivity|].
  destruct (last_trade_price o) eqn:El; [rewrite Ey; exact (eq_sym El)|].
  exact IH.
Qed.

Lemma first_no_converted_find (os : list MarketOutcome) :
  first_no_converted os =
  match find carries_no os with
  | Some outcome => option_map (fun p => 1.0 - p) (no_price outcome)
  | None => None
  end.
Proof.
  induction os as [|o os IH]; [reflexivity|].
  cbn [first_no_converted find]. unfold carries_no at 1.
  destruct (no_price o) eqn:En; [rewrite En; reflexivity | exact IH].
Qed.

Lemma first_yes_or_last_trade_without_last (os : list MarketOutcome) :
  (forall o, In o os -> last_trade_price o = None) ->
  first_yes_or_last_trade os = first_present yes_price os /\
  first_present last_trade_price os = None.
Proof.
  induction os as [|o os IH]; intro H; [split; reflexivity|].
  assert (Ho : last_trade_price o = None) by (apply H; left; reflexivity).
  destruct IH as [IH1 IH2]; [intros o' Hin; apply H; right; exact Hin|].
  cbn [first_yes_or_last_trade first_present]. rewrite Ho.
  split; [|exact IH2].
  destruct (yes_price o); [reflexivity | exact IH1].
Qed.

Lemma first_no_converted_present (os : list MarketOutcome) :
  first_no_converted os =
  option_map (fun p => 1.0 - p) (first_present no_price os).
Proof.
  induction os as [|o os IH]; [reflexivity|].
  cbn [first_no_converted first_present].
  destruct (no_price o); [reflexivity | exact IH].
Qed.

(** C6 (amended): the best YES-probability of a market is read off the first
    outcome that carries a [yes_price] or a [last_trade_price] (its
    [yes_price] when present, its [last_trade_price] otherwise); when no
    outcome carries either, it is one minus the first present [no_price];
    otherwise it is absent. So it is absent for a market without outcomes or
    whose outcomes carry none of the three prices, and a pair with an absent
    side is rejected. When no outcome carries a [last_trade_price] this is the
    field-by-field reading. *)
Theorem best_price_first_priced_outcome (market : StandardizedMarket) :
  _get_best_price market =
    match find carries_yes_or_last_trade (outcomes market) with
    | Some outcome =>
        match yes_price outcome with
        | Some p => Some p
        | None => last_trade_price outcome
        end
    | None =>
        match find carries_no (outcomes market) with
        | Some outcome => option_map (fun p => 1.0 - p) (no_price outcome)
        | None => None
        end
    end /\
  (outcomes market = [] -> _get_best_price market = None) /\
  ((forall o, In o (outcomes market) ->
      yes_price o = None /\ last_trade_price o = None /\ no_price o = None) ->
   _get_best_price market = None) /\
  ((forall o, In o (outcomes market) -> last_trade_price o = None) ->
   _get_best_price market = best_price_field_by_field market) /\
  (_get_best_price market = None ->
   forall utcnow other,
     _calculate_arbitrage_opportunity utcnow market other = None /\
     _calculate_arbitrage_opportunity utcnow other market = None).
Proof.
  assert (Hchar : _get_best_price market =
    match find carries_yes_or_last_trade (outcomes market) with
    | Some outcome =>
        match yes_price outcome with
        | Some p => Some p
        | None => last_trade_price outcome
        end
    | None =>
        match find carries_no (outcomes market) with
        | Some outcome => option_map (fun p => 1.0 - p) (no_price outcome)
        | None => None
        end
    end).
  { unfold _get_best_price.
    destruct (outcomes market) as [|o os] eqn:Eo; [reflexivity|].
    rewrite first_yes_or_last_trade_find, first_no_converted_find.
    destruct (find carries_yes_or_last_trade (o :: os)) as [o'|] eqn:Ef.
    - apply find_some in Ef. destruct Ef as [_ Hc].
      unfold carries_yes_or_last_trade in Hc.
      destruct (yes_price o'); [reflexivity|].
      destruct (last_trade_price o'); [reflexivity | discriminate].
    - reflexivity. }
  split; [exact Hchar|]. split; [|split; [|split]].
  - intro H. unfold _get_best_price. rewrite H. reflexivity.
  - intro H. rewrite Hchar.
    destruct (find carries_yes_or_last_trade (outcomes market)) as [o|] eqn:Ef.
    + apply find_some in Ef. destruct Ef as [Hin _].
      destruct (H o Hin) as (-> & -> & _). reflexivity.
    + destruct (find carries_no (outcomes market)) as [o|] eqn:En; [|reflexivity].
      apply find_some in En. destruct En as [Hin _].
      destruct (H o Hin) as (_ & _ & ->). reflexivity.
  - intro H. unfold _get_best_price, best_price_field_by_field.
    destruct (first_yes_or_last_trade_without_last _ H) as [E1 E2].
    rewrite E1, E2, first_no_converted_present.
    destruct (outcomes market) as [|o os]; [reflexivity|].
    destruct (first_present yes_price (o :: os)); [reflexivity|].
    destruct (first_present no_price (o :: os)); reflexivity.
  - intros H utcnow other. unfold _calculate_arbitrage_opportunity.
    rewrite H. split; [reflexivity|].
    destruct (_get_best_price other); reflexivity.
Qed.

Lemma best_price_first_priced_outcome_witness :
  _get_best_price (market_with []) = None /\
  _get_best_price unpriced_market = None /\
  _get_best_price (priced_market 0.4) = best_price_field_by_field (priced_market 0.4) /\
  _calculate_arbitrage_opportunity "now" unpriced_market (priced_market 0.4) = None.
Proof.
  split; [|split; [|split]].
  - apply (proj1 (proj2 (best_price_first_priced_outcome (market_with [])))).
    reflexivity.
  - apply (proj1 (proj2 (proj2 (best_price_first_priced_outcome unpriced_market)))).
    intros o [<- | []]. repeat split; reflexivity.
  - apply (proj1 (proj2 (proj2 (proj2
      (best_price_first_priced_outcome (priced_market 0.4)))))).
    intros o [<- | []]. reflexivity.
  - apply (proj2 (proj2 (proj2 (proj2
      (best_price_first_priced_outcome unpriced_market))))).
    reflexivity.
Defined.

End DetectorFacts.

(** ** Strings and the primary question *)

Section PrimaryQuestionFacts.
Import PyStr PrimaryQuestion.

Example kalshi_question_1 :
  kalshi_extract_primary_question (lit "Will it rain ?") [] = lit "it rain".
Proof. reflexivity. Qed.

Example polymarket_question_1 :
  polymarket_extract_primary_question (lit "Is it A? or B?") [] = lit "it A or B".
Proof. reflexivity. Qed.

Example kalshi_question_2 :
  kalshi_extract_primary_question (lit "  Will x??") [] = lit "Will x".
Proof. reflexivity. Qed.

Example polymarket_question_2 :
  polymarket_extract_primary_question (lit "  Will x??") [] = lit "x".
Proof. reflexivity. Qed.

Lemma lstrip_split (chars : ascii -> bool) (s : str) :
  exists removed, s = removed ++ lstrip chars s /\ forallb chars removed = true.
Proof.
  induction s as [|c s IH].
  - exists []. split; reflexivity.
  - cbn [lstrip]. destruct (chars c) eqn:E.
    + destruct IH as (removed & Hs & Hall).
      exists (c :: removed). split.
      * cbn [app]. f_equal. exact Hs.
      * cbn [forallb]. rewrite E, Hall. reflexivity.
    + exists []. split; reflexivity.
Qed.

Lemma lstrip_head_fixed (chars : ascii -> bool) (c : ascii) (s : str) :
  chars c = false -> lstrip chars (c :: s) = c :: s.
Proof. intro H. cbn [lstrip]. rewrite H. reflexivity. Qed.

Lemma lstrip_idempotent (chars : ascii -> bool) (s : str) :
  lstrip chars (lstrip chars s) = lstrip chars s.
Proof.
  induction s as [|c s IH]; [reflexivity|].
  cbn [lstrip]. destruct (chars c) eqn:E; [exact IH|].
  apply lstrip_head_fixed. exact E.
Qed.

Lemma rstrip_idempotent (chars : ascii -> bool) (s : str) :
  rstrip chars (rstrip chars s) = rstrip chars s.
Proof.
  unfold rstrip. rewrite rev_involutive, lstrip_idempotent. reflexivity.
Qed.

Lemma rstrip_split (chars : ascii -> bool) (s : str) :
  exists removed, s = rstrip chars s ++ removed /\ forallb chars removed = true.
Proof.
  destruct (lstrip_split chars (rev s)) as (removed & Hs & Hall).
  exists (rev removed). split.
  - unfold rstrip. rewrite <- rev_app_distr, <- Hs, rev_involutive. reflexivity.
  - rewrite forallb_forall in *. intros x Hx. apply Hall.
    apply in_rev. exact Hx.
Qed.

(** A prefix of a string that has no leading [chars] has none either. *)
Lemma lstrip_fixed_prefix (chars : ascii -> bool) (s rest : str) :
  lstrip chars (s ++ rest) = s ++ rest -> lstrip chars s = s.
Proof.
  destruct s as [|c s]; [reflexivity|].
  cbn [app lstrip]. destruct (chars c) eqn:E; [|reflexivity].
  intro H. exfalso.
  destruct (lstrip_split chars (s ++ rest)) as (removed & Hs & _).
  apply (f_equal (@List.length ascii)) in H.
  apply (f_equal (@List.length ascii)) in Hs.
  cbn [List.length] in H. rewrite !length_app in *. lia.
Qed.

Lemma strip_stripped (s : str) :
  lstrip isspace (strip s) = strip s /\ rstrip isspace (strip s) = strip s.
Proof.
  split; [|apply rstrip_idempotent].
  unfold strip.
  destruct (rstrip_split isspace (lstrip isspace s)) as (removed & Hs & _).
  apply lstrip_fixed_prefix with (rest := removed).
  rewrite <- Hs. apply lstrip_idempotent.
Qed.

Lemma strip_split (s : str) :
  exists ws1 ws2, s = ws1 ++ strip s ++ ws2 /\
                  forallb isspace ws1 = true /\ forallb isspace ws2 = true.
Proof.
  destruct (lstrip_split isspace s) as (ws1 & H1 & A1).
  destruct (rstrip_split isspace (lstrip isspace s)) as (ws2 & H2 & A2).
  exists ws1, ws2. split; [|split; assumption].
  unfold strip. rewrite <- H2. exact H1.
Qed.

Lemma startswith_split (s prefix : str) :
  startswith s prefix = true -> s = prefix ++ skipn (List.length prefix) s.
Proof.
  revert s. induction prefix as [|p prefix IH]; intros s H; [reflexivity|].
  destruct s as [|c s]; [discriminate|].
  cbn [startswith] in H. apply andb_true_iff in H. destruct H as [Hc Hs].
  apply Ascii.eqb_eq in Hc. subst c.
  cbn [List.length skipn app]. f_equal. apply IH. exact Hs.
Qed.

Lemma remove_first_prefix_split (prefixes : list str) (question : str) :
  exists prefix,
    question = prefix ++ remove_first_prefix prefixes question /\
    ((In prefix prefixes /\ startswith question prefix = true) \/
     (prefix = [] /\ forall x, In x prefixes -> startswith question x = false)).
Proof.
  induction prefixes as [|p prefixes IH].
  - exists []. split; [reflexivity|]. right. split; [reflexivity|]. intros x [].
  - cbn [remove_first_prefix]. destruct (startswith question p) eqn:E.
    + exists p. split; [apply startswith_split; exact E|].
      left. split; [left; reflexivity | exact E].
    + destruct IH as (prefix & Hq & [[Hin Hs] | [Hnil Hnone]]).
      * exists prefix. split; [exact Hq|]. left. split; [right; exact Hin | exact Hs].
      * exists prefix. split; [exact Hq|]. right. split; [exact Hnil|].
        intros x [<- | Hx]; [exact E | apply Hnone; exact Hx].
Qed.

Lemma ensure_reasonable_length_truncates (question : str) :
  truncated_to_200 question (ensure_reasonable_length question).
Proof.
  unfold truncated_to_200, ensure_reasonable_length. split; intro H.
  - destruct (200 <? List.length question) eqn:E; [|reflexivity].
    apply Nat.ltb_lt in E. lia.
  - apply Nat.ltb_lt in H. rewrite H. reflexivity.
Qed.

Lemma ensure_reasonable_length_bound (question : str) :
  List.length (ensure_reasonable_length question) <= 203.
Proof.
  unfold ensure_reasonable_length.
  destruct (200 <? List.length question) eqn:E.
  - rewrite length_app, length_firstn. change (List.length (lit "...")) with 3. lia.
  - apply Nat.ltb_ge in E. lia.
Qed.

(** C9, as stated, fails: the Kalshi extraction of "Will it rain ?" also
    removes the blank before the question mark, and the Polymarket
    extraction of "Is it A? or B?" also removes the inner question mark. On
    "Will it rain?" both remove the prefix and the mark only. *)
Lemma primary_question_claim_counterexample :
  kalshi_extract_primary_question (lit "Will it rain ?") [] = lit "it rain" /\
  only_prefix_and_trailing_marks_removed (lit "Will it rain ?")
    (kalshi_extract_primary_question (lit "Will it rain ?") []) = false /\
  polymarket_extract_primary_question (lit "Is it A? or B?") [] = lit "it A or B" /\
  only_prefix_and_trailing_marks_removed (lit "Is it A? or B?")
    (polymarket_extract_primary_question (lit "Is it A? or B?") []) = false /\
  only_prefix_and_trailing_marks_removed (lit "Will it rain?")
    (kalshi_extract_primary_question (lit "Will it rain?") []) = true.
Proof. repeat split; vm_compute; reflexivity. Qed.

(** C9 (amended): for every title, the Kalshi extraction removes at most one
    leading prefix of the list, then every trailing question mark, then the
    whitespace around what is left; the Polymarket extraction removes every
    question mark of the title and the whitespace around what is left, then
    at most one leading prefix of the list; both cut a result longer than
    200 characters to its first 200 characters followed by "...", so the
    answer never exceeds 203 characters. *)
Theorem primary_question_shape (title description : str) :
  (exists prefix ws1 clean ws2 marks,
     title = prefix ++ ws1 ++ clean ++ ws2 ++ marks /\
     removed_prefix prefix title /\
     forallb isspace ws1 = true /\ forallb isspace ws2 = true /\
     forallb is_question_mark marks = true /\
     rstrip is_question_mark (ws1 ++ clean ++ ws2) = ws1 ++ clean ++ ws2 /\
     lstrip isspace clean = clean /\ rstrip isspace clean = clean /\
     truncated_to_200 clean (kalshi_extract_primary_question title description)) /\
  (exists ws1 prefix clean ws2,
     remove_char "?"%char title = ws1 ++ prefix ++ clean ++ ws2 /\
     removed_prefix prefix (prefix ++ clean) /\
     forallb isspace ws1 = true /\ forallb isspace ws2 = true /\
     lstrip isspace (prefix ++ clean) = prefix ++ clean /\
     rstrip isspace (prefix ++ clean) = prefix ++ clean /\
     truncated_to_200 clean (polymarket_extract_primary_question title description)) /\
  List.length (kalshi_extract_primary_question title description) <= 203 /\
  List.length (polymarket_extract_primary_question title description) <= 203.
Proof.
  split; [|split; [|split]].
  - unfold kalshi_extract_primary_question.
    destruct (remove_first_prefix_split prefixes_to_remove title) as (prefix & Ht & Hp).
    set (body := remove_first_prefix prefixes_to_remove title) in *.
    destruct (rstrip_split is_question_mark body) as (marks & Hb & Hm).
    destruct (strip_split (rstrip is_question_mark body)) as (ws1 & ws2 & Hs & A1 & A2).
    destruct (strip_stripped (rstrip is_question_mark body)) as [L R].
    exists prefix, ws1, (strip (rstrip is_question_mark body)), ws2, marks.
    split; [|split; [|split; [|split; [|split; [|split; [|split; [|split]]]]]]];
      try assumption.
    + rewrite Ht at 1. f_equal. rewrite Hb at 1. rewrite Hs at 1.
      rewrite <- !app_assoc. reflexivity.
    + rewrite <- Hs. apply rstrip_idempotent.
    + apply ensure_reasonable_length_truncates.
  - unfold polymarket_extract_primary_question.
    set (stripped := strip (remove_char "?"%char title)).
    destruct (strip_split (remove_char "?"%char title)) as (ws1 & ws2 & Hs & A1 & A2).
    fold stripped in Hs.
    destruct (remove_first_prefix_split prefixes_to_remove stripped) as (prefix & Ht & Hp).
    destruct (strip_stripped (remove_char "?"%char title)) as [L R].
    fold stripped in L, R.
    exists ws1, prefix, (remove_first_prefix prefixes_to_remove stripped), ws2.
    rewrite <- Ht.
    split; [|split; [|split; [|split; [|split; [|split]]]]]; try assumption.
    + rewrite (app_assoc prefix), <- Ht. exact Hs.
    + apply ensure_reasonable_length_truncates.
  - apply ensure_reasonable_length_bound.
  - apply ensure_reasonable_length_bound.
Qed.

Lemma primary_question_shape_witness :
  List.length (kalshi_extract_primary_question (lit "Will it rain ?") []) <= 203.
Proof.
  exact (proj1 (proj2 (proj2 (primary_question_shape (lit "Will it rain ?") [])))).
Defined.

End PrimaryQuestionFacts.

(** ** Batch prices *)

Section PolymarketPricesFacts.
Import PyData PolymarketPrices.

Example chunking_loop_25 :
  chunking_loop tokens_25 10 = Some (20, map (fun c => String c EmptyString)
    ["U"; "V"; "W"; "X"; "Y"]%char).
Proof. reflexivity. Qed.

Lemma posted_payloads_app (e1 e2 : list Event) :
  posted_payloads (e1 ++ e2) = posted_payloads e1 ++ posted_payloads e2.
Proof.
  induction e1 as [|[payload|] e1 IH]; cbn [app posted_payloads].
  - reflexivity.
  - rewrite IH. reflexivity.
  - exact IH.
Qed.

Section AnyTransport.
Variable W : Type.
Variable transport : W -> Payload -> result PostResponse * W.

(** Whatever the answer, a turn of the request loop grows the payload by the
    two entries of its token and posts it. *)
Lemma price_request_step_effect (i chunk_size n : nat) (chunk : list string)
  (st : PriceLoop W) (token : string) :
  let st' := price_request_step transport i chunk_size n chunk st token in
  loop_payload st' = loop_payload st ++ entries_of [token] /\
  posted_payloads (loop_events st')
    = posted_payloads (loop_events st) ++ [loop_payload st'].
Proof.
  unfold price_request_step.
  destruct (transport (loop_world st) _) as [[response|e] w]; cbn zeta.
  - destruct (negb (truthy response)); cbn [loop_payload loop_events].
    + split; [reflexivity|]. rewrite posted_payloads_app. reflexivity.
    + split; [reflexivity|].
      destruct (i + chunk_size <? n); rewrite !posted_payloads_app; cbn [posted_payloads];
        rewrite ?app_nil_r; reflexivity.
  - cbn [loop_payload loop_events].
    split; [reflexivity|]. rewrite posted_payloads_app. reflexivity.
Qed.

Lemma request_loop_posts (i chunk_size n : nat) (chunk rest : list string)
  (st : PriceLoop W) :
  posted_payloads
    (loop_events (fold_left (price_request_step transport i chunk_size n chunk) rest st))
  = posted_payloads (loop_events st)
    ++ map (fun k => loop_payload st ++ entries_of (firstn k rest))
           (seq 1 (List.length rest)).
Proof.
  revert st. induction rest as [|token rest IH]; intro st.
  - cbn. rewrite app_nil_r. reflexivity.
  - cbn [fold_left]. rewrite IH.
    destruct (price_request_step_effect i chunk_size n chunk st token) as [Hp He].
    rewrite He, Hp. rewrite <- app_assoc. f_equal.
    cbn [List.length seq map app firstn]. f_equal.
    rewrite <- (seq_shift (List.length rest) 1), map_map. apply map_ext. intro k.
    cbn [firstn entries_of flat_map app]. rewrite <- app_assoc. reflexivity.
Qed.

Lemma fold_left_last_assignment {A : Type} (f : nat -> A) (start count step : nat)
  (acc : option A) :
  fold_left (fun _ i => Some (f i)) (range_from start (S count) step) acc
  = Some (f (start + count * step)).
Proof.
  revert start acc. induction count as [|count IH]; intros start acc.
  - cbn. f_equal. f_equal. lia.
  - change (range_from start (S (S count)) step)
      with (start :: range_from (start + step) (S count) step).
    cbn [fold_left]. rewrite IH. f_equal. f_equal. lia.
Qed.

(** The chunking loop leaves the start and the content of the last chunk. *)
Lemma chunking_loop_leaves_last_chunk (token_ids : list string) :
  token_ids <> [] ->
  let start := 10 * ((List.length token_ids - 1) / 10) in
  chunking_loop token_ids 10 = Some (start, skipn start token_ids) /\
  1 <= List.length (skipn start token_ids) <= 10.
Proof.
  intro Hne. cbn zeta.
  set (n := List.length token_ids).
  assert (Hn : 1 <= n).
  { unfold n. destruct token_ids; [contradiction | cbn; lia]. }
  assert (Hcount : (n - 0 + 10 - 1) / 10 = S ((n - 1) / 10)).
  { replace (n - 0 + 10 - 1) with ((n - 1) + 1 * 10) by lia.
    rewrite Nat.div_add by lia. lia. }
  assert (Hlen : 1 <= List.length (skipn (10 * ((n - 1) / 10)) token_ids) <= 10).
  { rewrite length_skipn. fold n.
    pose proof (Nat.div_mod_eq (n - 1) 10) as Hd.
    pose proof (Nat.mod_upper_bound (n - 1) 10). lia. }
  split; [|exact Hlen].
  unfold chunking_loop, range. fold n. rewrite Hcount.
  rewrite fold_left_last_assignment. cbn [Nat.add].
  replace ((n - 1) / 10 * 10) with (10 * ((n - 1) / 10)) by lia.
  f_equal. f_equal. unfold slice.
  replace (10 * ((n - 1) / 10) + 10 - 10 * ((n - 1) / 10)) with 10 by lia.
  apply firstn_all2. lia.
Qed.

(** What [get_market_prices] requests, for every transport: one post per
    token of the last chunk, each carrying the entries of the tokens of that
    chunk met so far; the earlier chunks are never requested. *)
Lemma get_market_prices_posts (w : W) (token_ids : list string) :
  token_ids <> [] ->
  let last_chunk := skipn (10 * ((List.length token_ids - 1) / 10)) token_ids in
  posted_payloads (snd (get_market_prices transport w token_ids))
  = map (fun k => entries_of (firstn k last_chunk)) (seq 1 (List.length last_chunk)).
Proof.
  intro Hne. cbn zeta.
  destruct (chunking_loop_leaves_last_chunk token_ids Hne) as [Hc _].
  unfold get_market_prices. destruct token_ids as [|t ts]; [contradiction|].
  rewrite Hc. cbn [snd]. rewrite request_loop_posts. reflexivity.
Qed.

End AnyTransport.

(** C1 on the code: a batch request for the 25 tokens "A".."Y", against a
    server that prices every token it is asked about, issues five posts and
    not three; they carry 2, 4, 6, 8 and 10 entries, all for the last five
    tokens "U".."Y", and only those five tokens get a price. *)
Theorem get_market_prices_25_tokens :
  let run := get_market_prices quoting_server tt tokens_25 in
  map (@List.length BookParams) (posted_payloads (snd run)) = [2; 4; 6; 8; 10] /\
  posted_payloads (snd run)
    = map (fun k => entries_of (firstn k (skipn 20 tokens_25))) (seq 1 5) /\
  option_map dict_keys (fst (fst run)) = Some (skipn 20 tokens_25) /\
  (forall W (transport : W -> Payload -> result PostResponse * W) w,
     List.length (posted_payloads (snd (get_market_prices transport w tokens_25))) = 5).
Proof.
  cbn zeta. split; [reflexivity|]. split; [reflexivity|]. split; [reflexivity|].
  intros W transport w.
  rewrite get_market_prices_posts by discriminate.
  rewrite length_map, length_seq. reflexivity.
Qed.

End PolymarketPricesFacts.

(** ** Rate limiting in the request layer *)

Section RequestLayerFacts.
Import RequestLayer.

(** C3, as stated, fails for the Kalshi client: a first answer 429 (no
    header) is slept on for 60 seconds and raised at once, after one send;
    the good answer that the server had next is never requested. The
    Polymarket client does retry and gets it. *)
Lemma rate_limit_claim_counterexample :
  kalshi_make_request scripted open_kalshi_client
    [too_many_requests HeaderAbsent; ok "{}"]
  = (Raise (APIError "Rate limit exceeded"), [ok "{}"],
     [Throttled; Sent; Slept (inject_Z 60)]) /\
  polymarket_make_request scripted (fun _ => true) open_polymarket_client
    default_max_retries [too_many_requests HeaderAbsent; ok "{}"]
  = (Return (Some "{}"%string), [],
     [Slept 0.1; Sent; Slept (inject_Z 60); Slept (inject_Z 2); Slept 0.1; Sent]).
Proof. split; reflexivity. Qed.

Section AnySession.
Variables (Json W : Type).
Variable send : W -> Exchange Json * W.
Variable vpn_is_connected : W -> bool.

Lemma polymarket_attempt_429 (w w1 : W) (response : Response Json) (s : Z)
  (events : list Event) :
  send w = (Answered response, w1) ->
  status response = 429 ->
  retry_after_seconds (retry_after response) = Return s ->
  polymarket_attempt send w events
  = (Raise (PlainException "Rate limit exceeded"), w1,
     events ++ [Slept 0.1; Sent; Slept (inject_Z s)]).
Proof.
  intros Hsend Hstatus Hheader. unfold polymarket_attempt.
  rewrite Hsend, Hstatus, Hheader. cbn [Nat.eqb].
  rewrite <- !app_assoc. reflexivity.
Qed.

Lemma polymarket_attempt_ok (w w1 : W) (response : Response Json) (body : Json)
  (events : list Event) :
  send w = (Answered response, w1) ->
  status response < 400 ->
  json response = Some body ->
  polymarket_attempt send w events = (Return body, w1, events ++ [Slept 0.1; Sent]).
Proof.
  intros Hsend Hstatus Hjson. unfold polymarket_attempt. rewrite Hsend.
  assert (E1 : (status response =? 429) = false) by (apply Nat.eqb_neq; lia).
  assert (E2 : (400 <=? status response) = false) by (apply Nat.leb_gt; lia).
  rewrite E1, E2, Hjson. rewrite <- !app_assoc. reflexivity.
Qed.

(** A turn of the attempt loop that is answered 429, whatever came before. *)
Lemma polymarket_attempts_429_step (w w1 : W) (response : Response Json) (s : Z)
  (max_retries remaining attempt : nat) (events : list Event) :
  send w = (Answered response, w1) ->
  status response = 429 ->
  retry_after_seconds (retry_after response) = Return s ->
  polymarket_attempts send max_retries (S remaining) attempt w events
  = if attempt <? max_retries
    then polymarket_attempts send max_retries remaining (S attempt) w1
           (events ++ [Slept 0.1; Sent; Slept (inject_Z s);
                       Slept (inject_Z (Z.of_nat (2 * attempt)))])
    else (Raise (PlainException "Rate limit exceeded"), w1,
          events ++ [Slept 0.1; Sent; Slept (inject_Z s)]).
Proof.
  intros Hsend Hstatus Hheader. cbn [polymarket_attempts].
  rewrite (polymarket_attempt_429 _ _ _ _ _ Hsend Hstatus Hheader).
  destruct (attempt <? max_retries); [|reflexivity].
  rewrite <- !app_assoc. reflexivity.
Qed.

(** Attempts answered 429 up to the last one allowed: the error leaves. *)
Lemma polymarket_attempts_exhausted (w w' : W) (seconds : list Z) :
  rate_limited_run send w seconds w' ->
  seconds <> [] ->
  forall (max_retries attempt : nat) (events : list Event),
    attempt + List.length seconds = S max_retries ->
    polymarket_attempts send max_retries (List.length seconds) attempt w events
    = (Raise (PlainException "Rate limit exceeded"), w',
       events ++ rate_limited_events max_retries attempt seconds).
Proof.
  induction 1 as [w | w w1 w' response s seconds Hsend Hstatus Hheader Hrun IH];
    intros Hne max_retries attempt events Hlen; [contradiction|].
  cbn [List.length polymarket_attempts rate_limited_events].
  rewrite (polymarket_attempt_429 _ _ _ _ _ Hsend Hstatus Hheader).
  destruct seconds as [|s' seconds].
  - inversion Hrun; subst. cbn [List.length] in Hlen.
    assert (E : (attempt <? max_retries) = false) by (apply Nat.ltb_ge; lia).
    rewrite E. cbn [rate_limited_events]. rewrite !app_nil_r. reflexivity.
  - cbn [List.length] in Hlen.
    assert (E : (attempt <? max_retries) = true) by (apply Nat.ltb_lt; lia).
    rewrite E. rewrite IH; [|discriminate | cbn [List.length]; lia].
    rewrite <- !app_assoc. reflexivity.
Qed.

(** Attempts answered 429 and then a good answer within the allowed
    attempts: the body is returned. *)
Lemma polymarket_attempts_recover (w w1 : W) (seconds : list Z) :
  rate_limited_run send w seconds w1 ->
  forall (max_retries remaining attempt : nat) (events : list Event)
         (w2 : W) (response : Response Json) (body : Json),
    attempt + List.length seconds <= max_retries ->
    List.length seconds < remaining ->
    send w1 = (Answered response, w2) ->
    status response < 400 ->
    json response = Some body ->
    polymarket_attempts send max_retries remaining attempt w events
    = (Return (Some body), w2,
       events ++ rate_limited_events max_retries attempt seconds ++ [Slept 0.1; Sent]).
Proof.
  induction 1 as [w | w w1 w' response s seconds Hsend Hstatus Hheader Hrun IH];
    intros max_retries remaining attempt events w2 good body Hlen Hrem Hgood Hst Hjson.
  - destruct remaining as [|remaining]; [cbn in Hrem; lia|].
    cbn [polymarket_attempts rate_limited_events app].
    rewrite (polymarket_attempt_ok _ _ _ _ _ Hgood Hst Hjson). reflexivity.
  - destruct remaining as [|remaining]; [cbn in Hrem; lia|].
    cbn [List.length] in Hlen, Hrem.
    cbn [polymarket_attempts rate_limited_events].
    rewrite (polymarket_attempt_429 _ _ _ _ _ Hsend Hstatus Hheader).
    assert (E : (attempt <? max_retries) = true) by (apply Nat.ltb_lt; lia).
    rewrite E.
    rewrite (IH max_retries remaining (S attempt) _ w2 good body);
      try assumption; try lia.
    rewrite <- !app_assoc. reflexivity.
Qed.

Lemma count_sent_app (e1 e2 : list Event) :
  count_sent (e1 ++ e2) = count_sent e1 + count_sent e2.
Proof.
  induction e1 as [|[s| |] e1 IH]; cbn [app count_sent]; lia.
Qed.

Lemma count_sent_rate_limited (max_retries attempt : nat) (seconds : list Z) :
  count_sent (rate_limited_events max_retries attempt seconds) = List.length seconds.
Proof.
  revert attempt. induction seconds as [|s seconds IH]; intro attempt; [reflexivity|].
  cbn [rate_limited_events List.length]. rewrite !count_sent_app, IH.
  destruct (attempt <? max_retries); reflexivity.
Qed.

Lemma single_request_429 (rate_limit_error : exn) (w w1 : W)
  (response : Response Json) (s : Z) :
  send w = (Answered response, w1) ->
  status response = 429 ->
  retry_after_seconds (retry_after response) = Return s ->
  single_request send rate_limit_error w
  = (Raise rate_limit_error, w1, [Throttled; Sent; Slept (inject_Z s)]).
Proof.
  intros Hsend Hstatus Hheader. unfold single_request.
  rewrite Hsend, Hstatus, Hheader. reflexivity.
Qed.

End AnySession.

(** C3 (amended): a Polymarket request answered 429 reads [Retry-After]
    (an integer, 60 when absent), sleeps that long and, while the attempt
    number is below [max_retries] (3 by default), sleeps twice the attempt
    number and tries again; a good answer within the attempts is returned,
    and when the last allowed attempt is answered 429 too the last error
    leaves, after [max_retries] sends. A Kalshi or base-client request
    answered 429 reads [Retry-After] (an integer, 60 when absent), sleeps
    that long and raises an [APIError] after this single send, without
    another attempt. *)
Theorem rate_limit_handling (Json W : Type) (send : W -> Exchange Json * W)
  (vpn_is_connected : W -> bool) :
  (forall max_retries remaining attempt w w1 response s events,
     send w = (Answered response, w1) ->
     status response = 429 ->
     retry_after_seconds (retry_after response) = Return s ->
     polymarket_attempts send max_retries (S remaining) attempt w events
     = if attempt <? max_retries
       then polymarket_attempts send max_retries remaining (S attempt) w1
              (events ++ [Slept 0.1; Sent; Slept (inject_Z s);
                          Slept (inject_Z (Z.of_nat (2 * attempt)))])
       else (Raise (PlainException "Rate limit exceeded"), w1,
             events ++ [Slept 0.1; Sent; Slept (inject_Z s)])) /\
  (forall self max_retries w w' seconds,
     poly_session self = true ->
     vpn_required self && negb (vpn_is_connected w) = false ->
     rate_limited_run send w seconds w' ->
     List.length seconds = max_retries ->
     1 <= max_retries ->
     polymarket_make_request send vpn_is_connected self max_retries w
     = (Raise (PlainException "Rate limit exceeded"), w',
        rate_limited_events max_retries 1 seconds) /\
     count_sent (rate_limited_events max_retries 1 seconds) = max_retries) /\
  (forall self max_retries w w1 w2 seconds response body,
     poly_session self = true ->
     vpn_required self && negb (vpn_is_connected w) = false ->
     rate_limited_run send w seconds w1 ->
     List.length seconds < max_retries ->
     send w1 = (Answered response, w2) ->
     status response < 400 ->
     json response = Some body ->
     polymarket_make_request send vpn_is_connected self max_retries w
     = (Return (Some body), w2,
        rate_limited_events max_retries 1 seconds ++ [Slept 0.1; Sent])) /\
  (forall self w w1 response s,
     kalshi_session self = true ->
     api_key self && private_key self && signing_fails self = false ->
     send w = (Answered response, w1) ->
     status response = 429 ->
     retry_after_seconds (retry_after response) = Return s ->
     kalshi_make_request send self w
     = (Raise (APIError "Rate limit exceeded"), w1,
        [Throttled; Sent; Slept (inject_Z s)]) /\
     base_make_request send true w
     = (Raise (APIError "Unexpected error: Rate limit exceeded"), w1,
        [Throttled; Sent; Slept (inject_Z s)])) /\
  default_max_retries = 3 /\
  retry_after_seconds HeaderAbsent = Return 60%Z.
Proof.
  split; [|split; [|split; [|split; [|split; reflexivity]]]].
  - intros. eapply polymarket_attempts_429_step; eassumption.
  - intros self max_retries w w' seconds Hsession Hvpn Hrun Hlen Hpos.
    split; [|rewrite count_sent_rate_limited; exact Hlen].
    unfold polymarket_make_request. rewrite Hsession, Hvpn. cbn [negb].
    rewrite <- Hlen at 2.
    rewrite (polymarket_attempts_exhausted Json W send w w' seconds Hrun).
    + reflexivity.
    + intro E. subst seconds. cbn in Hlen. lia.
    + lia.
  - intros self max_retries w w1 w2 seconds response body
      Hsession Hvpn Hrun Hlen Hgood Hst Hjson.
    unfold polymarket_make_request. rewrite Hsession, Hvpn. cbn [negb].
    rewrite (polymarket_attempts_recover Json W send w w1 seconds Hrun
               max_retries max_retries 1 []
               w2 response body); try assumption; try lia.
    reflexivity.
  - intros self w w1 response s Hsession Hsign Hsend Hstatus Hheader. split.
    + unfold kalshi_make_request. rewrite Hsession, Hsign. cbn [negb].
      rewrite (single_request_429 Json W send _ w w1 response s Hsend Hstatus Hheader).
      reflexivity.
    + unfold base_make_request. cbn [negb].
      rewrite (single_request_429 Json W send _ w w1 response s Hsend Hstatus Hheader).
      reflexivity.
Qed.

(** Three answers 429 (60 s, no header, 5 s) against the default three
    attempts; one answer 429 and then a good one; one answer 429 to the
    Kalshi client. *)
Lemma rate_limit_handling_witness :
  polymarket_make_request scripted (fun _ => true) open_polymarket_client 3
    [too_many_requests (HeaderInt 60); too_many_requests HeaderAbsent;
     too_many_requests (HeaderInt 5); ok "{}"]
  = (Raise (PlainException "Rate limit exceeded"), [ok "{}"],
     [Slept 0.1; Sent; Slept (inject_Z 60); Slept (inject_Z 2);
      Slept 0.1; Sent; Slept (inject_Z 60); Slept (inject_Z 4);
      Slept 0.1; Sent; Slept (inject_Z 5)]) /\
  polymarket_make_request scripted (fun _ => true) open_polymarket_client 3
    [too_many_requests HeaderAbsent; ok "{}"]
  = (Return (Some "{}"%string), [],
     [Slept 0.1; Sent; Slept (inject_Z 60); Slept (inject_Z 2)] ++ [Slept 0.1; Sent]) /\
  kalshi_make_request scripted open_kalshi_client [too_many_requests (HeaderInt 7)]
  = (Raise (APIError "Rate limit exceeded"), [],
     [Throttled; Sent; Slept (inject_Z 7)]).
Proof.
  pose proof (rate_limit_handling string (list (Exchange string)) scripted (fun _ => true))
    as (_ & Hexhaust & Hrecover & Hsingle & _).
  split; [|split].
  - refine (proj1 (Hexhaust open_polymarket_client 3 _ [ok "{}"] [60; 60; 5]%Z
                     eq_refl eq_refl _ eq_refl _)).
    + eapply run_429; [reflexivity | reflexivity | reflexivity |].
      eapply run_429; [reflexivity | reflexivity | reflexivity |].
      eapply run_429; [reflexivity | reflexivity | reflexivity |].
      apply run_done.
    + lia.
  - refine (Hrecover open_polymarket_client 3 _ [ok "{}"] [] [60]%Z
              {| status := 200; retry_after := HeaderAbsent; text := "{}";
                 json := Some "{}"%string |} "{}"%string
              eq_refl eq_refl _ _ eq_refl _ eq_refl).
    + eapply run_429; [reflexivity | reflexivity | reflexivity |]. apply run_done.
    + cbn. lia.
    + cbn. lia.
  - refine (proj1 (Hsingle open_kalshi_client [too_many_requests (HeaderInt 7)] []
                     {| status := 429; retry_after := HeaderInt 7;
                        text := "Too Many Requests"; json := None |} 7%Z
                     eq_refl eq_refl eq_refl eq_refl eq_refl)).
Defined.

End RequestLayerFacts.

(** ** Listings: pagination and failures *)

Section ListingFacts.
Import PyData PyStr Listing ListingSamples PolymarketPrices.

Example kalshi_three_full_pages_run :
  kalshi_get_markets_by_keyword three_full_pages sample_kalshi_convert 5 (lit "RAIN") tt
  = (Some (Return (repeat (market_titled "K1" "Will it rain in Paris?") 200
                   ++ [market_titled "K3" "Will it rain in Oslo?"])),
     tt,
     [kalshi_page_params None; kalshi_page_params (Some "c1"%string);
      kalshi_page_params (Some "c2"%string)]).
Proof. vm_compute. reflexivity. Qed.

Example polymarket_three_pages_run :
  polymarket_get_markets_by_keyword three_poly_pages quoting_server sample_poly_convert
    5 (lit "rain") tt
  = (Some (Return [market_titled "P1" "Will it rain in Paris?";
                   market_titled "P3" "Rain in Oslo?";
                   market_titled "P4" "Will it rain in Bern?"]),
     tt, [""; "MTAw"; "MjAw"]%string).
Proof. vm_compute. reflexivity. Qed.

Lemma keep_converted_nil_r {A B : Type} (f : A -> option B) (acc : list B) :
  acc ++ keep_converted f [] = acc.
Proof. cbn. apply app_nil_r. Qed.

Section KalshiPagination.
Variable W : Type.
Variable request_markets : W -> KalshiParams -> result KalshiPage * W.
Variable convert : KalshiRaw -> option StandardizedMarket.

(** One turn of the Kalshi loop on a page that arrived. *)
Lemma kalshi_keyword_loop_step (fuel : nat) (keyword : str) (cursor : option string)
  (all_markets : list StandardizedMarket) (w w' : W) (requests : list KalshiParams)
  (page : KalshiPage) :
  request_markets w (kalshi_page_params cursor) = (Return page, w') ->
  kalshi_keyword_loop request_markets convert (S fuel) keyword cursor all_markets w requests
  = if kalshi_continues page
    then kalshi_keyword_loop request_markets convert fuel keyword (page_cursor page)
           (all_markets ++ kalshi_page_matches convert keyword (page_markets page))
           w' (requests ++ [kalshi_page_params cursor])
    else (Finished (all_markets ++ kalshi_page_matches convert keyword (page_markets page)),
          w', requests ++ [kalshi_page_params cursor]).
Proof.
  intro Hreq. cbn [kalshi_keyword_loop]. rewrite Hreq.
  unfold kalshi_continues.
  destruct (page_markets page) as [|record records] eqn:Em.
  - cbn [List.length]. rewrite andb_false_r.
    unfold kalshi_page_matches. rewrite keep_converted_nil_r. reflexivity.
  - destruct (str_truthy (page_cursor page)); cbn [negb orb andb].
    + rewrite Nat.ltb_antisym. destruct (200 <=? List.length (record :: records));
        reflexivity.
    + reflexivity.
Qed.

Lemma kalshi_keyword_loop_failure (fuel : nat) (keyword : str) (cursor : option string)
  (all_markets : list StandardizedMarket) (w w' : W) (requests : list KalshiParams)
  (e : exn) :
  request_markets w (kalshi_page_params cursor) = (Raise e, w') ->
  kalshi_keyword_loop request_markets convert (S fuel) keyword cursor all_markets w requests
  = (Raised e, w', requests ++ [kalshi_page_params cursor]).
Proof. intro Hreq. cbn [kalshi_keyword_loop]. rewrite Hreq. reflexivity. Qed.

Lemma kalshi_three_pages (fuel : nat) (keyword : str) (w0 w1 w2 w3 : W)
  (p1 p2 p3 : KalshiPage) :
  request_markets w0 (kalshi_page_params None) = (Return p1, w1) ->
  kalshi_continues p1 = true ->
  request_markets w1 (kalshi_page_params (page_cursor p1)) = (Return p2, w2) ->
  kalshi_continues p2 = true ->
  request_markets w2 (kalshi_page_params (page_cursor p2)) = (Return p3, w3) ->
  str_truthy (page_cursor p3) = false ->
  3 <= fuel ->
  kalshi_get_markets_by_keyword request_markets convert fuel keyword w0
  = (Some (Return (kalshi_page_matches convert keyword (page_markets p1)
                   ++ kalshi_page_matches convert keyword (page_markets p2)
                   ++ kalshi_page_matches convert keyword (page_markets p3))),
     w3,
     [kalshi_page_params None; kalshi_page_params (page_cursor p1);
      kalshi_page_params (page_cursor p2)]).
Proof.
  intros H1 C1 H2 C2 H3 C3 Hfuel.
  destruct fuel as [|[|[|fuel]]]; try lia.
  unfold kalshi_get_markets_by_keyword.
  rewrite (kalshi_keyword_loop_step _ _ _ _ _ _ _ _ H1), C1.
  rewrite (kalshi_keyword_loop_step _ _ _ _ _ _ _ _ H2), C2.
  rewrite (kalshi_keyword_loop_step _ _ _ _ _ _ _ _ H3).
  unfold kalshi_continues. rewrite C3. cbn [andb app].
  rewrite <- app_assoc. reflexivity.
Qed.

End KalshiPagination.

Section PolymarketPagination.
Variable W : Type.
Variable request_markets : W -> string -> result (option PolyPage) * W.
Variable post : W -> Payload -> result PostResponse * W.
Variable convert : PolyRaw -> dict TokenPrices -> option StandardizedMarket.

(** One turn of the Polymarket loop on a page that arrived. *)
Lemma polymarket_keyword_loop_step (fuel : nat) (keyword : str) (next_cursor : string)
  (all_markets converted : list StandardizedMarket) (w w1 w2 : W)
  (requests : list string) (page : PolyPage) :
  request_markets w next_cursor = (Return (Some page), w1) ->
  process_page post convert w1
    (filter (polymarket_keyword_matches keyword) (page_data page)) = (converted, w2) ->
  polymarket_keyword_loop request_markets post convert (S fuel) keyword next_cursor
    all_markets w requests
  = if polymarket_continues page
    then polymarket_keyword_loop request_markets post convert fuel keyword
           (page_next_cursor page) (all_markets ++ converted) w2
           (requests ++ [next_cursor])
    else (Finished (all_markets ++ converted), w2, requests ++ [next_cursor]).
Proof.
  intros Hreq Hconv. cbn [polymarket_keyword_loop]. rewrite Hreq.
  unfold polymarket_continues.
  destruct (page_data page) as [|record records] eqn:Ed.
  - cbn [filter process_page] in Hconv. injection Hconv as <- <-.
    rewrite andb_false_r, app_nil_r. reflexivity.
  - rewrite Hconv. rewrite andb_true_r.
    destruct (at_end (page_next_cursor page)); reflexivity.
Qed.

Lemma polymarket_keyword_loop_failure (fuel : nat) (keyword : str) (next_cursor : string)
  (all_markets : list StandardizedMarket) (w w' : W) (requests : list string) (e : exn) :
  request_markets w next_cursor = (Raise e, w') ->
  polymarket_keyword_loop request_markets post convert (S fuel) keyword next_cursor
    all_markets w requests
  = (Raised e, w', requests ++ [next_cursor]).
Proof. intro Hreq. cbn [polymarket_keyword_loop]. rewrite Hreq. reflexivity. Qed.

Lemma polymarket_three_pages (fuel : nat) (keyword : str)
  (w0 w1 w1' w2 w2' w3 w3' : W) (p1 p2 p3 : PolyPage)
  (m1 m2 m3 : list StandardizedMarket) :
  request_markets w0 ""%string = (Return (Some p1), w1) ->
  process_page post convert w1
    (filter (polymarket_keyword_matches keyword) (page_data p1)) = (m1, w1') ->
  polymarket_continues p1 = true ->
  request_markets w1' (page_next_cursor p1) = (Return (Some p2), w2) ->
  process_page post convert w2
    (filter (polymarket_keyword_matches keyword) (page_data p2)) = (m2, w2') ->
  polymarket_continues p2 = true ->
  request_markets w2' (page_next_cursor p2) = (Return (Some p3), w3) ->
  process_page post convert w3
    (filter (polymarket_keyword_matches keyword) (page_data p3)) = (m3, w3') ->
  page_next_cursor p3 = ""%string ->
  3 <= fuel ->
  polymarket_get_markets_by_keyword request_markets post convert fuel keyword w0
  = (Some (Return (m1 ++ m2 ++ m3)), w3',
     [""%string; page_next_cursor p1; page_next_cursor p2]).
Proof.
  intros H1 P1 C1 H2 P2 C2 H3 P3 C3 Hfuel.
  destruct fuel as [|[|[|fuel]]]; try lia.
  unfold polymarket_get_markets_by_keyword.
  rewrite (polymarket_keyword_loop_step _ _ _ _ _ _ _ _ _ _ H1 P1), C1.
  rewrite (polymarket_keyword_loop_step _ _ _ _ _ _ _ _ _ _ H2 P2), C2.
  rewrite (polymarket_keyword_loop_step _ _ _ _ _ _ _ _ _ _ H3 P3).
  unfold polymarket_continues, at_end. rewrite C3. cbn [String.eqb orb negb andb app].
  rewrite orb_true_r. cbn [negb andb].
  rewrite <- app_assoc. reflexivity.
Qed.

End PolymarketPagination.

(** C7, as stated, fails for the Kalshi client: on a source of three pages
    of one matching record each, whose first two pages carry a cursor and
    whose last page carries none, it fetches the first page only and
    returns one record of the three. *)
Lemma pagination_claim_counterexample :
  kalshi_get_markets_by_keyword three_short_pages sample_kalshi_convert 5 (lit "rain") tt
  = (Some (Return [market_titled "K1" "Will it rain in Paris?"]), tt,
     [kalshi_page_params None]) /\
  kalshi_page_matches sample_kalshi_convert (lit "rain")
    (page_markets {| page_markets := [kalshi_record "K1" "Will it rain in Paris?";
                                      kalshi_record "K2" "Will it rain in Rome?";
                                      kalshi_record "K3" "Will it rain in Oslo?"];
                     page_cursor := None |})
  = [market_titled "K1" "Will it rain in Paris?";
     market_titled "K2" "Will it rain in Rome?";
     market_titled "K3" "Will it rain in Oslo?"].
Proof. split; vm_compute; reflexivity. Qed.

(** C7 (amended): a keyword listing requests page after page with the
    cursor of the page before and accumulates, in page order, the
    normalised records that match the keyword; the Kalshi client goes on
    while a page carries a cursor and at least 200 records, the Polymarket
    client while a page is not empty and carries a cursor other than the
    empty one and the end sentinel "LTE=". In particular, on a three-page
    source whose first two pages make the client go on and whose final page
    returns no cursor, the client makes exactly three fetches and returns
    the matching records of the three pages. *)
Theorem keyword_pagination :
  (forall W (request_markets : W -> KalshiParams -> result KalshiPage * W) convert
          fuel keyword cursor all_markets w w' requests page,
     request_markets w (kalshi_page_params cursor) = (Return page, w') ->
     kalshi_keyword_loop request_markets convert (S fuel) keyword cursor all_markets
       w requests
     = if kalshi_continues page
       then kalshi_keyword_loop request_markets convert fuel keyword (page_cursor page)
              (all_markets ++ kalshi_page_matches convert keyword (page_markets page))
              w' (requests ++ [kalshi_page_params cursor])
       else (Finished (all_markets
                       ++ kalshi_page_matches convert keyword (page_markets page)),
             w', requests ++ [kalshi_page_params cursor])) /\
  (forall W (request_markets : W -> KalshiParams -> result KalshiPage * W) convert
          fuel keyword w0 w1 w2 w3 p1 p2 p3,
     request_markets w0 (kalshi_page_params None) = (Return p1, w1) ->
     kalshi_continues p1 = true ->
     request_markets w1 (kalshi_page_params (page_cursor p1)) = (Return p2, w2) ->
     kalshi_continues p2 = true ->
     request_markets w2 (kalshi_page_params (page_cursor p2)) = (Return p3, w3) ->
     str_truthy (page_cursor p3) = false ->
     3 <= fuel ->
     kalshi_get_markets_by_keyword request_markets convert fuel keyword w0
     = (Some (Return (kalshi_page_matches convert keyword (page_markets p1)
                      ++ kalshi_page_matches convert keyword (page_markets p2)
                      ++ kalshi_page_matches convert keyword (page_markets p3))),
        w3,
        [kalshi_page_params None; kalshi_page_params (page_cursor p1);
         kalshi_page_params (page_cursor p2)])) /\
  (forall W (request_markets : W -> string -> result (option PolyPage) * W) post convert
          fuel keyword next_cursor all_markets converted w w1 w2 requests page,
     request_markets w next_cursor = (Return (Some page), w1) ->
     process_page post convert w1
       (filter (polymarket_keyword_matches keyword) (page_data page)) = (converted, w2) ->
     polymarket_keyword_loop request_markets post convert (S fuel) keyword next_cursor
       all_markets w requests
     = if polymarket_continues page
       then polymarket_keyword_loop request_markets post convert fuel keyword
              (page_next_cursor page) (all_markets ++ converted) w2
              (requests ++ [next_cursor])
       else (Finished (all_markets ++ converted), w2, requests ++ [next_cursor])) /\
  (forall W (request_markets : W -> string -> result (option PolyPage) * W) post convert
          fuel keyword w0 w1 w1' w2 w2' w3 w3' p1 p2 p3 m1 m2 m3,
     request_markets w0 ""%string = (Return (Some p1), w1) ->
     process_page post convert w1
       (filter (polymarket_keyword_matches keyword) (page_data p1)) = (m1, w1') ->
     polymarket_continues p1 = true ->
     request_markets w1' (page_next_cursor p1) = (Return (Some p2), w2) ->
     process_page post convert w2
       (filter (polymarket_keyword_matches keyword) (page_data p2)) = (m2, w2') ->
     polymarket_continues p2 = true ->
     request_markets w2' (page_next_cursor p2) = (Return (Some p3), w3) ->
     process_page post convert w3
       (filter (polymarket_keyword_matches keyword) (page_data p3)) = (m3, w3') ->
     page_next_cursor p3 = ""%string ->
     3 <= fuel ->
     polymarket_get_markets_by_keyword request_markets post convert fuel keyword w0
     = (Some (Return (m1 ++ m2 ++ m3)), w3',
        [""%string; page_next_cursor p1; page_next_cursor p2])).
Proof.
  split; [|split; [|split]].
  - intros. apply kalshi_keyword_loop_step. assumption.
  - intros. eapply kalshi_three_pages; eassumption.
  - intros. apply polymarket_keyword_loop_step with (w1 := w1); assumption.
  - intros. eapply polymarket_three_pages; eassumption.
Qed.

(** The two three-page sources: three fetches each. *)
Lemma keyword_pagination_witness :
  kalshi_get_markets_by_keyword three_full_pages sample_kalshi_convert 3 (lit "rain") tt
  = (Some (Return (kalshi_page_matches sample_kalshi_convert (lit "rain")
                     (page_markets full_page_1)
                   ++ kalshi_page_matches sample_kalshi_convert (lit "rain")
                        (page_markets full_page_2)
                   ++ kalshi_page_matches sample_kalshi_convert (lit "rain")
                        (page_markets last_page_3))),
     tt,
     [kalshi_page_params None; kalshi_page_params (page_cursor full_page_1);
      kalshi_page_params (page_cursor full_page_2)]) /\
  polymarket_get_markets_by_keyword three_poly_pages quoting_server sample_poly_convert
    3 (lit "rain") tt
  = (Some (Return ([market_titled "P1" "Will it rain in Paris?"]
                   ++ [market_titled "P3" "Rain in Oslo?"]
                   ++ [market_titled "P4" "Will it rain in Bern?"])),
     tt, [""%string; page_next_cursor poly_page_1; page_next_cursor poly_page_2]).
Proof.
  split.
  - refine (proj1 (proj2 keyword_pagination) unit three_full_pages sample_kalshi_convert
              3 (lit "rain") tt tt tt tt full_page_1 full_page_2 last_page_3
              _ _ _ _ _ _ _);
      vm_compute; reflexivity.
  - refine (proj2 (proj2 (proj2 keyword_pagination)) unit three_poly_pages quoting_server
              sample_poly_convert 3 (lit "rain") tt tt tt tt tt tt tt
              poly_page_1 poly_page_2 poly_page_3
              _ _ _ _ _ _ _ _ _ _ _ _ _);
      vm_compute; reflexivity.
Defined.

(** C2, as stated, fails for the Kalshi listings: when the request fails,
    [get_markets] and [get_markets_by_keyword] raise an [APIError] that wraps
    the failure. *)
Lemma listing_failure_claim_counterexample :
  kalshi_get_markets failing_kalshi sample_kalshi_convert None tt
  = (Raise (APIError "Failed to fetch Kalshi markets: HTTP 500: Internal Server Error"),
     tt) /\
  kalshi_get_markets_by_keyword failing_kalshi sample_kalshi_convert 5 (lit "rain") tt
  = (Some (Raise (APIError
       "Failed to fetch Kalshi markets by keyword: HTTP 500: Internal Server Error")),
     tt, [kalshi_page_params None]).
Proof. split; reflexivity. Qed.

Lemma polymarket_markets_loop_failure (W : Type)
  (request_markets : W -> string -> result (option PolyPage) * W)
  (post : W -> Payload -> result PostResponse * W)
  (convert : PolyRaw -> dict TokenPrices -> option StandardizedMarket)
  (fuel : nat) (limit : option nat) (next_cursor : string)
  (all_markets : list StandardizedMarket) (w w' : W) (requests : list string) (e : exn) :
  request_markets w next_cursor = (Raise e, w') ->
  polymarket_markets_loop request_markets post convert (S fuel) limit next_cursor
    all_markets w requests
  = (Raised e, w', requests ++ [next_cursor]).
Proof. intro Hreq. cbn [polymarket_markets_loop]. rewrite Hreq. reflexivity. Qed.

(** C2 (amended): the Polymarket listings [get_markets] and
    [get_markets_by_keyword] never let an error out and return an empty list
    when a request fails, at whatever page; [get_market_details] of both
    clients never lets an error out and returns absent when the request
    fails; the Kalshi listings [get_markets] and [get_markets_by_keyword]
    instead raise an [APIError] that wraps the failure of the request, at
    whatever page. *)
Theorem listing_failures :
  (forall W (request_markets : W -> string -> result (option PolyPage) * W) post convert
          fuel limit keyword w e,
     fst (fst (polymarket_get_markets request_markets post convert fuel limit w))
       <> Some (Raise e) /\
     fst (fst (polymarket_get_markets_by_keyword request_markets post convert
                 fuel keyword w))
       <> Some (Raise e)) /\
  (forall W (request_markets : W -> string -> result (option PolyPage) * W) post convert
          fuel limit keyword next_cursor all_markets w w' requests e,
     request_markets w next_cursor = (Raise e, w') ->
     polymarket_markets_loop request_markets post convert (S fuel) limit next_cursor
       all_markets w requests = (Raised e, w', requests ++ [next_cursor]) /\
     polymarket_keyword_loop request_markets post convert (S fuel) keyword next_cursor
       all_markets w requests = (Raised e, w', requests ++ [next_cursor])) /\
  (forall W (request_markets : W -> string -> result (option PolyPage) * W) post convert
          fuel limit keyword w e,
     (fst (fst (polymarket_markets_loop request_markets post convert fuel limit ""
                  [] w [])) = Raised e ->
      fst (fst (polymarket_get_markets request_markets post convert fuel limit w))
        = Some (Return [])) /\
     (fst (fst (polymarket_keyword_loop request_markets post convert fuel keyword ""
                  [] w [])) = Raised e ->
      fst (fst (polymarket_get_markets_by_keyword request_markets post convert
                  fuel keyword w)) = Some (Return []))) /\
  (forall W (polymarket_market : W -> string -> result (option PolyRaw) * W) post
          convert_with_prices
          (kalshi_market : W -> string -> result (option KalshiRaw) * W) convert
          market_id w,
     (exists answer,
        fst (polymarket_get_market_details polymarket_market post convert_with_prices
               market_id w) = Return answer) /\
     (exists answer,
        fst (kalshi_get_market_details kalshi_market convert market_id w) = Return answer) /\
     (forall e w', polymarket_market w market_id = (Raise e, w') ->
        polymarket_get_market_details polymarket_market post convert_with_prices
          market_id w = (Return None, w')) /\
     (forall e w', kalshi_market w market_id = (Raise e, w') ->
        kalshi_get_market_details kalshi_market convert market_id w = (Return None, w'))) /\
  (forall W (request_markets : W -> KalshiParams -> result KalshiPage * W) convert
          fuel limit keyword cursor all_markets w w' requests e,
     (request_markets w
        {| param_limit := match limit with Some (S n) => Some (S n) | _ => None end;
           param_cursor := None |} = (Raise e, w') ->
      kalshi_get_markets request_markets convert limit w
      = (Raise (APIError ("Failed to fetch Kalshi markets: " ++ exn_message e)), w')) /\
     (request_markets w (kalshi_page_params cursor) = (Raise e, w') ->
      kalshi_keyword_loop request_markets convert (S fuel) keyword cursor all_markets
        w requests = (Raised e, w', requests ++ [kalshi_page_params cursor])) /\
     (fst (fst (kalshi_keyword_loop request_markets convert fuel keyword None [] w []))
        = Raised e ->
      fst (fst (kalshi_get_markets_by_keyword request_markets convert fuel keyword w))
      = Some (Raise (APIError
          ("Failed to fetch Kalshi markets by keyword: " ++ exn_message e))))).
Proof.
  split; [|split; [|split; [|split]]].
  - intros W request_markets post convert fuel limit keyword w e. split.
    + unfold polymarket_get_markets.
      destruct (polymarket_markets_loop _ _ _ _ _ _ _ _ _) as [[[l|e'|] w'] reqs];
        cbn [fst]; discriminate.
    + unfold polymarket_get_markets_by_keyword.
      destruct (polymarket_keyword_loop _ _ _ _ _ _ _ _ _) as [[[l|e'|] w'] reqs];
        cbn [fst]; discriminate.
  - intros W request_markets post convert fuel limit keyword next_cursor all_markets
      w w' requests e Hreq. split.
    + apply polymarket_markets_loop_failure. exact Hreq.
    + apply polymarket_keyword_loop_failure. exact Hreq.
  - intros W request_markets post convert fuel limit keyword w e. split.
    + unfold polymarket_get_markets.
      destruct (polymarket_markets_loop _ _ _ _ _ _ _ _ _) as [[[l|e'|] w'] reqs];
        cbn [fst]; intro H; try discriminate H. reflexivity.
    + unfold polymarket_get_markets_by_keyword.
      destruct (polymarket_keyword_loop _ _ _ _ _ _ _ _ _) as [[[l|e'|] w'] reqs];
        cbn [fst]; intro H; try discriminate H. reflexivity.
  - intros W polymarket_market post convert_with_prices kalshi_market convert market_id w.
    split; [|split; [|split]].
    + unfold polymarket_get_market_details.
      destruct (polymarket_market w market_id) as [[[market_data|]|e] w'].
      * destruct (token_ids_of market_data).
        -- eexists. reflexivity.
        -- destruct (get_market_prices post w' _) as [[prices w''] events].
           eexists. reflexivity.
      * eexists. reflexivity.
      * eexists. reflexivity.
    + unfold kalshi_get_market_details.
      destruct (kalshi_market w market_id) as [[[market_data|]|e] w'];
        eexists; reflexivity.
    + intros e w' H. unfold polymarket_get_market_details. rewrite H. reflexivity.
    + intros e w' H. unfold kalshi_get_market_details. rewrite H. reflexivity.
  - intros W request_markets convert fuel limit keyword cursor all_markets
      w w' requests e. split; [|split].
    + intro H. unfold kalshi_get_markets. rewrite H. reflexivity.
    + apply kalshi_keyword_loop_failure.
    + unfold kalshi_get_markets_by_keyword.
      destruct (kalshi_keyword_loop _ _ _ _ _ _ _ _) as [[[l|e'|] w''] reqs];
        cbn [fst]; intro H; try discriminate H.
      injection H as ->. reflexivity.
Qed.

(** A Polymarket source that fails on its second page, failing detail
    requests, and a failing Kalshi listing. *)
Lemma listing_failures_witness :
  fst (fst (polymarket_get_markets_by_keyword poly_second_page_fails quoting_server
              sample_poly_convert 5 (lit "rain") tt)) = Some (Return []) /\
  polymarket_get_market_details failing_poly_detail quoting_server sample_poly_convert
    "P1" tt = (Return None, tt) /\
  kalshi_get_market_details failing_kalshi_detail sample_kalshi_convert "K1" tt
  = (Return None, tt) /\
  kalshi_get_markets failing_kalshi sample_kalshi_convert (Some 50) tt
  = (Raise (APIError "Failed to fetch Kalshi markets: HTTP 500: Internal Server Error"),
     tt).
Proof.
  pose proof listing_failures as (_ & _ & Hempty & Hdetails & Hkalshi).
  split; [|split; [|split]].
  - apply (proj2 (Hempty unit poly_second_page_fails quoting_server sample_poly_convert
                    5 None (lit "rain") tt (PlainException "HTTP 502: Bad Gateway"))).
    vm_compute. reflexivity.
  - apply (proj1 (proj2 (proj2 (Hdetails unit failing_poly_detail quoting_server
             sample_poly_convert failing_kalshi_detail sample_kalshi_convert
             "P1"%string tt)))
             (PlainException "HTTP 500: Internal Server Error") tt).
    reflexivity.
  - apply (proj2 (proj2 (proj2 (Hdetails unit failing_poly_detail quoting_server
             sample_poly_convert failing_kalshi_detail sample_kalshi_convert
             "K1"%string tt)))
             (APIError "HTTP 500: Internal Server Error") tt).
    reflexivity.
  - apply (proj1 (Hkalshi unit failing_kalshi sample_kalshi_convert 0 (Some 50) []
                    None [] tt tt [] (APIError "HTTP 500: Internal Server Error"))).
    reflexivity.
Defined.

End ListingFacts.

(** ** More on the detector *)

Section DetectorFlowFacts.
Import Detector DetectorSamples DetectorFlows.
Open Scope Q_scope.

Lemma Qabs_diff_lt (a b : Q) : a < b -> Qabs (a - b) == b - a.
Proof.
  intro H. rewrite Qabs_neg by lra. ring.
Qed.

Lemma Qabs_diff_ge (a b : Q) : b <= a -> Qabs (a - b) == a - b.
Proof.
  intro H. rewrite Qabs_pos by lra. reflexivity.
Qed.

Lemma Qabs_diff_sym (a b : Q) : Qabs (a - b) == Qabs (b - a).
Proof.
  setoid_replace (a - b) with (- (b - a)) by ring. apply Qabs_opp.
Qed.





Lemma calculate_arbitrage_some self (p q : Q) r :
  _calculate_arbitrage self p q = Some r ->
  let buy := PyFloat.min2 (_normalize_price q) (_normalize_price p) in
  let sell := if PyFloat.ltb (_normalize_price p) (_normalize_price q)
              then _normalize_price q else _normalize_price p in
  ~ sell - buy <= 0 /\ ~ buy == 0 /\ ~ default_investment self == 0 /\
  r = {| calc_profit_percentage :=
           (default_investment self / buy * (sell - buy)
            - default_investment self * 0.01) / default_investment self * 100;
         calc_required_investment := default_investment self;
         calc_potential_profit :=
           default_investment self / buy * (sell - buy) - default_investment self * 0.01;
         calc_buy_price := buy;
         calc_sell_price := sell;
         calc_buy_platform :=
           if PyFloat.ltb (_normalize_price p) (_normalize_price q)
           then "Market 1"%string else "Market 2"%string;
         calc_sell_platform :=
           if PyFloat.ltb (_normalize_price p) (_normalize_price q)
           then "Market 2"%string else "Market 1"%string;
         calc_shares := default_investment self / buy;
         calc_gross_profit := default_investment self / buy * (sell - buy);
         calc_transaction_cost := default_investment self * 0.01 |}.
Proof.
  unfold _calculate_arbitrage, _calculate_arbitrage_body, PyFloat.min2.
  destruct (PyFloat.ltb (_normalize_price p) (_normalize_price q)) eqn:E;
    cbv zeta; cbv beta iota;
    (destruct (PyFloat.leb _ 0) eqn:Ed; [discriminate|]);
    apply leb_false_iff in Ed;
    unfold PyFloat.div;
    (destruct (Qeq_bool _ 0) eqn:Eb; cbn [bind]; [discriminate|]);
    (destruct (Qeq_bool (default_investment self) 0) eqn:ED; cbn [bind]; [discriminate|]);
    intro H; injection H as <-;
    (split; [lra|]);
    (split; [intro Hz; apply Qeq_bool_iff in Hz; congruence|]);
    (split; [intro Hz; apply Qeq_bool_iff in Hz; congruence|]);
    reflexivity.
Qed.





Lemma in_unit_interval_iff (x : Q) : in_unit_interval x = true <-> 0 <= x /\ x <= 1.
Proof.
  unfold in_unit_interval. rewrite andb_true_iff, !Qle_bool_iff. reflexivity.
Qed.

Lemma analyze_opportunity_fields (MarketData : Type)
  (validate_market : MarketData -> option StandardizedMarket)
  (self : ArbitrageDetector) (mt : AnalysisMatch MarketData) (opp : ArbitrageOpportunity) :
  analyze_opportunity validate_market self mt = Some opp ->
  min_profit_percentage self <= profit_percentage opp /\
  0 <= risk_score opp /\ risk_score opp <= 1 /\
  0 <= similarity_score opp /\ similarity_score opp <= 1 /\
  confidence_score opp = similarity_score opp /\
  similarity_score opp = get_default (match_similarity_score (risk_keys mt)) 0.0 /\
  risk_score opp = _calculate_risk_score (risk_keys mt) (market_1 opp) (market_2 opp) /\
  required_investment opp = default_investment self /\
  (exists a b, match_kalshi_price mt = Some a /\ match_polymarket_price mt = Some b /\
               price_difference opp = Qabs (a - b)).
Proof.
  unfold analyze_opportunity.
  destruct (kalshi_market_data mt) as [kd|]; [|discriminate].
  destruct (polymarket_market_data mt) as [pd|]; [|discriminate].
  destruct (validate_market kd) as [km|]; [|discriminate].
  destruct (validate_market pd) as [pm|]; [|discriminate].
  destruct (match_kalshi_price mt) as [a|]; [|discriminate].
  destruct (match_polymarket_price mt) as [b|]; [|discriminate].
  destruct (_calculate_arbitrage self a b) as [calc|] eqn:Ec; [|discriminate].
  destruct (PyFloat.ltb (calc_profit_percentage calc) (min_profit_percentage self))
    eqn:Ep; [discriminate|].
  apply ltb_false_iff in Ep.
  destruct (in_unit_interval (_calculate_risk_score (risk_keys mt) km pm)) eqn:Er;
    [|discriminate].
  destruct (in_unit_interval (get_default (match_similarity_score (risk_keys mt)) 0.0))
    eqn:Es; [|discriminate].
  apply in_unit_interval_iff in Er. apply in_unit_interval_iff in Es.
  assert (Hreq : calc_required_investment calc = default_investment self).
  { destruct (calculate_arbitrage_some self a b calc Ec) as (_ & _ & _ & ->).
    reflexivity. }
  cbn [andb]. intro H; injection H as <-.
  cbn [profit_percentage risk_score similarity_score confidence_score
       required_investment price_difference market_1 market_2].
  split; [exact Ep|]. split; [apply Er|]. split; [apply Er|].
  split; [apply Es|]. split; [apply Es|]. split; [reflexivity|].
  split; [reflexivity|].
  split; [reflexivity|]. split; [exact Hreq|].
  exists a, b. repeat split; reflexivity.
Qed.



Lemma detect_from_bound (clock : nat -> string) (pairs : list Pair)
  (kalshi_markets polymarket_markets : list StandardizedMarket) (k : nat) :
  (List.length (detect_from clock k pairs kalshi_markets polymarket_markets)
   <= List.length pairs)%nat.
Proof.
  revert k. induction pairs as [|matched pairs IH]; intro k; [apply le_n|].
  cbn [detect_from List.length]. specialize (IH (S k)).
  destruct (lookup_market kalshi_markets (kalshi_id matched)) as [km|]; [|lia].
  destruct (lookup_market polymarket_markets (polymarket_id matched)) as [pm|]; [|lia].
  destruct (_calculate_arbitrage_opportunity (clock k) km pm); cbn [List.length]; lia.
Qed.

Lemma lookup_market_found (markets : list StandardizedMarket) (key : option string)
  (m : StandardizedMarket) :
  lookup_market markets key = Some m ->
  In m markets /\ key = Some (market_id m).
Proof.
  destruct key as [wanted|]; [|discriminate]. cbn [lookup_market]. intro H.
  apply find_some in H. destruct H as [Hin Heq].
  apply String.eqb_eq in Heq. split; [apply in_rev; exact Hin | congruence].
Qed.

Lemma pair_opportunity_markets (utcnow : string) (km pm : StandardizedMarket)
  (r : PairOpportunity) :
  _calculate_arbitrage_opportunity utcnow km pm = Some r ->
  0.03 <= pair_spread r /\ pair_kalshi_market r = km /\ pair_polymarket_market r = pm.
Proof.
  unfold _calculate_arbitrage_opportunity.
  destruct (_get_best_price km) as [a|]; [|discriminate].
  destruct (_get_best_price pm) as [b|]; [|discriminate].
  destruct (PyFloat.ltb (Qabs (a - b)) 0.03) eqn:Es; [discriminate|].
  apply ltb_false_iff in Es.
  destruct (PyFloat.ltb a b); intro H; injection H as <-; repeat split; exact Es.
Qed.

Lemma detect_from_sound (clock : nat -> string) (pairs : list Pair)
  (kalshi_markets polymarket_markets : list StandardizedMarket) (k : nat)
  (r : PairOpportunity) :
  In r (detect_from clock k pairs kalshi_markets polymarket_markets) ->
  In (pair_kalshi_market r) kalshi_markets /\
  In (pair_polymarket_market r) polymarket_markets /\
  In {| kalshi_id := Some (market_id (pair_kalshi_market r));
        polymarket_id := Some (market_id (pair_polymarket_market r)) |} pairs /\
  0.03 <= pair_spread r.
Proof.
  revert k. induction pairs as [|matched pairs IH]; intros k Hin; [contradiction|].
  cbn [detect_from] in Hin.
  assert (Hlater : In r (detect_from clock (S k) pairs kalshi_markets polymarket_markets) ->
            In (pair_kalshi_market r) kalshi_markets /\
            In (pair_polymarket_market r) polymarket_markets /\
            In {| kalshi_id := Some (market_id (pair_kalshi_market r));
                  polymarket_id := Some (market_id (pair_polymarket_market r)) |}
               (matched :: pairs) /\
            0.03 <= pair_spread r).
  { intro H. destruct (IH (S k) H) as (A & B & C & D).
    repeat split; try assumption. right. exact C. }
  destruct (lookup_market kalshi_markets (kalshi_id matched)) as [km|] eqn:Ek; [|auto].
  destruct (lookup_market polymarket_markets (polymarket_id matched)) as [pm|] eqn:Ep;
    [|auto].
  destruct (_calculate_arbitrage_opportunity (clock k) km pm) as [found|] eqn:Ec; [|auto].
  destruct Hin as [<- | Hin]; [|auto].
  destruct (lookup_market_found _ _ _ Ek) as [Hkin Hkid].
  destruct (lookup_market_found _ _ _ Ep) as [Hpin Hpid].
  destruct (pair_opportunity_markets (clock k) km pm found Ec) as (Hspread & -> & ->).
  repeat split; try assumption.
  left. destruct matched as [kid pid]. cbn in Hkid, Hpid. subst. reflexivity.
Qed.



Lemma bet_sizing_value (opportunity : ArbitrageOpportunity)
  (available_capital max_position_size : Q) :
  ~ profit_percentage opportunity == 0 ->
  ~ available_capital == 0 ->
  calculate_optimal_bet_sizing opportunity available_capital max_position_size
  = let profit_ratio := profit_percentage opportunity / 100.0 in
    let win_probability := 1.0 - risk_score opportunity in
    let kelly := win_probability * profit_ratio / profit_ratio * 0.5 in
    let investment :=
      PyFloat.min3 (kelly * available_capital) (available_capital * max_position_size)
                   (required_investment opportunity) in
    {| optimal_investment := investment;
       kelly_fraction := kelly;
       position_percentage := investment / available_capital * 100;
       expected_profit := investment * (profit_ratio * win_probability);
       max_loss := investment * risk_score opportunity |}.
Proof.
  intros Hp Hc.
  assert (Hr : ~ profit_percentage opportunity / 100.0 == 0).
  { intro H. apply Hp.
    setoid_replace (profit_percentage opportunity)
      with (profit_percentage opportunity / 100.0 * 100.0) by field.
    rewrite H. reflexivity. }
  unfold calculate_optimal_bet_sizing, calculate_optimal_bet_sizing_body.
  rewrite (div_nonzero _ _ Hr). cbn [bind].
  rewrite (div_nonzero _ _ Hc). cbn [bind]. reflexivity.
Qed.

Lemma kelly_cancels (win profit_ratio : Q) :
  ~ profit_ratio == 0 -> win * profit_ratio / profit_ratio * 0.5 == 0.5 * win.
Proof. intro H. field. exact H. Qed.

Lemma profit_ratio_nonzero (profit : Q) : ~ profit == 0 -> ~ profit / 100.0 == 0.
Proof.
  intros Hp H. apply Hp.
  setoid_replace profit with (profit / 100.0 * 100.0) by field.
  rewrite H. reflexivity.
Qed.

Lemma min3_bounds (a b c : Q) :
  PyFloat.min3 a b c <= a /\ PyFloat.min3 a b c <= b /\ PyFloat.min3 a b c <= c /\
  (forall x, x <= a -> x <= b -> x <= c -> x <= PyFloat.min3 a b c).
Proof.
  unfold PyFloat.min3.
  pose proof (min2_le_l (PyFloat.min2 a b) c). pose proof (min2_le_r (PyFloat.min2 a b) c).
  pose proof (min2_le_l a b). pose proof (min2_le_r a b).
  repeat split; try lra.
  intros x Ha Hb Hc. apply min2_glb; [apply min2_glb|]; assumption.
Qed.

Lemma sizing_bounds_core (opportunity : ArbitrageOpportunity)
  (available_capital max_position_size : Q) :
  ~ profit_percentage opportunity == 0 ->
  0 <= risk_score opportunity -> risk_score opportunity <= 1 ->
  0 < available_capital ->
  0 <= max_position_size ->
  0 <= required_investment opportunity ->
  let r := calculate_optimal_bet_sizing opportunity available_capital max_position_size in
  0 <= optimal_investment r /\
  optimal_investment r <= 0.5 * available_capital /\
  optimal_investment r <= max_position_size * available_capital /\
  optimal_investment r <= required_investment opportunity /\
  0 <= position_percentage r /\
  position_percentage r <= 100 * max_position_size /\
  0 <= max_loss r /\ max_loss r <= optimal_investment r.
Proof.
  intros Hp Hr0 Hr1 Hc Hm Hreq r. unfold r.
  rewrite bet_sizing_value by (try assumption; lra).
  cbn zeta.
  cbn [optimal_investment position_percentage max_loss].
  pose proof (kelly_cancels (1.0 - risk_score opportunity) _
                (profit_ratio_nonzero _ Hp)) as Hk.
  set (kelly := (1.0 - risk_score opportunity) * (profit_percentage opportunity / 100.0)
                / (profit_percentage opportunity / 100.0) * 0.5) in *.
  destruct (min3_bounds (kelly * available_capital) (available_capital * max_position_size)
              (required_investment opportunity)) as (B1 & B2 & B3 & Bglb).
  set (investment := PyFloat.min3 (kelly * available_capital)
                       (available_capital * max_position_size)
                       (required_investment opportunity)) in *.
  assert (Hk0 : 0 <= kelly) by (rewrite Hk; lra).
  assert (Hk1 : kelly <= 0.5) by (rewrite Hk; lra).
  assert (Hi0 : 0 <= investment).
  { apply Bglb; [|apply Qmult_le_0_compat; lra | exact Hreq].
    apply Qmult_le_0_compat; lra. }
  assert (Hhalf : kelly * available_capital <= 0.5 * available_capital).
  { apply Qmult_le_compat_r; lra. }
  split; [exact Hi0|]. split; [lra|]. split; [lra|]. split; [exact B3|].
  split; [|split; [|split]].
  - apply Qmult_le_0_compat; [|lra]. apply Qle_shift_div_l; lra.
  - setoid_replace (100 * max_position_size)
      with (available_capital * max_position_size / available_capital * 100)
      by (field; lra).
    apply Qmult_le_compat_r; [|lra].
    apply Qmult_le_compat_r; [exact B2|]. apply Qlt_le_weak. apply Qinv_lt_0_compat. exact Hc.
  - apply Qmult_le_0_compat; assumption.
  - setoid_replace investment with (investment * 1) at 2 by ring.
    rewrite (Qmult_comm investment), (Qmult_comm investment).
    apply Qmult_le_compat_r; assumption.
Qed.

(** X7: for an opportunity whose profit ratio profit_percentage / 100 is in
    the normal range of floats and whose risk score is in [[0,1]], a
    positive capital, a non-negative position cap and a non-negative
    required investment, the investment is never negative and never above
    half the capital, the position cap times the capital or the required
    investment; the percentage of capital used is not negative, and the
    worst-case loss is between 0 and the investment. *)
Theorem bet_sizing_bounds (opportunity : ArbitrageOpportunity)
  (available_capital max_position_size : Q) :
  PyFloatRange.normal (profit_percentage opportunity / 100.0) ->
  0 <= risk_score opportunity -> risk_score opportunity <= 1 ->
  0 < available_capital ->
  0 <= max_position_size ->
  0 <= required_investment opportunity ->
  let r := calculate_optimal_bet_sizing opportunity available_capital max_position_size in
  0 <= optimal_investment r /\
  optimal_investment r <= 0.5 * available_capital /\
  optimal_investment r <= max_position_size * available_capital /\
  optimal_investment r <= required_investment opportunity /\
  0 <= position_percentage r /\
  0 <= max_loss r /\ max_loss r <= optimal_investment r.
Proof.
  intros Hn Hr0 Hr1 Hc Hm Hreq r.
  destruct (sizing_bounds_core opportunity available_capital max_position_size
              (normal_ratio_nonzero _ Hn) Hr0 Hr1 Hc Hm Hreq)
    as (B1 & B2 & B3 & B4 & B5 & _ & B7 & B8).
  fold r in B1, B2, B3, B4, B5, B7, B8.
  split; [exact B1|]. split; [exact B2|]. split; [exact B3|]. split; [exact B4|].
  split; [exact B5|]. split; [exact B7 | exact B8].
Qed.

Lemma bet_sizing_bounds_witness :
  optimal_investment (calculate_optimal_bet_sizing (opportunity_with 5 0.2 1000) 5000 0.1)
  <= 0.1 * 5000.
Proof.
  refine (proj1 (proj2 (proj2
    (bet_sizing_bounds (opportunity_with 5 0.2 1000) 5000 0.1 _ _ _ _ _ _))));
    vm_compute; first [discriminate | reflexivity].
Defined.

(** X8: the size of the bet does not depend on how large the profit is: two
    opportunities that differ only in their profit percentage, both with a
    profit ratio profit_percentage / 100 in the normal range of floats, get
    the same kelly fraction, investment, percentage of capital and
    worst-case loss, for a capital in that range. *)
Theorem bet_sizing_ignores_profit (opportunity : ArbitrageOpportunity)
  (other_profit available_capital max_position_size : Q) :
  PyFloatRange.normal (profit_percentage opportunity / 100.0) ->
  PyFloatRange.normal (other_profit / 100.0) ->
  PyFloatRange.normal available_capital ->
  let r := calculate_optimal_bet_sizing opportunity available_capital max_position_size in
  let r' := calculate_optimal_bet_sizing (with_profit_percentage opportunity other_profit)
              available_capital max_position_size in
  kelly_fraction r' == kelly_fraction r /\
  optimal_investment r' == optimal_investment r /\
  position_percentage r' == position_percentage r /\
  max_loss r' == max_loss r.
Proof.
  intros Hn Hn' Hnc r r'. unfold r, r'.
  pose proof (normal_nonzero _ Hnc) as Hc.
  pose proof (normal_ratio_nonzero _ Hn) as Hp.
  pose proof (normal_ratio_nonzero _ Hn') as Hp'.
  rewrite !bet_sizing_value by assumption.
  cbn zeta. cbn [kelly_fraction optimal_investment position_percentage max_loss
                 with_profit_percentage profit_percentage risk_score required_investment].
  pose proof (kelly_cancels (1.0 - risk_score opportunity) _
                (profit_ratio_nonzero _ Hp)) as Hk.
  pose proof (kelly_cancels (1.0 - risk_score opportunity) _
                (profit_ratio_nonzero _ Hp')) as Hk'.
  assert (Hinv :
    PyFloat.min3
      ((1.0 - risk_score opportunity) * (other_profit / 100.0) / (other_profit / 100.0)
       * 0.5 * available_capital)
      (available_capital * max_position_size) (required_investment opportunity)
    == PyFloat.min3
      ((1.0 - risk_score opportunity) * (profit_percentage opportunity / 100.0)
       / (profit_percentage opportunity / 100.0) * 0.5 * available_capital)
      (available_capital * max_position_size) (required_investment opportunity)).
  { rewrite !min3_Qmin, Hk, Hk'. reflexivity. }
  split; [rewrite Hk, Hk'; reflexivity|]. split; [exact Hinv|].
  split; rewrite Hinv; reflexivity.
Qed.

Lemma bet_sizing_ignores_profit_witness :
  optimal_investment (calculate_optimal_bet_sizing
                        (with_profit_percentage (opportunity_with 5 0.2 1000) 50) 5000 0.1)
  == optimal_investment (calculate_optimal_bet_sizing (opportunity_with 5 0.2 1000) 5000 0.1).
Proof.
  refine (proj1 (proj2
    (bet_sizing_ignores_profit (opportunity_with 5 0.2 1000) 50 5000 0.1 _ _ _)));
    vm_compute; discriminate.
Defined.

(** X9: a normalised price is never above 1, is not negative when the
    price was not, and is left as it is by a second normalisation; a
    negative price passes through unchanged. *)
Theorem normalize_price_invariants (p : Q) :
  _normalize_price p <= 1 /\
  (0 <= p -> 0 <= _normalize_price p) /\
  _normalize_price (_normalize_price p) = _normalize_price p /\
  (p < 0 -> _normalize_price p = p).
Proof.
  split; [apply normalize_price_le_1|]. split; [|split; [apply normalize_price_idempotent|]].
  - intro H. unfold _normalize_price.
    destruct (PyFloat.leb p 1.0); [exact H|].
    destruct (PyFloat.leb p 100.0) eqn:E.
    + apply Qle_shift_div_l; lra.
    + apply leb_false_iff in E. apply min2_glb; [apply Qle_shift_div_l; lra | lra].
  - intro H. unfold _normalize_price.
    assert (E : PyFloat.leb p 1.0 = true) by (apply leb_true_iff; lra).
    rewrite E. reflexivity.
Qed.

Lemma normalize_price_invariants_witness :
  0 <= _normalize_price 250 /\ _normalize_price (-3) = -3.
Proof.
  split.
  - apply (proj1 (proj2 (normalize_price_invariants 250))). vm_compute. discriminate.
  - apply (proj2 (proj2 (proj2 (normalize_price_invariants (-3))))). vm_compute. reflexivity.
Defined.

Lemma min2_monotone (a b c : Q) : a <= b -> PyFloat.min2 a c <= PyFloat.min2 b c.
Proof.
  intro H. apply min2_glb.
  - apply Qle_trans with a; [apply min2_le_l | exact H].
  - apply min2_le_r.
Qed.

(** The sum the risk score caps, by its terms. *)
Lemma risk_score_as_sum (mt : Match) (market1 market2 : StandardizedMarket) :
  _calculate_risk_score mt market1 market2
  == PyFloat.min2
       ((match close_date market1, close_date market2 with
         | Some d1, Some d2 =>
             if (7 <? Z.abs (timedelta_days (d1 - d2)))%Z then 0.3 else 0
         | _, _ => 0
         end)
        + (if PyFloat.ltb (or_zero (total_volume market1)) 1000
              || PyFloat.ltb (or_zero (total_volume market2)) 1000 then 0.2 else 0)
        + 0.1
        + (1.0 - get_default (match_similarity_score mt) 0.5) * 0.4
        + (if PyFloat.ltb 0.3 (get_default (match_price_difference mt) 0) then 0.3 else 0))
       1.0.
Proof.
  unfold _calculate_risk_score.
  apply Qle_antisym; apply min2_glb; try apply min2_le_r;
    (eapply Qle_trans; [apply min2_le_l|]);
    destruct (close_date market1) as [d1|], (close_date market2) as [d2|];
    try destruct (7 <? Z.abs (timedelta_days (d1 - d2)))%Z;
    destruct (PyFloat.ltb (or_zero (total_volume market1)) 1000
              || PyFloat.ltb (or_zero (total_volume market2)) 1000);
    destruct (PyFloat.ltb 0.3 (get_default (match_price_difference mt) 0));
    cbn [app PyFloat.sum fold_left]; lra.
Qed.

(** X10: a higher similarity score never raises the risk score, and a
    market whose close date is unknown never has a higher risk score than
    the same market with a close date. *)
Theorem risk_score_monotone (mt : Match) (market1 market2 : StandardizedMarket) :
  (forall s1 s2, s1 <= s2 ->
     _calculate_risk_score (with_similarity mt s2) market1 market2
     <= _calculate_risk_score (with_similarity mt s1) market1 market2) /\
  _calculate_risk_score mt (with_close_date market1 None) market2
    <= _calculate_risk_score mt market1 market2 /\
  _calculate_risk_score mt market1 (with_close_date market2 None)
    <= _calculate_risk_score mt market1 market2.
Proof.
  split; [|split].
  - intros s1 s2 H. rewrite !risk_score_as_sum.
    apply min2_monotone. cbn [with_similarity match_similarity_score
                              match_price_difference get_default]. lra.
  - rewrite !risk_score_as_sum. apply min2_monotone.
    cbn [with_close_date close_date total_volume].
    destruct (close_date market1) as [d1|], (close_date market2) as [d2|];
      try destruct (7 <? Z.abs (timedelta_days (d1 - d2)))%Z; lra.
  - rewrite !risk_score_as_sum. apply min2_monotone.
    cbn [with_close_date close_date total_volume].
    destruct (close_date market1) as [d1|], (close_date market2) as [d2|];
      try destruct (7 <? Z.abs (timedelta_days (d1 - d2)))%Z; lra.
Qed.

Lemma risk_score_monotone_witness :
  _calculate_risk_score (with_similarity plain_match 0.9) liquid_market liquid_market
  <= _calculate_risk_score (with_similarity plain_match 0.5) liquid_market liquid_market.
Proof.
  apply (proj1 (risk_score_monotone plain_match liquid_market liquid_market) 0.5 0.9).
  vm_compute. discriminate.
Defined.

Lemma timedelta_days_between (delta : Z) :
  (- 8 * microseconds_per_day < delta < - 7 * microseconds_per_day)%Z ->
  timedelta_days delta = (-8)%Z.
Proof.
  unfold timedelta_days, microseconds_per_day. intro H.
  symmetry. apply Z.div_unique with (r := (delta + 8 * 86400000000)%Z); lia.
Qed.

Lemma timedelta_days_between_pos (delta : Z) :
  (7 * microseconds_per_day < delta < 8 * microseconds_per_day)%Z ->
  timedelta_days delta = 7%Z.
Proof.
  unfold timedelta_days, microseconds_per_day. intro H.
  symmetry. apply Z.div_unique with (r := (delta - 7 * 86400000000)%Z); lia.
Qed.

(** X11: the close-date term depends on the order of the two markets. When
    the first market closes more than 7 but less than 8 days before the
    second, the day count of the negative difference is -8, so the term 0.3
    is added; with the markets exchanged the count is 7 and it is not. The
    score of the first order is the other one plus 0.3, up to the cap. *)
Theorem risk_score_depends_on_order (mt : Match) (market1 market2 : StandardizedMarket)
  (d1 d2 : Z) :
  close_date market1 = Some d1 ->
  close_date market2 = Some d2 ->
  (7 * microseconds_per_day < d2 - d1 < 8 * microseconds_per_day)%Z ->
  _calculate_risk_score mt market2 market1 <= _calculate_risk_score mt market1 market2 /\
  (_calculate_risk_score mt market2 market1 + 0.3 <= 1 ->
   _calculate_risk_score mt market1 market2
   == _calculate_risk_score mt market2 market1 + 0.3).
Proof.
  intros H1 H2 Hd.
  assert (E12 : timedelta_days (d1 - d2) = (-8)%Z) by (apply timedelta_days_between; lia).
  assert (E21 : timedelta_days (d2 - d1) = 7%Z) by (apply timedelta_days_between_pos; lia).
  rewrite !risk_score_as_sum. rewrite H1, H2, E12, E21.
  change (7 <? Z.abs (-8))%Z with true. change (7 <? Z.abs 7)%Z with false.
  rewrite (orb_comm (PyFloat.ltb (or_zero (total_volume market2)) 1000)).
  set (rest := (if PyFloat.ltb (or_zero (total_volume market1)) 1000
                   || PyFloat.ltb (or_zero (total_volume market2)) 1000 then 0.2 else 0)
               + 0.1 + (1.0 - get_default (match_similarity_score mt) 0.5) * 0.4
               + (if PyFloat.ltb 0.3 (get_default (match_price_difference mt) 0)
                  then 0.3 else 0)).
  assert (Ha : 0.3 + (if PyFloat.ltb (or_zero (total_volume market1)) 1000
                   || PyFloat.ltb (or_zero (total_volume market2)) 1000 then 0.2 else 0)
               + 0.1 + (1.0 - get_default (match_similarity_score mt) 0.5) * 0.4
               + (if PyFloat.ltb 0.3 (get_default (match_price_difference mt) 0)
                  then 0.3 else 0) == rest + 0.3) by (unfold rest; ring).
  assert (Hb : 0 + (if PyFloat.ltb (or_zero (total_volume market1)) 1000
                   || PyFloat.ltb (or_zero (total_volume market2)) 1000 then 0.2 else 0)
               + 0.1 + (1.0 - get_default (match_similarity_score mt) 0.5) * 0.4
               + (if PyFloat.ltb 0.3 (get_default (match_price_difference mt) 0)
                  then 0.3 else 0) == rest) by (unfold rest; ring).
  rewrite !min2_Qmin, Ha, Hb.
  split.
  - apply Q.min_le_compat_r. lra.
  - intro Hcap.
    destruct (Q.min_spec rest 1.0) as [[Hlt Hmin] | [Hge Hmin]].
    + rewrite Hmin in *. apply Q.min_l. lra.
    + rewrite Hmin in Hcap. lra.
Qed.

Lemma risk_score_depends_on_order_witness :
  _calculate_risk_score plain_match (market_closing 0) (market_closing 648000000000)
  == _calculate_risk_score plain_match (market_closing 648000000000) (market_closing 0)
     + 0.3.
Proof.
  refine (proj2 (risk_score_depends_on_order plain_match (market_closing 0)
                   (market_closing 648000000000) 0 648000000000 eq_refl eq_refl _) _).
  - vm_compute. split; reflexivity.
  - vm_compute. discriminate.
Defined.



End DetectorFlowFacts.

(** ** More on the batch prices *)

Section PolymarketPricesMoreFacts.
Import PyData PolymarketPrices PolymarketPricesTerms.

Lemma dict_get_set {V : Type} (d : dict V) (key key' : string) (value : V) :
  dict_get (dict_set d key value) key'
  = if String.eqb key key' then Some value else dict_get d key'.
Proof.
  induction d as [|[k v] d IH]; cbn [dict_set dict_get].
  - destruct (String.eqb key key'); reflexivity.
  - destruct (String.eqb k key) eqn:Ek; cbn [dict_get].
    + apply String.eqb_eq in Ek. subst k.
      destruct (String.eqb key key'); reflexivity.
    + rewrite IH. destruct (String.eqb k key') eqn:Ek'; [|reflexivity].
      apply String.eqb_eq in Ek'. subst k. rewrite String.eqb_sym, Ek. reflexivity.
Qed.

Lemma dict_get_keys {V : Type} (d : dict V) (key : string) :
  dict_get d key <> None <-> In key (dict_keys d).
Proof.
  induction d as [|[k v] d IH]; cbn [dict_get dict_keys map fst In].
  - split; [intro H; contradiction | intros []].
  - destruct (String.eqb k key) eqn:Ek.
    + apply String.eqb_eq in Ek. split; [intros _; left; exact Ek | discriminate].
    + apply String.eqb_neq in Ek. rewrite IH. unfold dict_keys. tauto.
Qed.

Lemma mentions_In (chunk : list string) (token : string) :
  mentions chunk token = true <-> In token chunk.
Proof.
  unfold mentions. rewrite existsb_exists. split.
  - intros (x & Hin & Heq). apply String.eqb_eq in Heq. subst. exact Hin.
  - intro Hin. exists token. split; [exact Hin | apply String.eqb_refl].
Qed.

(** What merging a response leaves under a key. *)
Lemma merge_response_get (chunk : list string) (response all_prices : dict TokenPrices)
  (token : string) :
  dict_get (merge_response chunk response all_prices) token
  = match (if mentions chunk token then dict_get response token else None) with
    | Some v => Some v
    | None => dict_get all_prices token
    end.
Proof.
  unfold merge_response. revert all_prices.
  induction chunk as [|c chunk IH]; intro all_prices; [reflexivity|].
  cbn [fold_left]. rewrite IH. unfold mentions. cbn [existsb]. fold (mentions chunk token).
  destruct (String.eqb token c) eqn:Etc.
  - apply String.eqb_eq in Etc. subst c. cbn [orb].
    destruct (mentions chunk token).
    + destruct (dict_get response token) as [v|] eqn:Er; [reflexivity|]. reflexivity.
    + destruct (dict_get response token) as [v|] eqn:Er; [|reflexivity].
      rewrite dict_get_set, String.eqb_refl. reflexivity.
  - cbn [orb]. assert (Hct : String.eqb c token = false) by (rewrite String.eqb_sym; exact Etc).
    destruct (mentions chunk token).
    + destruct (dict_get response token) as [v|]; [reflexivity|].
      destruct (dict_get response c); [rewrite dict_get_set, Hct|]; reflexivity.
    + destruct (dict_get response c); [rewrite dict_get_set, Hct|]; reflexivity.
Qed.

Lemma last_chunk_facts (token_ids : list string) :
  token_ids <> [] ->
  chunking_loop token_ids 10
    = Some (10 * ((List.length token_ids - 1) / 10), last_chunk token_ids) /\
  1 <= List.length (last_chunk token_ids) <= 10 /\
  (forall t, In t (last_chunk token_ids) -> In t token_ids).
Proof.
  intro Hne. destruct (chunking_loop_leaves_last_chunk token_ids Hne) as [Hc Hl].
  split; [exact Hc|]. split; [exact Hl|].
  intros t Hin. unfold last_chunk in Hin.
  rewrite <- (firstn_skipn (10 * ((List.length token_ids - 1) / 10)) token_ids).
  apply in_or_app. right. exact Hin.
Qed.

Lemma entries_of_length (tokens : list string) :
  List.length (entries_of tokens) = 2 * List.length tokens.
Proof.
  induction tokens as [|t tokens IH]; [reflexivity|].
  cbn [entries_of flat_map app List.length]. fold (entries_of tokens). lia.
Qed.

Lemma entries_of_tokens (tokens : list string) (entry : BookParams) :
  In entry (entries_of tokens) -> In (token_id entry) tokens.
Proof.
  induction tokens as [|t tokens IH]; [intros []|].
  cbn [entries_of flat_map app In]. fold (entries_of tokens).
  intros [<- | [<- | H]]; [left; reflexivity | left; reflexivity | right; apply IH; exact H].
Qed.

Lemma entries_of_In (tokens : list string) (t : string) :
  In t tokens -> In {| token_id := t; side := BUY |} (entries_of tokens).
Proof.
  induction tokens as [|t' tokens IH]; [intros []|].
  cbn [entries_of flat_map app In]. fold (entries_of tokens).
  intros [-> | H]; [left; reflexivity | right; right; apply IH; exact H].
Qed.

(** X13: whatever the number of tokens and whatever the endpoint answers,
    [get_market_prices] posts at most 10 requests, each of at most 20
    entries, all for tokens of the list given; for an empty list it posts
    nothing and returns the empty dictionary. *)
Theorem get_market_prices_request_bounds (W : Type)
  (transport : W -> Payload -> result PostResponse * W) (w : W) (token_ids : list string) :
  let run := get_market_prices transport w token_ids in
  List.length (posted_payloads (snd run)) <= 10 /\
  (forall payload, In payload (posted_payloads (snd run)) ->
     1 <= List.length payload <= 20 /\
     forall entry, In entry payload -> In (token_id entry) token_ids) /\
  (token_ids = [] -> run = (Some [], w, [])).
Proof.
  cbn zeta. destruct token_ids as [|t ts] eqn:Et.
  - cbn. split; [lia|]. split; [intros payload []|reflexivity].
  - rewrite <- Et.
    assert (Hne : token_ids <> []) by (rewrite Et; discriminate).
    destruct (last_chunk_facts token_ids Hne) as (_ & Hlen & Hsub).
    rewrite (get_market_prices_posts W transport w token_ids Hne).
    fold (last_chunk token_ids).
    split; [rewrite length_map, length_seq; lia|].
    split; [|intro H; rewrite Et in H; discriminate].
    intros payload Hin. apply in_map_iff in Hin. destruct Hin as (k & <- & Hk).
    apply in_seq in Hk.
    rewrite entries_of_length, length_firstn.
    split; [lia|].
    intros entry He. apply Hsub. apply entries_of_tokens in He.
    rewrite <- (firstn_skipn k (last_chunk token_ids)). apply in_or_app. left. exact He.
Qed.

Section AnyPriceTransport.
Variable W : Type.
Variable transport : W -> Payload -> result PostResponse * W.

(** The prices kept by the request loop only have keys of the chunk. *)
Lemma request_loop_keys (i chunk_size n : nat) (chunk rest : list string)
  (st : PriceLoop W) :
  (forall t, dict_get (loop_all_prices st) t <> None -> In t chunk) ->
  forall t,
    dict_get (loop_all_prices
                (fold_left (price_request_step transport i chunk_size n chunk) rest st)) t
      <> None -> In t chunk.
Proof.
  revert st. induction rest as [|token rest IH]; intros st Hst; [exact Hst|].
  cbn [fold_left]. apply IH. intros t.
  unfold price_request_step.
  destruct (transport (loop_world st) _) as [[response|e] w']; cbn zeta.
  - destruct (negb (truthy response)); cbn [loop_all_prices]; [apply Hst|].
    destruct response as [d|b]; [|apply Hst].
    rewrite merge_response_get.
    destruct (mentions chunk t) eqn:Em.
    + intros _. apply mentions_In. exact Em.
    + apply Hst.
  - cbn [loop_all_prices]. apply Hst.
Qed.

(** While every request raises, nothing is kept. *)
Lemma request_loop_all_failed (i chunk_size n : nat) (chunk rest : list string)
  (st : PriceLoop W) :
  always_fails transport ->
  loop_all_prices st = [] ->
  loop_all_prices (fold_left (price_request_step transport i chunk_size n chunk) rest st)
  = [].
Proof.
  intros Hfail. revert st. induction rest as [|token rest IH]; intros st Hst; [exact Hst|].
  cbn [fold_left]. apply IH. unfold price_request_step.
  destruct (Hfail (loop_world st)
              (loop_payload st ++ [ {| token_id := token; side := BUY |};
                                    {| token_id := token; side := SELL |} ]))
    as (e & w' & ->).
  cbn [loop_all_prices]. exact Hst.
Qed.

(** Against a transport that prices what it is asked, the tokens met so far
    are priced after each turn. *)
Lemma request_loop_prices_asked (i chunk_size n : nat) (chunk : list string) :
  prices_what_is_asked transport ->
  forall (rest done : list string) (st : PriceLoop W),
    chunk = done ++ rest ->
    loop_payload st = entries_of done ->
    (forall t, In t done -> dict_get (loop_all_prices st) t <> None) ->
    forall t, In t chunk ->
      dict_get (loop_all_prices
                  (fold_left (price_request_step transport i chunk_size n chunk) rest st)) t
        <> None.
Proof.
  intros Hquote. induction rest as [|token rest IH]; intros done st Hchunk Hpay Hdone t Hin.
  - cbn [fold_left]. apply Hdone. rewrite Hchunk, app_nil_r in Hin. exact Hin.
  - cbn [fold_left].
    apply (IH (done ++ [token])); try assumption.
    + rewrite <- app_assoc. exact Hchunk.
    + destruct (price_request_step_effect W transport i chunk_size n chunk st token)
        as [Hp _].
      rewrite Hp, Hpay. unfold entries_of. rewrite flat_map_app. reflexivity.
    + intros t' Ht'. unfold price_request_step.
      destruct (Hquote (loop_world st)
                  (loop_payload st ++ [ {| token_id := token; side := BUY |};
                                        {| token_id := token; side := SELL |} ]))
        as (d & w' & -> & Hd).
      assert (Hasked : dict_get d t' <> None).
      { apply (Hd {| token_id := t'; side := BUY |}).
        rewrite Hpay. apply in_app_iff in Ht'. destruct Ht' as [Ht' | [<- | []]].
        - apply in_or_app. left. apply entries_of_In. exact Ht'.
        - apply in_or_app. right. left. reflexivity. }
      assert (Htruthy : truthy (ResponseDict d) = true).
      { destruct d; [contradiction Hasked; reflexivity | reflexivity]. }
      rewrite Htruthy. cbn [negb loop_all_prices].
      rewrite merge_response_get.
      assert (Hm : mentions chunk t' = true).
      { apply mentions_In. rewrite Hchunk. apply in_app_iff in Ht'.
        destruct Ht' as [Ht' | [<- | []]];
          [apply in_or_app; left; exact Ht' | apply in_or_app; right; left; reflexivity]. }
      rewrite Hm. destruct (dict_get d t'); [discriminate | contradiction].
Qed.

End AnyPriceTransport.

Lemma get_market_prices_request_bounds_witness :
  List.length (posted_payloads (snd (get_market_prices quoting_server tt tokens_25))) <= 10
  /\ get_market_prices quoting_server tt [] = (Some [], tt, []).
Proof.
  pose proof (get_market_prices_request_bounds unit quoting_server tt tokens_25)
    as (Hposts & _).
  split; [exact Hposts|].
  apply (proj2 (proj2 (get_market_prices_request_bounds unit quoting_server tt []))).
  reflexivity.
Defined.

(** X14: the dictionary returned by [get_market_prices] for a non-empty list
    is never empty (it is [None] instead) and only holds tokens of the last
    chunk of at most 10 tokens, hence of the list given. *)
Theorem get_market_prices_result_keys (W : Type)
  (transport : W -> Payload -> result PostResponse * W) (w : W) (token_ids : list string) :
  token_ids <> [] ->
  forall prices,
    fst (fst (get_market_prices transport w token_ids)) = Some prices ->
    prices <> [] /\
    forall t, In t (dict_keys prices) -> In t (last_chunk token_ids) /\ In t token_ids.
Proof.
  intros Hne prices. destruct (last_chunk_facts token_ids Hne) as (Hc & _ & Hsub).
  unfold get_market_prices. destruct token_ids as [|t0 ts]; [contradiction|].
  rewrite Hc. cbn [fst].
  set (final := fold_left _ _ _).
  assert (Hkeys : forall t, dict_get (loop_all_prices final) t <> None ->
                            In t (last_chunk (t0 :: ts))).
  { apply request_loop_keys. cbn. intros t H. contradiction. }
  destruct (loop_all_prices final) as [|entry rest] eqn:Ef; [discriminate|].
  intro H; injection H as <-. split; [discriminate|].
  intros t Ht. apply dict_get_keys in Ht. split; [|apply Hsub]; apply Hkeys; exact Ht.
Qed.

Lemma get_market_prices_result_keys_witness :
  exists prices,
    fst (fst (get_market_prices quoting_server tt tokens_25)) = Some prices /\
    prices <> [].
Proof.
  eexists. split; [reflexivity|].
  refine (proj1 (get_market_prices_result_keys unit quoting_server tt tokens_25 _ _
                   eq_refl)).
  discriminate.
Defined.

(** X15: when every post raises, [get_market_prices] does not give up at the
    first failure: it still posts once per token of the last chunk, and it
    returns [None]. *)
Theorem get_market_prices_all_failed (W : Type)
  (transport : W -> Payload -> result PostResponse * W) (w : W) (token_ids : list string) :
  always_fails transport ->
  token_ids <> [] ->
  fst (fst (get_market_prices transport w token_ids)) = None /\
  List.length (posted_payloads (snd (get_market_prices transport w token_ids)))
  = List.length (last_chunk token_ids).
Proof.
  intros Hfail Hne. split.
  - destruct (last_chunk_facts token_ids Hne) as (Hc & _).
    unfold get_market_prices. destruct token_ids as [|t0 ts]; [contradiction|].
    rewrite Hc. cbn [fst].
    rewrite request_loop_all_failed; [reflexivity | exact Hfail | reflexivity].
  - rewrite (get_market_prices_posts W transport w token_ids Hne).
    fold (last_chunk token_ids). rewrite length_map, length_seq. reflexivity.
Qed.

Lemma get_market_prices_all_failed_witness :
  fst (fst (get_market_prices refusing_server tt tokens_25)) = None /\
  List.length (posted_payloads (snd (get_market_prices refusing_server tt tokens_25)))
  = List.length (last_chunk tokens_25).
Proof.
  apply (get_market_prices_all_failed unit refusing_server tt tokens_25).
  - intros w payload. exists (PlainException "HTTP 503: Service Unavailable"), tt.
    reflexivity.
  - discriminate.
Defined.

(** X16: against an endpoint that prices every token it is asked about, the
    tokens that get a price are exactly those of the last chunk; a token of
    an earlier chunk only gets one if it occurs in the last chunk again. *)
Theorem get_market_prices_prices_last_chunk (W : Type)
  (transport : W -> Payload -> result PostResponse * W) (w : W) (token_ids : list string) :
  prices_what_is_asked transport ->
  token_ids <> [] ->
  exists prices,
    fst (fst (get_market_prices transport w token_ids)) = Some prices /\
    forall t, dict_get prices t <> None <-> In t (last_chunk token_ids).
Proof.
  intros Hquote Hne. destruct (last_chunk_facts token_ids Hne) as (Hc & Hlen & _).
  unfold get_market_prices. destruct token_ids as [|t0 ts]; [contradiction|].
  rewrite Hc. cbn [fst].
  set (final := fold_left _ _ _).
  assert (Hall : forall t, In t (last_chunk (t0 :: ts)) ->
                           dict_get (loop_all_prices final) t <> None).
  { apply (request_loop_prices_asked W transport _ _ _ _ Hquote
             (last_chunk (t0 :: ts)) []); [reflexivity | reflexivity | intros t []]. }
  assert (Hkeys : forall t, dict_get (loop_all_prices final) t <> None ->
                            In t (last_chunk (t0 :: ts))).
  { apply request_loop_keys. cbn. intros t H. contradiction. }
  destruct (loop_all_prices final) as [|entry rest] eqn:Ef.
  - exfalso. destruct (last_chunk (t0 :: ts)) as [|c cs] eqn:El; [cbn in Hlen; lia|].
    apply (Hall c); [left; reflexivity | reflexivity].
  - eexists. split; [reflexivity|]. intro t. split; [apply Hkeys | apply Hall].
Qed.

Lemma get_market_prices_prices_last_chunk_witness :
  exists prices,
    fst (fst (get_market_prices quoting_server tt tokens_25)) = Some prices /\
    forall t, dict_get prices t <> None <-> In t (last_chunk tokens_25).
Proof.
  apply (get_market_prices_prices_last_chunk unit quoting_server tt tokens_25).
  - intros w payload. eexists. exists tt. split; [reflexivity|].
    intros entry Hin. 
    assert (Hgen : forall (p : Payload) (acc : dict TokenPrices),
              (In entry p \/ dict_get acc (token_id entry) <> None) ->
              dict_get (fold_left
                (fun d e => dict_set d (token_id e)
                   {| price_BUY := Some "0.55"%string; price_SELL := Some "0.56"%string |})
                p acc) (token_id entry) <> None).
    { induction p as [|e p IH]; intros acc [H | H]; cbn [fold_left].
      - contradiction.
      - exact H.
      - apply IH. destruct H as [-> | H]; [right | left; exact H].
        rewrite dict_get_set, String.eqb_refl. discriminate.
      - apply IH. right. rewrite dict_get_set.
        destruct (String.eqb (token_id e) (token_id entry)); [discriminate | exact H]. }
    apply Hgen. left. exact Hin.
  - discriminate.
Defined.

End PolymarketPricesMoreFacts.

(** ** More on the request layer *)

Section RequestLayerMoreFacts.
Import RequestLayer.

Section AnySessionMore.
Variables (Json W : Type).
Variable send : W -> Exchange Json * W.
Variable vpn_is_connected : W -> bool.

(** One attempt sends exactly once. *)
Lemma polymarket_attempt_sends_once (w : W) (events : list Event) :
  count_sent (snd (polymarket_attempt send w events)) = count_sent events + 1.
Proof.
  unfold polymarket_attempt. destruct (send w) as [[response|timed_out msg] w1].
  - destruct (status response =? 429).
    + destruct (retry_after_seconds (retry_after response)); cbn [snd];
        rewrite ?count_sent_app; cbn [count_sent]; lia.
    + destruct (400 <=? status response); [|destruct (json response)]; cbn [snd];
        rewrite ?count_sent_app; cbn [count_sent]; lia.
  - cbn [snd]. rewrite ?count_sent_app. cbn [count_sent]. lia.
Qed.

Lemma polymarket_attempts_count (max_retries : nat) :
  forall (remaining attempt : nat) (w : W) (events : list Event),
    attempt + remaining = S max_retries ->
    let run := polymarket_attempts send max_retries remaining attempt w events in
    count_sent (snd run) <= count_sent events + remaining /\
    (forall e, fst (fst run) = Raise e -> count_sent (snd run) = count_sent events + remaining) /\
    (fst (fst run) = Return None -> remaining = 0) /\
    (forall body, fst (fst run) = Return (Some body) -> count_sent events < count_sent (snd run)).
Proof.
  induction remaining as [|remaining IH]; intros attempt w events Hsum; cbn zeta.
  - cbn [polymarket_attempts fst snd]. repeat split; try lia; try discriminate.
  - cbn [polymarket_attempts].
    pose proof (polymarket_attempt_sends_once w events) as Hone.
    destruct (polymarket_attempt send w events) as [[[body|e] w1] events1];
      cbn [snd] in Hone.
    + cbn [fst snd]. repeat split; try lia; try discriminate.
    + destruct (attempt <? max_retries) eqn:E.
      * apply Nat.ltb_lt in E.
        specialize (IH (S attempt) w1
                      (events1 ++ [Slept (inject_Z (Z.of_nat (2 * attempt)))])).
        cbn zeta in IH.
        assert (Hc : count_sent (events1 ++ [Slept (inject_Z (Z.of_nat (2 * attempt)))])
                     = count_sent events + 1).
        { rewrite count_sent_app. cbn [count_sent]. lia. }
        rewrite Hc in IH.
        destruct IH as (I1 & I2 & I3 & I4); [lia|].
        repeat split.
        -- lia.
        -- intros e' He'. rewrite (I2 e' He'). lia.
        -- intro Hn. specialize (I3 Hn). lia.
        -- intros body Hb. specialize (I4 body Hb). lia.
      * apply Nat.ltb_ge in E. cbn [fst snd].
        assert (remaining = 0) by lia. subst remaining.
        repeat split; try lia; try discriminate.
Qed.

Lemma polymarket_attempts_failure_step (w w1 : W) (exchange : Exchange Json)
  (failure : exn) (max_retries remaining attempt : nat) (events : list Event) :
  send w = (exchange, w1) ->
  match exchange with
  | TransportFailure timed_out msg => failure = transport_exn timed_out msg
  | Answered response =>
      400 <= status response /\ status response <> 429 /\
      failure = PlainException
                  ("HTTP " ++ string_of_nat (status response) ++ ": " ++ text response)
  end ->
  polymarket_attempts send max_retries (S remaining) attempt w events
  = if attempt <? max_retries
    then polymarket_attempts send max_retries remaining (S attempt) w1
           (events ++ [Slept 0.1; Sent; Slept (inject_Z (Z.of_nat (2 * attempt)))])
    else (Raise failure, w1, events ++ [Slept 0.1; Sent]).
Proof.
  intros Hsend Hkind. cbn [polymarket_attempts]. unfold polymarket_attempt. rewrite Hsend.
  destruct exchange as [response|timed_out msg].
  - destruct Hkind as (H400 & H429 & ->).
    assert (E1 : (status response =? 429) = false) by (apply Nat.eqb_neq; exact H429).
    assert (E2 : (400 <=? status response) = true) by (apply Nat.leb_le; exact H400).
    rewrite E1, E2. destruct (attempt <? max_retries); rewrite <- !app_assoc; reflexivity.
  - subst failure. destruct (attempt <? max_retries); rewrite <- !app_assoc; reflexivity.
Qed.

End AnySessionMore.



(** X18: the Polymarket client retries every failed attempt, not only 429:
    an answer with status 400 or more other than 429, or a transport failure,
    is followed by the wait of twice the attempt number and another attempt
    while attempts remain, without any [Retry-After] sleep, and is raised at
    the last attempt. So a first answer 500 followed by a good answer gives
    the body after two sends. *)
Theorem polymarket_retries_any_failure (Json W : Type) (send : W -> Exchange Json * W)
  (vpn_is_connected : W -> bool) :
  (forall w w1 exchange failure max_retries remaining attempt events,
     send w = (exchange, w1) ->
     match exchange with
     | TransportFailure timed_out msg => failure = transport_exn timed_out msg
     | Answered response =>
         400 <= status response /\ status response <> 429 /\
         failure = PlainException
                     ("HTTP " ++ string_of_nat (status response) ++ ": " ++ text response)
     end ->
     polymarket_attempts send max_retries (S remaining) attempt w events
     = if attempt <? max_retries
       then polymarket_attempts send max_retries remaining (S attempt) w1
              (events ++ [Slept 0.1; Sent; Slept (inject_Z (Z.of_nat (2 * attempt)))])
       else (Raise failure, w1, events ++ [Slept 0.1; Sent])) /\
  (forall self max_retries w w1 w2 bad good body,
     poly_session self = true ->
     vpn_required self && negb (vpn_is_connected w) = false ->
     send w = (Answered bad, w1) ->
     400 <= status bad -> status bad <> 429 ->
     send w1 = (Answered good, w2) ->
     status good < 400 ->
     json good = Some body ->
     2 <= max_retries ->
     polymarket_make_request send vpn_is_connected self max_retries w
     = (Return (Some body), w2,
        [Slept 0.1; Sent; Slept (inject_Z 2); Slept 0.1; Sent])).
Proof.
  split.
  - intros. eapply polymarket_attempts_failure_step; eassumption.
  - intros self max_retries w w1 w2 bad good body Hs Hv Hbad H400 H429 Hgood Hok Hjson Hm.
    unfold polymarket_make_request. rewrite Hs, Hv. cbn [negb].
    destruct max_retries as [|[|m]]; try lia.
    rewrite (polymarket_attempts_failure_step Json W send w w1 (Answered bad)
               (PlainException ("HTTP " ++ string_of_nat (status bad) ++ ": " ++ text bad))
               (S (S m)) (S m) 1 [] Hbad); [|repeat split; assumption].
    cbn [Nat.ltb Nat.leb polymarket_attempts].
    rewrite (polymarket_attempt_ok Json W send w1 w2 good body _ Hgood Hok Hjson).
    reflexivity.
Qed.

Lemma polymarket_retries_any_failure_witness :
  polymarket_make_request scripted (fun _ => true) open_polymarket_client 3
    [Answered {| status := 500; retry_after := HeaderAbsent; text := "oops"; json := None |};
     ok "{}"]
  = (Return (Some "{}"%string), [],
     [Slept 0.1; Sent; Slept (inject_Z 2); Slept 0.1; Sent]).
Proof.
  refine (proj2 (polymarket_retries_any_failure string _ scripted (fun _ => true))
            open_polymarket_client 3
            [Answered {| status := 500; retry_after := HeaderAbsent; text := "oops";
                         json := None |}; ok "{}"]
            [ok "{}"] []
            {| status := 500; retry_after := HeaderAbsent; text := "oops"; json := None |}
            {| status := 200; retry_after := HeaderAbsent; text := "{}";
               json := Some "{}"%string |} "{}"%string
            eq_refl eq_refl eq_refl _ _ eq_refl _ eq_refl _);
    cbn; try lia; discriminate.
Defined.

(** X19: a Kalshi request sends at most once and never sleeps and retries;
    with an open session every error it raises is an [APIError] (a transport
    failure, a bad [Retry-After] and a bad body included), an answer with
    status 400 or more other than 429 is raised at once as
    "HTTP <status>: <text>" without any sleep, and without session or with a
    failing signature nothing is sent. The base client likewise sends at
    most once and raises only [APIError]. *)
Theorem kalshi_request_single_send (Json W : Type) (send : W -> Exchange Json * W)
  (self : KalshiClient) (w : W) :
  let run := kalshi_make_request send self w in
  count_sent (snd run) <= 1 /\
  (kalshi_session self = true ->
   forall e, fst (fst run) = Raise e -> is_APIError e = true) /\
  (kalshi_session self = false \/
   api_key self && private_key self && signing_fails self = true ->
   count_sent (snd run) = 0 /\ snd (fst run) = w /\ exists e, fst (fst run) = Raise e) /\
  (forall response w1,
     kalshi_session self = true ->
     api_key self && private_key self && signing_fails self = false ->
     send w = (Answered response, w1) ->
     400 <= status response -> status response <> 429 ->
     run = (Raise (APIError
                     ("HTTP " ++ string_of_nat (status response) ++ ": " ++ text response)),
            w1, [Throttled; Sent])) /\
  (let base := base_make_request send true w in
   count_sent (snd base) <= 1 /\
   forall e, fst (fst base) = Raise e -> is_APIError e = true).
Proof.
  cbn zeta.
  assert (Hsingle : forall rate_limit_error,
            count_sent (snd (single_request send rate_limit_error w)) <= 1 /\
            forall e, fst (fst (single_request send rate_limit_error w)) = Raise e ->
                      e = rate_limit_error \/ is_APIError e = true \/ e = ValueError \/
                      exists timed_out msg, e = transport_exn timed_out msg).
  { intro rle. unfold single_request.
    destruct (send w) as [[response|timed_out msg] w1].
    - destruct (status response =? 429).
      + destruct (retry_after_seconds (retry_after response)) as [s|e'] eqn:Eh;
          cbn [fst snd app count_sent]; (split; [lia|]); intros e He; injection He as <-.
        * left. reflexivity.
        * right. right. left. destruct (retry_after response); try discriminate Eh.
          injection Eh as <-. reflexivity.
      + destruct (400 <=? status response); [|destruct (json response)];
          cbn [fst snd app count_sent]; (split; [lia|]); intros e He;
          try discriminate He; injection He as <-; right; left; reflexivity.
    - cbn [fst snd app count_sent]. split; [lia|]. intros e He. injection He as <-.
      right. right. right. exists timed_out, msg. reflexivity. }
  split; [|split; [|split; [|split]]].
  - unfold kalshi_make_request.
    destruct (negb (kalshi_session self)); [cbn; lia|].
    destruct (api_key self && private_key self && signing_fails self); [cbn; lia|].
    destruct (Hsingle (APIError "Rate limit exceeded")) as [Hc _].
    destruct (single_request send (APIError "Rate limit exceeded") w)
      as [[[body|e] w1] events]; cbn [snd] in *; [exact Hc|].
    destruct (is_APIError e); exact Hc.
  - intros Hs e. unfold kalshi_make_request. rewrite Hs. cbn [negb].
    destruct (api_key self && private_key self && signing_fails self);
      [cbn [fst]; intro He; injection He as <-; reflexivity|].
    destruct (single_request send (APIError "Rate limit exceeded") w)
      as [[[body|e'] w1] events]; cbn [fst]; [discriminate|].
    destruct (is_APIError e') eqn:Ea; cbn [fst]; intro He; injection He as <-;
      [exact Ea | reflexivity].
  - intros [Hs | Hsig]; unfold kalshi_make_request.
    + rewrite Hs. cbn. repeat split. eexists. reflexivity.
    + destruct (negb (kalshi_session self)); [cbn; repeat split; eexists; reflexivity|].
      rewrite Hsig. cbn. repeat split. eexists. reflexivity.
  - intros response w1 Hs Hsig Hsend H400 H429.
    unfold kalshi_make_request. rewrite Hs, Hsig. cbn [negb].
    unfold single_request. rewrite Hsend.
    assert (E1 : (status response =? 429) = false) by (apply Nat.eqb_neq; exact H429).
    assert (E2 : (400 <=? status response) = true) by (apply Nat.leb_le; exact H400).
    rewrite E1, E2. reflexivity.
  - unfold base_make_request. cbn [negb].
    destruct (Hsingle (RateLimitError "Rate limit exceeded")) as [Hc _].
    destruct (single_request send (RateLimitError "Rate limit exceeded") w)
      as [[[body|e] w1] events]; cbn [snd] in Hc.
    + cbn [fst snd]. split; [exact Hc | discriminate].
    + destruct e; cbn [fst snd]; (split; [exact Hc|]);
        intros e' He; injection He as <-; reflexivity.
Qed.

Lemma kalshi_request_single_send_witness :
  kalshi_make_request scripted open_kalshi_client
    [Answered {| status := 404; retry_after := HeaderAbsent; text := "not found";
                 json := None |}; ok "{}"]
  = (Raise (APIError "HTTP 404: not found"), [ok "{}"], [Throttled; Sent]).
Proof.
  refine (proj1 (proj2 (proj2 (proj2
    (kalshi_request_single_send string _ scripted open_kalshi_client
       [Answered {| status := 404; retry_after := HeaderAbsent; text := "not found";
                    json := None |}; ok "{}"]))))
    {| status := 404; retry_after := HeaderAbsent; text := "not found"; json := None |}
    [ok "{}"] eq_refl eq_refl eq_refl _ _); cbn; try lia; discriminate.
Defined.

End RequestLayerMoreFacts.

(** ** More on the listings *)

Section ListingMoreFacts.
Import PyData PyStr Listing ListingSamples PolymarketPrices.

Lemma startswith_iff (s prefix : str) :
  startswith s prefix = true <-> exists rest, s = prefix ++ rest.
Proof.
  split.
  - intro H. exists (skipn (List.length prefix) s). apply startswith_split. exact H.
  - intros (rest & ->). induction prefix as [|p prefix IH]; [destruct rest; reflexivity|].
    cbn [app startswith]. rewrite Ascii.eqb_refl. exact IH.
Qed.

Lemma contains_iff (haystack needle : str) :
  contains haystack needle = true <-> exists before after, haystack = before ++ needle ++ after.
Proof.
  split.
  - induction haystack as [|c haystack IH]; cbn [contains]; intro H.
    + rewrite orb_false_r in H. apply startswith_iff in H. destruct H as (rest & ->).
      exists [], rest. reflexivity.
    + apply orb_true_iff in H. destruct H as [H | H].
      * apply startswith_iff in H. destruct H as (rest & ->). exists [], rest. reflexivity.
      * destruct (IH H) as (before & after & ->). exists (c :: before), after. reflexivity.
  - intros (before & after & ->). induction before as [|c before IH].
    + cbn [app]. destruct (needle ++ after) eqn:E; cbn [contains];
        apply orb_true_iff; left; rewrite <- E; apply startswith_iff; exists after;
        reflexivity.
    + cbn [app contains]. rewrite IH. apply orb_true_r.
Qed.

Lemma lower_char_idempotent (c : ascii) : lower_char (lower_char c) = lower_char c.
Proof.
  destruct c as [[] [] [] [] [] [] [] []]; reflexivity.
Qed.

Lemma lower_idempotent (s : str) : lower (lower s) = lower s.
Proof.
  unfold lower. rewrite map_map. apply map_ext. apply lower_char_idempotent.
Qed.

(** X20: the keyword filters are case-insensitive substring tests. A Kalshi
    record matches exactly when the lower-cased keyword occurs in its
    lower-cased title or rules text; a Polymarket record matches exactly
    when it is active, not closed, and the lower-cased keyword occurs in its
    lower-cased question. Lower-casing the keyword beforehand changes
    nothing, and the empty keyword matches every Kalshi record. *)
Theorem keyword_filter_is_substring_test (keyword : str) :
  (forall market_raw,
     kalshi_keyword_matches keyword market_raw = true <->
     (exists before after,
        lower (raw_title market_raw) = before ++ lower keyword ++ after) \/
     (exists before after,
        lower (raw_rules_primary market_raw) = before ++ lower keyword ++ after)) /\
  (forall market_raw,
     polymarket_keyword_matches keyword market_raw = true <->
     raw_active market_raw = true /\ raw_closed market_raw = false /\
     exists before after,
       lower (raw_question market_raw) = before ++ lower keyword ++ after) /\
  (forall market_raw,
     kalshi_keyword_matches (lower keyword) market_raw
       = kalshi_keyword_matches keyword market_raw /\
     kalshi_keyword_matches [] market_raw = true) /\
  (forall market_raw,
     polymarket_keyword_matches (lower keyword) market_raw
       = polymarket_keyword_matches keyword market_raw).
Proof.
  split; [|split; [|split]].
  - intro market_raw. unfold kalshi_keyword_matches.
    rewrite orb_true_iff, !contains_iff. reflexivity.
  - intro market_raw. unfold polymarket_keyword_matches, is_active.
    rewrite !andb_true_iff, negb_true_iff, contains_iff. tauto.
  - intro market_raw. unfold kalshi_keyword_matches. rewrite lower_idempotent.
    split; [reflexivity|].
    destruct (lower (raw_title market_raw)); reflexivity.
  - intro market_raw. unfold polymarket_keyword_matches. rewrite lower_idempotent.
    reflexivity.
Qed.

Lemma keyword_filter_is_substring_test_witness :
  kalshi_keyword_matches (lit "RAIN") (kalshi_record "K1" "Will it rain in Paris?") = true.
Proof.
  apply (proj1 (keyword_filter_is_substring_test (lit "RAIN"))).
  left. exists (lit "will it "), (lit " in paris?"). reflexivity.
Defined.

Lemma keep_converted_In {A B : Type} (f : A -> option B) (l : list A) (y : B) :
  In y (keep_converted f l) <-> exists x, In x l /\ f x = Some y.
Proof.
  induction l as [|a l IH]; cbn [keep_converted].
  - split; [intros [] | intros (x & [] & _)].
  - destruct (f a) as [b|] eqn:Ea; cbn [In]; rewrite IH; split.
    + intros [<- | (x & Hin & Hx)]; [exists a | exists x]; auto.
    + intros (x & [<- | Hin] & Hx); [left; congruence | right; exists x; auto].
    + intros (x & Hin & Hx). exists x. auto.
    + intros (x & [<- | Hin] & Hx); [congruence | exists x; auto].
Qed.

Lemma firstn_In {A : Type} (n : nat) (l : list A) (x : A) : In x (firstn n l) -> In x l.
Proof.
  intro H. rewrite <- (firstn_skipn n l). apply in_or_app. left. exact H.
Qed.

Section KalshiSoundness.
Variable W : Type.
Variable request_markets : W -> KalshiParams -> result KalshiPage * W.
Variable convert : KalshiRaw -> option StandardizedMarket.

Lemma kalshi_keyword_loop_sound (keyword : str) (P : StandardizedMarket -> Prop) :
  (forall raw m, kalshi_keyword_matches keyword raw = true -> convert raw = Some m -> P m) ->
  forall fuel cursor all_markets w requests l w' requests',
    (forall m, In m all_markets -> P m) ->
    kalshi_keyword_loop request_markets convert fuel keyword cursor all_markets w requests
      = (Finished l, w', requests') ->
    forall m, In m l -> P m.
Proof.
  intros HP. induction fuel as [|fuel IH];
    intros cursor all_markets w requests l w' requests' Hacc; cbn [kalshi_keyword_loop];
    [discriminate|].
  destruct (request_markets w (kalshi_page_params cursor)) as [[page|e] w1]; [|discriminate].
  assert (Hnew : forall m,
            In m (all_markets ++ kalshi_page_matches convert keyword (page_markets page)) ->
            P m).
  { intros m Hm. apply in_app_iff in Hm. destruct Hm as [Hm | Hm]; [apply Hacc; exact Hm|].
    unfold kalshi_page_matches in Hm. apply keep_converted_In in Hm.
    destruct Hm as (raw & _ & Hraw).
    destruct (kalshi_keyword_matches keyword raw) eqn:Ek; [|discriminate].
    apply (HP raw m Ek Hraw). }
  destruct (page_markets page) as [|record records] eqn:Em.
  - intro H; injection H as <- _ _. exact Hacc.
  - destruct (negb (str_truthy (page_cursor page)) || _).
    + intro H; injection H as <- _ _. exact Hnew.
    + apply IH. exact Hnew.
Qed.

End KalshiSoundness.

Section PolymarketSoundness.
Variable W : Type.
Variable request_markets : W -> string -> result (option PolyPage) * W.
Variable post : W -> Payload -> result PostResponse * W.
Variable convert : PolyRaw -> dict TokenPrices -> option StandardizedMarket.

Lemma process_page_sound (w w' : W) (markets_to_process : list PolyRaw)
  (converted : list StandardizedMarket) :
  process_page post convert w markets_to_process = (converted, w') ->
  forall m, In m converted ->
    exists raw prices, In raw markets_to_process /\ convert raw prices = Some m.
Proof.
  unfold process_page, _convert_markets_with_batch_pricing.
  destruct markets_to_process as [|record records] eqn:El.
  - intro H; injection H as <- _. intros m [].
  - rewrite <- El. clear El.
    destruct (collect_token_ids markets_to_process) as [all_token_ids mapping].
    destruct all_token_ids as [|t ts].
    + intro H; injection H as <- _. intros m Hm. apply keep_converted_In in Hm.
      destruct Hm as (raw & Hin & Hraw). eexists raw, _. split; [exact Hin | exact Hraw].
    + destruct (get_market_prices post w (t :: ts)) as [[prices w1] events].
      intro H; injection H as <- _. intros m Hm. apply keep_converted_In in Hm.
      destruct Hm as (raw & Hin & Hraw). eexists raw, _. split; [exact Hin | exact Hraw].
Qed.

Lemma polymarket_keyword_loop_sound (keyword : str) (P : StandardizedMarket -> Prop) :
  (forall raw prices m,
     polymarket_keyword_matches keyword raw = true -> convert raw prices = Some m -> P m) ->
  forall fuel next_cursor all_markets w requests l w' requests',
    (forall m, In m all_markets -> P m) ->
    polymarket_keyword_loop request_markets post convert fuel keyword next_cursor
      all_markets w requests = (Finished l, w', requests') ->
    forall m, In m l -> P m.
Proof.
  intros HP. induction fuel as [|fuel IH];
    intros next_cursor all_markets w requests l w' requests' Hacc;
    cbn [polymarket_keyword_loop]; [discriminate|].
  destruct (request_markets w next_cursor) as [[[page|]|e] w1]; try discriminate.
  - destruct (page_data page) as [|record records] eqn:Ed.
    + intro H; injection H as <- _ _. exact Hacc.
    + rewrite <- Ed.
      destruct (process_page post convert w1
                  (filter (polymarket_keyword_matches keyword) (page_data page)))
        as [converted w2] eqn:Ep.
      assert (Hnew : forall m, In m (all_markets ++ converted) -> P m).
      { intros m Hm. apply in_app_iff in Hm. destruct Hm as [Hm | Hm]; [apply Hacc; exact Hm|].
        destruct (process_page_sound _ _ _ _ Ep m Hm) as (raw & prices & Hin & Hraw).
        apply filter_In in Hin. destruct Hin as [_ Hmatch].
        apply (HP raw prices m Hmatch Hraw). }
      destruct (at_end (page_next_cursor page)).
      * intro H; injection H as <- _ _. exact Hnew.
      * apply IH. exact Hnew.
  - intro H; injection H as <- _ _. exact Hacc.
Qed.

Lemma polymarket_markets_loop_sound (limit : option nat) (P : StandardizedMarket -> Prop) :
  (forall raw prices m, is_active raw = true -> convert raw prices = Some m -> P m) ->
  forall fuel next_cursor all_markets w requests l w' requests',
    (forall m, In m all_markets -> P m) ->
    polymarket_markets_loop request_markets post convert fuel limit next_cursor
      all_markets w requests = (Finished l, w', requests') ->
    forall m, In m l -> P m.
Proof.
  intros HP. induction fuel as [|fuel IH];
    intros next_cursor all_markets w requests l w' requests' Hacc;
    cbn [polymarket_markets_loop]; [discriminate|].
  destruct (request_markets w next_cursor) as [[[page|]|e] w1]; try discriminate.
  - destruct (page_data page) as [|record records] eqn:Ed.
    + intro H; injection H as <- _ _. exact Hacc.
    + rewrite <- Ed.
      destruct (process_page post convert w1 (filter is_active (page_data page)))
        as [converted w2] eqn:Ep.
      assert (Hnew : forall m, In m (all_markets ++ converted) -> P m).
      { intros m Hm. apply in_app_iff in Hm. destruct Hm as [Hm | Hm]; [apply Hacc; exact Hm|].
        destruct (process_page_sound _ _ _ _ Ep m Hm) as (raw & prices & Hin & Hraw).
        apply filter_In in Hin. destruct Hin as [_ Hactive].
        apply (HP raw prices m Hactive Hraw). }
      destruct (at_end (page_next_cursor page)).
      * intro H; injection H as <- _ _. exact Hnew.
      * destruct limit as [[|n]|]; try (apply IH; exact Hnew).
        destruct (S n <=? List.length (all_markets ++ converted)).
        -- intro H; injection H as <- _ _. intros m Hm. apply Hnew.
           apply (firstn_In (S n)). exact Hm.
        -- apply IH. exact Hnew.
  - intro H; injection H as <- _ _. exact Hacc.
Qed.

End PolymarketSoundness.

(** X21: a listing only returns what it filtered for. Every market returned
    by [KalshiClient.get_markets_by_keyword] is the normalisation of a record
    that matches the keyword; every market returned by
    [PolymarketClient.get_markets_by_keyword] is the normalisation of an
    active, not closed record that matches the keyword; every market
    returned by [PolymarketClient.get_markets], with or without limit, is the
    normalisation of an active, not closed record. *)
Theorem listings_return_filtered_records :
  (forall W (request_markets : W -> KalshiParams -> result KalshiPage * W) convert
          fuel keyword w l w' requests,
     kalshi_get_markets_by_keyword request_markets convert fuel keyword w
       = (Some (Return l), w', requests) ->
     forall m, In m l ->
       exists raw, kalshi_keyword_matches keyword raw = true /\ convert raw = Some m) /\
  (forall W (request_markets : W -> string -> result (option PolyPage) * W) post convert
          fuel keyword w l w' requests,
     polymarket_get_markets_by_keyword request_markets post convert fuel keyword w
       = (Some (Return l), w', requests) ->
     forall m, In m l ->
       exists raw prices,
         polymarket_keyword_matches keyword raw = true /\ convert raw prices = Some m) /\
  (forall W (request_markets : W -> string -> result (option PolyPage) * W) post convert
          fuel limit w l w' requests,
     polymarket_get_markets request_markets post convert fuel limit w
       = (Some (Return l), w', requests) ->
     forall m, In m l ->
       exists raw prices,
         raw_active raw = true /\ raw_closed raw = false /\ convert raw prices = Some m).
Proof.
  split; [|split].
  - intros W request_markets convert fuel keyword w l w' requests.
    unfold kalshi_get_markets_by_keyword.
    destruct (kalshi_keyword_loop request_markets convert fuel keyword None [] w [])
      as [[[found|e|] w1] reqs] eqn:El; try discriminate.
    intro H; injection H as <- _ _.
    refine (kalshi_keyword_loop_sound W request_markets convert keyword _ _
              fuel None [] w [] found w1 reqs _ El).
    + intros raw m Hm Hc. exists raw. split; assumption.
    + intros m [].
  - intros W request_markets post convert fuel keyword w l w' requests.
    unfold polymarket_get_markets_by_keyword.
    destruct (polymarket_keyword_loop request_markets post convert fuel keyword "" [] w [])
      as [[[found|e|] w1] reqs] eqn:El; try discriminate.
    + intro H; injection H as <- _ _.
      refine (polymarket_keyword_loop_sound W request_markets post convert keyword _ _
                fuel ""%string [] w [] found w1 reqs _ El).
      * intros raw prices m Hm Hc. exists raw, prices. split; assumption.
      * intros m [].
    + intro H; injection H as <- _ _. intros m [].
  - intros W request_markets post convert fuel limit w l w' requests.
    unfold polymarket_get_markets.
    destruct (polymarket_markets_loop request_markets post convert fuel limit "" [] w [])
      as [[[found|e|] w1] reqs] eqn:El; try discriminate.
    + intro H; injection H as <- _ _.
      refine (polymarket_markets_loop_sound W request_markets post convert limit _ _
                fuel ""%string [] w [] found w1 reqs _ El).
      * intros raw prices m Ha Hc. exists raw, prices.
        unfold is_active in Ha. apply andb_true_iff in Ha. destruct Ha as [Ha Hb].
        apply negb_true_iff in Hb. auto.
      * intros m [].
    + intro H; injection H as <- _ _. intros m [].
Qed.

Lemma listings_return_filtered_records_witness :
  exists raw prices,
    polymarket_keyword_matches (lit "rain") raw = true /\
    sample_poly_convert raw prices = Some (market_titled "P3" "Rain in Oslo?").
Proof.
  refine (proj1 (proj2 listings_return_filtered_records) unit three_poly_pages
            quoting_server sample_poly_convert 5 (lit "rain") tt
            [market_titled "P1" "Will it rain in Paris?"; market_titled "P3" "Rain in Oslo?";
             market_titled "P4" "Will it rain in Bern?"]
            tt [""; "MTAw"; "MjAw"]%string _
            (market_titled "P3" "Rain in Oslo?") _).
  - vm_compute. reflexivity.
  - right. left. reflexivity.
Defined.

End ListingMoreFacts.

(** ** The Kalshi normaliser *)

Section KalshiNormalizerFacts.
Import PyStr PrimaryQuestion Detector KalshiNormalizer.
Open Scope Q_scope.

Example kalshi_slug_1 :
  kalshi_title_slug (lit "Will it rain (in Paris) & London / Rome, today or not?")
  = lit "will-it-rain-in-paris-and".
Proof. vm_compute. reflexivity. Qed.

Example kalshi_convert_1 :
  option_map source_url (_convert_to_standardized_market no_parse traded_record)
  = Some (Some "https://kalshi.com/markets/kxrain/will-it-rain-in-paris"%string).
Proof. vm_compute. reflexivity. Qed.

Lemma positive_spec (x : option Q) (v : Q) : positive x = Some v -> x = Some v /\ 0 < v.
Proof.
  destruct x as [u|]; cbn [positive]; [|discriminate].
  destruct (PyFloat.ltb 0 u) eqn:E; [|discriminate].
  intro H; injection H as <-. apply ltb_true_iff in E. split; [reflexivity | exact E].
Qed.

Lemma positive_of (x : option Q) (v : Q) : x = Some v -> 0 < v -> positive x = Some v.
Proof.
  intros -> H. cbn [positive]. apply ltb_true_iff in H. rewrite H. reflexivity.
Qed.

Lemma kalshi_yes_price_range (kalshi_market : KalshiMarketJson) (p : Q) :
  quoted_in_cents kalshi_market ->
  kalshi_yes_price kalshi_market = Some p -> 0 < p /\ p <= 1.
Proof.
  intros (Hyb & Hya & _ & _ & Hl). unfold kalshi_yes_price.
  destruct (positive (json_last_price kalshi_market)) as [v|] eqn:E1.
  - apply positive_spec in E1. destruct E1 as [E1 Hv]. rewrite E1 in Hl. cbn in Hl.
    intro H; injection H as <-. split; [apply Qlt_shift_div_l | apply Qle_shift_div_r]; lra.
  - destruct (positive (json_yes_ask kalshi_market)) as [v|] eqn:E2.
    + apply positive_spec in E2. destruct E2 as [E2 Hv]. rewrite E2 in Hya. cbn in Hya.
      intro H; injection H as <-. split; [apply Qlt_shift_div_l | apply Qle_shift_div_r]; lra.
    + destruct (positive (json_yes_bid kalshi_market)) as [v|] eqn:E3; [|discriminate].
      apply positive_spec in E3. destruct E3 as [E3 Hv]. rewrite E3 in Hyb. cbn in Hyb.
      intro H; injection H as <-. split; [apply Qlt_shift_div_l | apply Qle_shift_div_r]; lra.
Qed.

Lemma kalshi_no_price_range (kalshi_market : KalshiMarketJson) (p : Q) :
  quoted_in_cents kalshi_market ->
  kalshi_no_price kalshi_market = Some p -> 0 <= p /\ p <= 1.
Proof.
  intros (_ & _ & Hnb & Hna & Hl). unfold kalshi_no_price.
  destruct (positive (json_last_price kalshi_market)) as [v|] eqn:E1.
  - apply positive_spec in E1. destruct E1 as [E1 Hv]. rewrite E1 in Hl. cbn in Hl.
    intro H; injection H as <-. split; [apply Qle_shift_div_l | apply Qle_shift_div_r]; lra.
  - destruct (positive (json_no_ask kalshi_market)) as [v|] eqn:E2.
    + apply positive_spec in E2. destruct E2 as [E2 Hv]. rewrite E2 in Hna. cbn in Hna.
      intro H; injection H as <-. split; [apply Qle_shift_div_l | apply Qle_shift_div_r]; lra.
    + destruct (positive (json_no_bid kalshi_market)) as [v|] eqn:E3; [|discriminate].
      apply positive_spec in E3. destruct E3 as [E3 Hv]. rewrite E3 in Hnb. cbn in Hnb.
      intro H; injection H as <-. split; [apply Qle_shift_div_l | apply Qle_shift_div_r]; lra.
Qed.

(** The four shapes of the outcome list. *)
Lemma kalshi_outcomes_cases (kalshi_market : KalshiMarketJson) :
  let yes_quoted :=
    is_present (json_yes_bid kalshi_market) || is_present (json_yes_ask kalshi_market) in
  let no_quoted :=
    is_present (json_no_bid kalshi_market) || is_present (json_no_ask kalshi_market) in
  let yes_outcome :=
    {| outcome_id := (json_ticker kalshi_market ++ "_yes")%string; outcome_name := "Yes";
       yes_price := kalshi_yes_price kalshi_market; no_price := None;
       volume := json_volume kalshi_market; last_trade_price := None;
       bid := None; ask := None; is_winner := None |} in
  let no_outcome :=
    {| outcome_id := (json_ticker kalshi_market ++ "_no")%string; outcome_name := "No";
       yes_price := None; no_price := kalshi_no_price kalshi_market;
       volume := json_volume kalshi_market; last_trade_price := None;
       bid := None; ask := None; is_winner := None |} in
  kalshi_outcomes kalshi_market
  = (if yes_quoted then [yes_outcome] else []) ++ (if no_quoted then [no_outcome] else []).
Proof.
  cbn zeta. unfold kalshi_outcomes.
  destruct (is_present (json_yes_bid kalshi_market) || is_present (json_yes_ask kalshi_market)),
           (is_present (json_no_bid kalshi_market) || is_present (json_no_ask kalshi_market));
    reflexivity.
Qed.

Lemma convert_some (fromisoformat : str -> option Z) (kalshi_market : KalshiMarketJson)
  (m : StandardizedMarket) :
  _convert_to_standardized_market fromisoformat kalshi_market = Some m ->
  json_ticker kalshi_market <> ""%string /\ json_title kalshi_market <> ""%string /\
  market_id m = json_ticker kalshi_market /\
  title m = json_title kalshi_market /\
  outcomes m = kalshi_outcomes kalshi_market /\
  total_volume m = json_volume kalshi_market /\
  close_date m = parse_time fromisoformat (json_close_time kalshi_market).
Proof.
  unfold _convert_to_standardized_market.
  destruct (String.eqb (json_ticker kalshi_market) "") eqn:E1; [discriminate|].
  destruct (String.eqb (json_title kalshi_market) "") eqn:E2; [discriminate|].
  cbn [orb]. intro H; injection H as <-.
  apply String.eqb_neq in E1. apply String.eqb_neq in E2.
  repeat split; assumption.
Qed.

(** X22: the Kalshi normaliser answers [None] for every record without
    ticker or without title. A market it returns keeps the ticker as id, the
    title and the volume of the record, and has at most two outcomes, a
    "Yes" outcome when a YES bid or ask is quoted and a "No" outcome when a
    NO bid or ask is quoted; an outcome never carries a last trade price,
    bid or ask, and never both a YES and a NO price. *)
Theorem kalshi_normalizer_accepts (fromisoformat : str -> option Z)
  (kalshi_market : KalshiMarketJson) :
  (json_ticker kalshi_market = ""%string \/ json_title kalshi_market = ""%string ->
   _convert_to_standardized_market fromisoformat kalshi_market = None) /\
  (forall m,
     _convert_to_standardized_market fromisoformat kalshi_market = Some m ->
     market_id m = json_ticker kalshi_market /\
     title m = json_title kalshi_market /\
     total_volume m = json_volume kalshi_market /\
     (List.length (outcomes m) <= 2)%nat /\
     (json_yes_bid kalshi_market = None -> json_yes_ask kalshi_market = None ->
      forall o, In o (outcomes m) -> outcome_name o = "No"%string) /\
     (forall o, In o (outcomes m) ->
        last_trade_price o = None /\ bid o = None /\ ask o = None /\
        volume o = json_volume kalshi_market /\
        (yes_price o = None \/ no_price o = None))).
Proof.
  split.
  - unfold _convert_to_standardized_market.
    destruct (String.eqb_spec (json_ticker kalshi_market) "") as [E1 | E1];
      destruct (String.eqb_spec (json_title kalshi_market) "") as [E2 | E2]; cbn [orb].
    + reflexivity.
    + reflexivity.
    + reflexivity.
    + tauto.
  - intros m H. destruct (convert_some _ _ _ H) as (_ & _ & Hid & Ht & Ho & Hv & _).
    split; [exact Hid|]. split; [exact Ht|]. split; [exact Hv|].
    rewrite Ho, kalshi_outcomes_cases. cbn zeta.
    split; [|split].
    + destruct (is_present _ || is_present _), (is_present _ || is_present _); cbn; lia.
    + intros Hb Ha. rewrite Hb, Ha. cbn [is_present orb app].
      destruct (is_present _ || is_present _); intros o Hin; cbn in Hin;
        [destruct Hin as [<- | []]; reflexivity | contradiction].
    + intros o Hin.
      destruct (is_present (json_yes_bid kalshi_market)
                || is_present (json_yes_ask kalshi_market)),
               (is_present (json_no_bid kalshi_market)
                || is_present (json_no_ask kalshi_market));
        cbn [app In] in Hin; repeat (destruct Hin as [<- | Hin]); try contradiction;
        cbn; repeat split; auto.
Qed.

Lemma kalshi_normalizer_accepts_witness :
  exists m,
    _convert_to_standardized_market no_parse traded_record = Some m /\
    market_id m = "KXRAIN-25"%string /\ (List.length (outcomes m) <= 2)%nat.
Proof.
  eexists. split; [reflexivity|].
  destruct (proj2 (kalshi_normalizer_accepts no_parse traded_record) _ eq_refl)
    as (Hid & _ & _ & Hlen & _).
  split; [exact Hid | exact Hlen].
Defined.

(** X23: for a record quoted in cents between 0 and 100, every price of the
    normalised market is on the probability scale: a YES price lies in
    (0,1], a NO price in [[0,1]]. When the last trade is positive, the YES
    and NO prices are both taken from it and add up to 1. *)
Theorem kalshi_prices_on_unit_scale (fromisoformat : str -> option Z)
  (kalshi_market : KalshiMarketJson) (m : StandardizedMarket) :
  quoted_in_cents kalshi_market ->
  _convert_to_standardized_market fromisoformat kalshi_market = Some m ->
  (forall o p, In o (outcomes m) -> yes_price o = Some p -> 0 < p /\ p <= 1) /\
  (forall o p, In o (outcomes m) -> no_price o = Some p -> 0 <= p /\ p <= 1) /\
  (forall last_price oy on y n,
     json_last_price kalshi_market = Some last_price -> 0 < last_price ->
     In oy (outcomes m) -> yes_price oy = Some y ->
     In on (outcomes m) -> no_price on = Some n ->
     y == last_price / 100 /\ y + n == 1).
Proof.
  intros Hq H. destruct (convert_some _ _ _ H) as (_ & _ & _ & _ & Ho & _).
  rewrite Ho, kalshi_outcomes_cases. cbn zeta.
  assert (Hyes : forall o p,
    In o ((if is_present (json_yes_bid kalshi_market)
              || is_present (json_yes_ask kalshi_market)
           then [ {| outcome_id := (json_ticker kalshi_market ++ "_yes")%string;
                     outcome_name := "Yes";
                     yes_price := kalshi_yes_price kalshi_market; no_price := None;
                     volume := json_volume kalshi_market; last_trade_price := None;
                     bid := None; ask := None; is_winner := None |} ] else [])
          ++ (if is_present (json_no_bid kalshi_market)
                 || is_present (json_no_ask kalshi_market)
              then [ {| outcome_id := (json_ticker kalshi_market ++ "_no")%string;
                        outcome_name := "No";
                        yes_price := None; no_price := kalshi_no_price kalshi_market;
                        volume := json_volume kalshi_market; last_trade_price := None;
                        bid := None; ask := None; is_winner := None |} ] else [])) ->
    (yes_price o = Some p -> kalshi_yes_price kalshi_market = Some p) /\
    (no_price o = Some p -> kalshi_no_price kalshi_market = Some p)).
  { intros o p Hin.
    destruct (is_present (json_yes_bid kalshi_market)
              || is_present (json_yes_ask kalshi_market)),
             (is_present (json_no_bid kalshi_market)
              || is_present (json_no_ask kalshi_market));
      cbn [app In] in Hin; repeat (destruct Hin as [<- | Hin]); try contradiction;
      cbn; split; auto; discriminate. }
  split; [|split].
  - intros o p Hin Hp. apply (kalshi_yes_price_range kalshi_market p Hq).
    apply (proj1 (Hyes o p Hin) Hp).
  - intros o p Hin Hp. apply (kalshi_no_price_range kalshi_market p Hq).
    apply (proj2 (Hyes o p Hin) Hp).
  - intros last_price oy on y n Hl Hpos Hoy Hy Hon Hn.
    pose proof (proj1 (Hyes oy y Hoy) Hy) as Ey.
    pose proof (proj2 (Hyes on n Hon) Hn) as En.
    unfold kalshi_yes_price in Ey. unfold kalshi_no_price in En.
    rewrite (positive_of _ _ Hl Hpos) in Ey, En.
    injection Ey as <-. injection En as <-. split; field.
Qed.

Lemma kalshi_prices_on_unit_scale_witness :
  exists m,
    _convert_to_standardized_market no_parse traded_record = Some m /\
    forall o p, In o (outcomes m) -> no_price o = Some p -> 0 <= p /\ p <= 1.
Proof.
  eexists. split; [reflexivity|].
  refine (proj1 (proj2 (kalshi_prices_on_unit_scale no_parse traded_record _ _ eq_refl))).
  cbn. repeat split; vm_compute; discriminate.
Defined.

Lemma kalshi_best_price_cases (fromisoformat : str -> option Z)
  (kalshi_market : KalshiMarketJson) (m : StandardizedMarket) :
  _convert_to_standardized_market fromisoformat kalshi_market = Some m ->
  let yes_quoted :=
    is_present (json_yes_bid kalshi_market) || is_present (json_yes_ask kalshi_market) in
  let no_quoted :=
    is_present (json_no_bid kalshi_market) || is_present (json_no_ask kalshi_market) in
  let best :=
    match (if yes_quoted then kalshi_yes_price kalshi_market else None) with
    | Some p => Some p
    | None =>
        match (if no_quoted then kalshi_no_price kalshi_market else None) with
        | Some p => Some (1.0 - p)
        | None => None
        end
    end in
  _get_best_price m = best /\ best_price_field_by_field m = best.
Proof.
  intro H. destruct (convert_some _ _ _ H) as (_ & _ & _ & _ & Ho & _).
  cbn zeta. unfold _get_best_price, best_price_field_by_field.
  rewrite Ho, kalshi_outcomes_cases. cbn zeta.
  destruct (is_present (json_yes_bid kalshi_market)
            || is_present (json_yes_ask kalshi_market)),
           (is_present (json_no_bid kalshi_market)
            || is_present (json_no_ask kalshi_market));
    cbn; destruct (kalshi_yes_price kalshi_market), (kalshi_no_price kalshi_market);
    split; reflexivity.
Qed.

(** X24: the detector's best price on a market the Kalshi normaliser made.
    Reading the outcomes one by one and reading the price fields one after
    the other give the same price. When the last trade is positive and some
    side is quoted, the best price is the last trade in dollars, whichever
    side it is read from. For quotes in cents between 0 and 100 the best
    price lies in [[0,1]]. *)
Theorem kalshi_best_price (fromisoformat : str -> option Z)
  (kalshi_market : KalshiMarketJson) (m : StandardizedMarket) :
  _convert_to_standardized_market fromisoformat kalshi_market = Some m ->
  _get_best_price m = best_price_field_by_field m /\
  (forall last_price,
     json_last_price kalshi_market = Some last_price -> 0 < last_price ->
     outcomes m <> [] ->
     exists p, _get_best_price m = Some p /\ p == last_price / 100) /\
  (quoted_in_cents kalshi_market ->
   forall p, _get_best_price m = Some p -> 0 <= p /\ p <= 1).
Proof.
  intro H. destruct (kalshi_best_price_cases _ _ _ H) as [E1 E2]. cbn zeta in E1, E2.
  split; [congruence|]. split.
  - intros last_price Hl Hpos Hne. rewrite E1.
    destruct (convert_some _ _ _ H) as (_ & _ & _ & _ & Ho & _).
    rewrite Ho, kalshi_outcomes_cases in Hne. cbn zeta in Hne.
    unfold kalshi_yes_price, kalshi_no_price. rewrite (positive_of _ _ Hl Hpos).
    destruct (is_present (json_yes_bid kalshi_market)
              || is_present (json_yes_ask kalshi_market)).
    + eexists. split; [reflexivity | field].
    + destruct (is_present (json_no_bid kalshi_market)
                || is_present (json_no_ask kalshi_market)).
      * eexists. split; [reflexivity | field].
      * exfalso. apply Hne. reflexivity.
  - intros Hq p. rewrite E1.
    destruct (is_present (json_yes_bid kalshi_market)
              || is_present (json_yes_ask kalshi_market)).
    + destruct (kalshi_yes_price kalshi_market) as [y|] eqn:Ey.
      * intro Hp; injection Hp as <-.
        destruct (kalshi_yes_price_range _ _ Hq Ey). split; lra.
      * destruct (is_present (json_no_bid kalshi_market)
                  || is_present (json_no_ask kalshi_market)); [|discriminate].
        destruct (kalshi_no_price kalshi_market) as [n|] eqn:En; [|discriminate].
        intro Hp; injection Hp as <-.
        destruct (kalshi_no_price_range _ _ Hq En). split; lra.
    + destruct (is_present (json_no_bid kalshi_market)
                || is_present (json_no_ask kalshi_market)); [|discriminate].
      destruct (kalshi_no_price kalshi_market) as [n|] eqn:En; [|discriminate].
      intro Hp; injection Hp as <-.
      destruct (kalshi_no_price_range _ _ Hq En). split; lra.
Qed.

Lemma kalshi_best_price_witness :
  exists m,
    _convert_to_standardized_market no_parse traded_record = Some m /\
    _get_best_price m = best_price_field_by_field m.
Proof.
  eexists. split; [reflexivity|].
  exact (proj1 (kalshi_best_price no_parse traded_record _ eq_refl)).
Defined.

Lemma split_on_sep_free (sep : ascii) (s : str) :
  Forall (fun piece => ~ In sep piece) (split_on sep s).
Proof.
  induction s as [|c rest IH]; cbn [split_on].
  - constructor; [intros [] | constructor].
  - destruct (Ascii.eqb c sep) eqn:E.
    + constructor; [intros [] | exact IH].
    + apply Ascii.eqb_neq in E. destruct (split_on sep rest) as [|piece pieces].
      * constructor; [|constructor]. intros [H | []]. congruence.
      * inversion IH as [|? ? Hp Hps]; subst. constructor; [|exact Hps].
        intros [H | H]; [congruence | exact (Hp H)].
Qed.

Lemma split_on_chars (sep : ascii) (s piece : str) (c : ascii) :
  In piece (split_on sep s) -> In c piece -> In c s.
Proof.
  revert piece. induction s as [|x rest IH]; cbn [split_on]; intros piece Hin Hc.
  - destruct Hin as [<- | []]. exact Hc.
  - destruct (Ascii.eqb x sep).
    + destruct Hin as [<- | Hin]; [destruct Hc|]. right. exact (IH _ Hin Hc).
    + destruct (split_on sep rest) as [|first pieces].
      * destruct Hin as [<- | []]. destruct Hc as [<- | []]. left. reflexivity.
      * destruct Hin as [<- | Hin].
        -- destruct Hc as [<- | Hc]; [left; reflexivity|].
           right. apply (IH first); [left; reflexivity | exact Hc].
        -- right. apply (IH piece); [right; exact Hin | exact Hc].
Qed.

Lemma split_on_single (sep : ascii) (piece : str) :
  ~ In sep piece -> split_on sep piece = [piece].
Proof.
  induction piece as [|c piece IH]; intro H; cbn [split_on]; [reflexivity|].
  destruct (Ascii.eqb_spec c sep) as [-> | _]; [exfalso; apply H; left; reflexivity|].
  rewrite IH; [reflexivity|]. intro Hin. apply H. right. exact Hin.
Qed.

Lemma split_on_app (sep : ascii) (piece rest : str) :
  ~ In sep piece -> split_on sep (piece ++ sep :: rest) = piece :: split_on sep rest.
Proof.
  induction piece as [|c piece IH]; intro H; cbn [app split_on].
  - rewrite Ascii.eqb_refl. reflexivity.
  - destruct (Ascii.eqb_spec c sep) as [-> | _]; [exfalso; apply H; left; reflexivity|].
    rewrite IH; [reflexivity|]. intro Hin. apply H. right. exact Hin.
Qed.

(** Splitting undoes joining, for pieces without the separator. *)
Lemma split_on_join (sep : ascii) (pieces : list str) :
  pieces <> [] -> Forall (fun piece => ~ In sep piece) pieces ->
  split_on sep (join [sep] pieces) = pieces.
Proof.
  induction pieces as [|piece rest IH]; intros Hne Hfree; [congruence|].
  inversion Hfree as [|? ? Hp Hrest]; subst.
  destruct rest as [|next rest].
  - cbn [join]. apply split_on_single. exact Hp.
  - change (join [sep] (piece :: next :: rest))
      with (piece ++ sep :: join [sep] (next :: rest)).
    rewrite (split_on_app sep piece _ Hp), IH; [reflexivity | discriminate | exact Hrest].
Qed.

Lemma replace_char_In (c : ascii) (by_ s : str) (x : ascii) :
  In x (replace_char c by_ s) -> (In x s /\ Ascii.eqb x c = false) \/ In x by_.
Proof.
  unfold replace_char. intro H. apply in_flat_map in H. destruct H as (y & Hy & Hx).
  destruct (Ascii.eqb y c) eqn:E; [right; exact Hx|].
  destruct Hx as [<- | []]. left. split; assumption.
Qed.

Lemma slug_replacements_In (s : str) (x : ascii) :
  In x (slug_replacements s) ->
  x = "-"%char \/ In x (lit "and") \/
  (In x s /\ existsb (Ascii.eqb x) (lit " ?:,.()[]/&") = false).
Proof.
  unfold slug_replacements. intro H.
  apply replace_char_In in H. destruct H as [[H E1] | H]; [|right; left; exact H].
  apply replace_char_In in H. destruct H as [[H E2] | [<- | []]]; [|left; reflexivity].
  apply replace_char_In in H. destruct H as [[H E3] | []].
  apply replace_char_In in H. destruct H as [[H E4] | []].
  apply replace_char_In in H. destruct H as [[H E5] | []].
  apply replace_char_In in H. destruct H as [[H E6] | []].
  apply replace_char_In in H. destruct H as [[H E7] | []].
  apply replace_char_In in H. destruct H as [[H E8] | []].
  apply replace_char_In in H. destruct H as [[H E9] | []].
  apply replace_char_In in H. destruct H as [[H E10] | []].
  apply replace_char_In in H. destruct H as [[H E11] | [<- | []]]; [|left; reflexivity].
  right. right. split; [exact H|].
  cbn [lit list_ascii_of_string existsb].
  rewrite E1, E2, E3, E4, E5, E6, E7, E8, E9, E10, E11. reflexivity.
Qed.

Lemma slug_words (title : str) (word : str) :
  In word (filter nonempty (split_on "-"%char (slug_replacements (lower title)))) ->
  slug_word word = true.
Proof.
  intro H. apply filter_In in H. destruct H as [Hin Hne].
  unfold slug_word. rewrite Hne. cbn [andb]. apply forallb_forall. intros c Hc.
  assert (Hdash : Ascii.eqb c "-"%char = false).
  { apply Ascii.eqb_neq. intros ->.
    pose proof (split_on_sep_free "-"%char (slug_replacements (lower title))) as F.
    rewrite Forall_forall in F. exact (F _ Hin Hc). }
  pose proof (split_on_chars _ _ _ _ Hin Hc) as Hs.
  apply slug_replacements_In in Hs. destruct Hs as [-> | [Hand | [Hl Hmarks]]].
  - discriminate.
  - cbn in Hand. destruct Hand as [<- | [<- | [<- | []]]]; reflexivity.
  - unfold slug_char, slug_separators.
    change (lit " ?:,.()[]/&-") with (lit " ?:,.()[]/&" ++ ["-"%char]).
    rewrite existsb_app, Hmarks. cbn [existsb orb]. rewrite Hdash. cbn [negb andb orb].
    unfold lower in Hl. apply in_map_iff in Hl. destruct Hl as (y & <- & _).
    rewrite lower_char_idempotent. apply Ascii.eqb_refl.
Qed.

(** X25: the slug the Kalshi normaliser puts at the end of the source URL
    is made of at most six words joined by dashes; every word is non-empty,
    in lower case, and free of blanks, dashes and the marks the rewriting
    takes out. For a title that does not mention Bolivia, the second split
    undoes the join, so the slug is the first six non-empty dash-separated
    pieces of the rewritten title. *)
Theorem kalshi_title_slug_shape (title : str) :
  (exists words,
     kalshi_title_slug title = join (lit "-") words /\
     (List.length words <= 6)%nat /\
     forallb slug_word words = true) /\
  (contains (lower title) (lit "bolivia") = false ->
   kalshi_title_slug title =
   join (lit "-")
     (firstn 6 (filter nonempty (split_on "-"%char (slug_replacements (lower title)))))).
Proof.
  assert (Hfallback :
    join (lit "-")
      (firstn 6 (split_on "-"%char
         (join (lit "-")
            (filter nonempty (split_on "-"%char (slug_replacements (lower title)))))))
    = join (lit "-")
        (firstn 6 (filter nonempty (split_on "-"%char (slug_replacements (lower title)))))).
  { destruct (filter nonempty (split_on "-"%char (slug_replacements (lower title))))
      as [|word words] eqn:E.
    - reflexivity.
    - rewrite <- E. change (lit "-") with ["-"%char]. rewrite split_on_join.
      + reflexivity.
      + rewrite E. discriminate.
      + apply Forall_forall. intros piece Hin. apply filter_In in Hin.
        pose proof (split_on_sep_free "-"%char (slug_replacements (lower title))) as F.
        rewrite Forall_forall in F. exact (F _ (proj1 Hin)). }
  split.
  - unfold kalshi_title_slug.
    destruct (contains (lower title) (lit "bolivia")).
    + destruct (contains (lower title) (lit "first round")); cbn [andb].
      * exists [lit "bolivia"; lit "first"; lit "round"; lit "winner"].
        split; [reflexivity|]. split; [cbn; lia | reflexivity].
      * exists [lit "bolivia"; lit "election"].
        split; [reflexivity|]. split; [cbn; lia | reflexivity].
    + cbn [andb]. cbn zeta. rewrite Hfallback.
      eexists. split; [reflexivity|]. split.
      * rewrite length_firstn. lia.
      * apply forallb_forall. intros word Hin. apply firstn_In in Hin.
        exact (slug_words title word Hin).
  - intro Hb. unfold kalshi_title_slug. rewrite Hb. cbn [andb]. cbn zeta. exact Hfallback.
Qed.

Lemma kalshi_title_slug_shape_witness :
  kalshi_title_slug (lit "Will it rain (in Paris) & London / Rome, today or not?")
  = join (lit "-")
      (firstn 6 (filter nonempty (split_on "-"%char
         (slug_replacements
            (lower (lit "Will it rain (in Paris) & London / Rome, today or not?")))))).
Proof.
  apply (proj2 (kalshi_title_slug_shape
                  (lit "Will it rain (in Paris) & London / Rome, today or not?"))).
  vm_compute. reflexivity.
Defined.

End KalshiNormalizerFacts.

(** ** The Polymarket normaliser *)

Section PolymarketNormalizerFacts.
Import PyStr PrimaryQuestion PyData PolymarketPrices PolymarketPricesTerms Listing.
Import Detector KalshiNormalizer PolymarketNormalizer.
Open Scope Q_scope.

Variable float : string -> option Q.
Variable fromisoformat : str -> option Z.
Variable market_slug_of : PolyRaw -> string.
Variable end_date_iso_of : PolyRaw -> option string.

Let convert :=
  _convert_to_standardized_market_with_prices float fromisoformat market_slug_of
    end_date_iso_of.

(** What the pricing leaves on a fresh outcome. *)
Lemma apply_prices_shape (prices_data : dict TokenPrices) (token_id id name : string) :
  let fresh :=
    {| outcome_id := id; outcome_name := name;
       yes_price := None; no_price := None; volume := None;
       last_trade_price := None; bid := None; ask := None; is_winner := None |} in
  let o := apply_prices float prices_data token_id fresh in
  outcome_name o = name /\ volume o = None /\ last_trade_price o = None /\
  (yes_price o = None \/ no_price o = None) /\
  (yes_price o <> None -> names_yes name = true) /\
  (no_price o <> None -> names_yes name = false) /\
  (forall b, bid o = Some b -> yes_price o = Some b \/ no_price o = Some b) /\
  (ask o <> None -> bid o <> None) /\
  (dict_get prices_data token_id = None -> o = fresh).
Proof.
  cbn zeta. unfold apply_prices. cbn [outcome_name].
  destruct (names_yes name) eqn:En;
    destruct (dict_get prices_data token_id) as [[[buy|] [sell|]]|];
    cbn [price_BUY price_SELL];
    try destruct (float buy) as [b|];
    try destruct (float sell) as [a|];
    cbn; repeat split; auto; try congruence; try discriminate;
    try (intros ? H; injection H as <-; auto).
Qed.

Lemma polymarket_convert_some (polymarket_data : PolyRaw) (prices_data : dict TokenPrices)
  (m : StandardizedMarket) :
  convert polymarket_data prices_data = Some m ->
  raw_condition_id polymarket_data <> ""%string /\ raw_question polymarket_data <> [] /\
  market_id m = raw_condition_id polymarket_data /\
  total_volume m = None /\
  outcomes m = flat_map (token_outcome float (raw_condition_id polymarket_data) prices_data)
                 (raw_tokens polymarket_data).
Proof.
  unfold convert, _convert_to_standardized_market_with_prices.
  destruct (String.eqb_spec (raw_condition_id polymarket_data) "") as [E1 | E1];
    [discriminate|].
  destruct (raw_question polymarket_data) as [|c question] eqn:E2; [discriminate|].
  cbn [nonempty negb orb]. intro H; injection H as <-.
  repeat split; try assumption. discriminate.
Qed.

Lemma polymarket_outcome_In (condition_id : string) (prices_data : dict TokenPrices)
  (tokens : list PolyToken) (o : MarketOutcome) :
  In o (flat_map (token_outcome float condition_id prices_data) tokens) ->
  exists token id,
    In token tokens /\ raw_token_id token <> ""%string /\
    o = apply_prices float prices_data (raw_token_id token)
          {| outcome_id := id; outcome_name := raw_outcome token;
             yes_price := None; no_price := None; volume := None;
             last_trade_price := None; bid := None; ask := None; is_winner := None |}.
Proof.
  intro H. apply in_flat_map in H. destruct H as (token & Hin & Ho).
  unfold token_outcome in Ho.
  destruct (String.eqb_spec (raw_token_id token) "") as [E | E]; [destruct Ho|].
  destruct Ho as [<- | []]. exists token. eexists. split; [exact Hin|].
  split; [exact E | reflexivity].
Qed.

Lemma unpriced_no_best_price (os : list MarketOutcome) :
  (forall o, In o os -> unpriced o) ->
  first_yes_or_last_trade os = None /\ first_no_converted os = None.
Proof.
  induction os as [|o os IH]; intro H; [split; reflexivity|].
  destruct (H o (or_introl eq_refl)) as (Hy & Hn & Hl & _).
  cbn [first_yes_or_last_trade first_no_converted]. rewrite Hy, Hn, Hl.
  apply IH. intros o' Hin. apply H. right. exact Hin.
Qed.

(** X27: the Polymarket normaliser answers [None] for every record without
    condition id or without question. A market it returns has the
    condition id as id, no total volume, and one outcome per token that has
    an id, in the order of the tokens and named after them. An outcome has
    no volume and no last trade price, and at most one of a YES and a NO
    price: a YES price only under a name containing "yes" in any case, a NO
    price only under another name. Its bid, when set, is that price, and an
    ask is never set without a bid. *)
Theorem polymarket_normalizer_outcomes (polymarket_data : PolyRaw)
  (prices_data : dict TokenPrices) :
  (raw_condition_id polymarket_data = ""%string \/ raw_question polymarket_data = [] ->
   convert polymarket_data prices_data = None) /\
  (forall m,
     convert polymarket_data prices_data = Some m ->
     market_id m = raw_condition_id polymarket_data /\
     total_volume m = None /\
     map outcome_name (outcomes m)
     = map raw_outcome
         (filter (fun token => negb (String.eqb (raw_token_id token) ""))
                 (raw_tokens polymarket_data)) /\
     (forall o, In o (outcomes m) ->
        volume o = None /\ last_trade_price o = None /\
        (yes_price o = None \/ no_price o = None) /\
        (yes_price o <> None -> names_yes (outcome_name o) = true) /\
        (no_price o <> None -> names_yes (outcome_name o) = false) /\
        (forall b, bid o = Some b -> yes_price o = Some b \/ no_price o = Some b) /\
        (ask o <> None -> bid o <> None))).
Proof.
  split.
  - unfold convert, _convert_to_standardized_market_with_prices.
    destruct (String.eqb_spec (raw_condition_id polymarket_data) "") as [E1 | E1];
      destruct (raw_question polymarket_data) as [|c question]; cbn [nonempty negb orb].
    + reflexivity.
    + reflexivity.
    + reflexivity.
    + intros [H | H]; [contradiction | discriminate].
  - intros m H. destruct (polymarket_convert_some _ _ _ H) as (_ & _ & Hid & Hv & Ho).
    split; [exact Hid|]. split; [exact Hv|]. rewrite Ho. clear Ho. split.
    + induction (raw_tokens polymarket_data) as [|token tokens IH]; [reflexivity|].
      cbn [flat_map filter]. rewrite map_app, IH. unfold token_outcome at 1.
      destruct (String.eqb (raw_token_id token) ""); cbn [negb map app]; [reflexivity|].
      f_equal. apply (apply_prices_shape prices_data).
    + intros o Hin. apply polymarket_outcome_In in Hin.
      destruct Hin as (token & id & _ & _ & ->).
      pose proof (apply_prices_shape prices_data (raw_token_id token) id (raw_outcome token))
        as S. cbn zeta in S.
      destruct S as (Hname & S1 & S2 & S3 & S4 & S5 & S6 & S7 & _).
      rewrite Hname. repeat split; assumption.
Qed.

Lemma apply_prices_missing (prices_data : dict TokenPrices) (token_id : string)
  (outcome : MarketOutcome) :
  dict_get prices_data token_id = None ->
  apply_prices float prices_data token_id outcome = outcome.
Proof. intro H. unfold apply_prices. rewrite H. reflexivity. Qed.

(** The conversion reads the price dictionary at the token ids of the
    record only. *)
Lemma convert_without_prices (polymarket_data : PolyRaw) (prices_data : dict TokenPrices) :
  (forall token, In token (raw_tokens polymarket_data) ->
     dict_get prices_data (raw_token_id token) = None) ->
  convert polymarket_data prices_data = convert polymarket_data [].
Proof.
  intro H. unfold convert, _convert_to_standardized_market_with_prices.
  destruct (String.eqb (raw_condition_id polymarket_data) ""
            || negb (nonempty (raw_question polymarket_data))); [reflexivity|].
  f_equal. f_equal.
  induction (raw_tokens polymarket_data) as [|token tokens IH]; [reflexivity|].
  cbn [flat_map]. rewrite IH by (intros token' Hin; apply H; right; exact Hin).
  f_equal. unfold token_outcome.
  destruct (String.eqb (raw_token_id token) ""); [reflexivity|].
  rewrite (apply_prices_missing prices_data _ _ (H token (or_introl eq_refl))).
  reflexivity.
Qed.

Lemma convert_empty_unpriced (polymarket_data : PolyRaw) (m : StandardizedMarket) :
  convert polymarket_data [] = Some m -> forall o, In o (outcomes m) -> unpriced o.
Proof.
  intros H o Hin. destruct (polymarket_convert_some _ _ _ H) as (_ & _ & _ & _ & Ho).
  rewrite Ho in Hin. apply polymarket_outcome_In in Hin.
  destruct Hin as (token & id & _ & _ & ->).
  cbn. repeat split; reflexivity.
Qed.

(** X28: a market made by the Polymarket normaliser, in the detector. It
    has no total volume, so the low-volume factor counts in the risk score
    of every pair it is part of, whatever the volume of the other market:
    for a similarity score of at most 1 the risk score is at least 0.3.
    When the price dictionary has no entry for its tokens, none of its
    outcomes carries a price, it has no best price, and no pair with it
    gives an opportunity. *)
Theorem polymarket_market_in_detector (polymarket_data : PolyRaw)
  (prices_data : dict TokenPrices) (m : StandardizedMarket) :
  convert polymarket_data prices_data = Some m ->
  (forall mt other,
     get_default (match_similarity_score mt) 0.5 <= 1 ->
     0.3 <= _calculate_risk_score mt other m /\
     0.3 <= _calculate_risk_score mt m other) /\
  ((forall token, In token (raw_tokens polymarket_data) ->
      dict_get prices_data (raw_token_id token) = None) ->
   (forall o, In o (outcomes m) -> unpriced o) /\
   _get_best_price m = None /\
   forall utcnow other,
     _calculate_arbitrage_opportunity utcnow other m = None /\
     _calculate_arbitrage_opportunity utcnow m other = None).
Proof.
  intro H. split.
  - destruct (polymarket_convert_some _ _ _ H) as (_ & _ & _ & Hv & _).
    intros mt other Hs.
    split; rewrite risk_score_as_sum, Hv; cbn [or_zero];
      replace (PyFloat.ltb 0 1000) with true by reflexivity;
      rewrite ?orb_true_r; cbn [orb]; (apply min2_glb; [|lra]).
    + destruct (close_date other) as [d1|], (close_date m) as [d2|];
        try destruct (7 <? Z.abs (timedelta_days (d1 - d2)))%Z;
        destruct (PyFloat.ltb 0.3 (get_default (match_price_difference mt) 0)); lra.
    + destruct (close_date m) as [d1|], (close_date other) as [d2|];
        try destruct (7 <? Z.abs (timedelta_days (d1 - d2)))%Z;
        destruct (PyFloat.ltb 0.3 (get_default (match_price_difference mt) 0)); lra.
  - intro Hmiss. rewrite (convert_without_prices _ _ Hmiss) in H.
    pose proof (convert_empty_unpriced _ _ H) as Hun.
    destruct (unpriced_no_best_price _ Hun) as [E1 E2].
    assert (Hbest : _get_best_price m = None).
    { unfold _get_best_price. rewrite E1, E2. destruct (outcomes m); reflexivity. }
    split; [exact Hun|]. split; [exact Hbest|].
    intros utcnow other. unfold _calculate_arbitrage_opportunity. rewrite Hbest.
    destruct (_get_best_price other); split; reflexivity.
Qed.

Lemma prices_of_market_get (batch_prices : dict TokenPrices)
  (market_token_ids : list string) (t : string) :
  dict_get (prices_of_market batch_prices market_token_ids) t <> None ->
  dict_get batch_prices t <> None.
Proof.
  unfold prices_of_market.
  assert (Hgen : forall acc : dict TokenPrices,
    dict_get
      (fold_left
         (fun market_prices token =>
            match dict_get batch_prices token with
            | Some v => dict_set market_prices token v
            | None => market_prices
            end) market_token_ids acc) t <> None ->
    dict_get acc t <> None \/ dict_get batch_prices t <> None).
  { induction market_token_ids as [|token ids IH]; intros acc H; [left; exact H|].
    cbn [fold_left] in H. apply IH in H. destruct H as [H | H]; [|right; exact H].
    destruct (dict_get batch_prices token) as [v|] eqn:Ev; [|left; exact H].
    rewrite dict_get_set in H. destruct (String.eqb_spec token t) as [<- | _].
    - right. rewrite Ev. discriminate.
    - left. exact H. }
  intro H. apply Hgen in H. destruct H as [H | H]; [contradiction | exact H].
Qed.

Lemma get_market_prices_keys (W : Type)
  (transport : W -> Payload -> result PostResponse * W) (w : W) (token_ids : list string)
  (prices : dict TokenPrices) (t : string) :
  token_ids <> [] ->
  fst (fst (get_market_prices transport w token_ids)) = Some prices ->
  dict_get prices t <> None -> In t (last_chunk token_ids).
Proof.
  intros Hne. destruct (last_chunk_facts token_ids Hne) as (Hc & _ & _).
  unfold get_market_prices. destruct token_ids as [|t0 ts]; [contradiction|].
  rewrite Hc. cbn [fst].
  set (final := fold_left _ _ _).
  assert (Hkeys : forall t, dict_get (loop_all_prices final) t <> None ->
                            In t (last_chunk (t0 :: ts))).
  { apply request_loop_keys. cbn. intros t' H. contradiction. }
  destruct (loop_all_prices final) as [|entry rest] eqn:Ef; [discriminate|].
  intro H; injection H as <-. apply Hkeys.
Qed.

(** X29: the batch conversion and the prices of the last chunk. The
    markets returned are the conversions of the records given, each with a
    price dictionary that only holds tokens of the last chunk of ten of all
    the token ids collected. A record none of whose tokens is in that chunk
    is converted as if no price had been fetched at all. *)
Theorem batch_conversion_prices_last_chunk (W : Type)
  (transport : W -> Payload -> result PostResponse * W) (w : W)
  (markets_data : list PolyRaw) :
  exists prices_for : PolyRaw -> dict TokenPrices,
    fst (_convert_markets_with_batch_pricing transport convert w markets_data)
    = keep_converted (fun market_raw => convert market_raw (prices_for market_raw))
        markets_data /\
    (forall market_raw t,
       dict_get (prices_for market_raw) t <> None ->
       In t (last_chunk (fst (collect_token_ids markets_data)))) /\
    (forall market_raw,
       (forall token, In token (raw_tokens market_raw) ->
          ~ In (raw_token_id token) (last_chunk (fst (collect_token_ids markets_data)))) ->
       convert market_raw (prices_for market_raw) = convert market_raw []).
Proof.
  assert (Hmain : exists prices_for : PolyRaw -> dict TokenPrices,
    fst (_convert_markets_with_batch_pricing transport convert w markets_data)
    = keep_converted (fun market_raw => convert market_raw (prices_for market_raw))
        markets_data /\
    (forall market_raw t,
       dict_get (prices_for market_raw) t <> None ->
       In t (last_chunk (fst (collect_token_ids markets_data))))).
  { unfold _convert_markets_with_batch_pricing.
    destruct markets_data as [|r rs] eqn:Em.
    - exists (fun _ => []). split; [reflexivity|]. intros market_raw t H. contradiction.
    - rewrite <- Em. destruct (collect_token_ids markets_data) as [all mapping] eqn:Ec.
      cbn [fst]. destruct all as [|t0 ts] eqn:Ea.
      + eexists (fun market_raw =>
                   prices_of_market []
                     match dict_get mapping (raw_condition_id market_raw) with
                     | Some ids => ids
                     | None => []
                     end).
        split; [reflexivity|]. intros market_raw t H.
        apply prices_of_market_get in H. contradiction.
      + rewrite <- Ea.
        destruct (get_market_prices transport w all) as [[prices w'] events] eqn:Eg.
        eexists (fun market_raw =>
                   prices_of_market (match prices with Some d => d | None => [] end)
                     match dict_get mapping (raw_condition_id market_raw) with
                     | Some ids => ids
                     | None => []
                     end).
        split; [reflexivity|]. intros market_raw t H.
        apply prices_of_market_get in H. destruct prices as [d|]; [|contradiction].
        apply (get_market_prices_keys W transport w all d t).
        * rewrite Ea. discriminate.
        * rewrite Eg. reflexivity.
        * exact H. }
  destruct Hmain as (prices_for & Hrun & Hkeys).
  exists prices_for. split; [exact Hrun|]. split; [exact Hkeys|].
  intros market_raw Hout. apply convert_without_prices. intros token Hin.
  destruct (dict_get (prices_for market_raw) (raw_token_id token)) eqn:E; [|reflexivity].
  exfalso. apply (Hout token Hin). apply (Hkeys market_raw). rewrite E. discriminate.
Qed.

End PolymarketNormalizerFacts.

Section PolymarketNormalizerRuns.
Import PyStr PyData PolymarketPrices PolymarketPricesTerms Listing.
Import Detector KalshiNormalizer PolymarketNormalizer.
Open Scope Q_scope.

Lemma polymarket_normalizer_outcomes_witness :
  exists m,
    _convert_to_standardized_market_with_prices two_prices no_parse no_slug no_end_date
      yes_no_market yes_no_prices = Some m /\
    map outcome_name (outcomes m) = ["Yes"%string; "No"%string].
Proof.
  eexists. split; [reflexivity|].
  exact (proj1 (proj2 (proj2 (proj2 (polymarket_normalizer_outcomes two_prices no_parse no_slug no_end_date
                                      yes_no_market yes_no_prices) _ eq_refl)))).
Defined.

Lemma polymarket_market_in_detector_witness :
  exists m,
    _convert_to_standardized_market_with_prices two_prices no_parse no_slug no_end_date
      yes_no_market [] = Some m /\
    _get_best_price m = None /\
    0.3 <= _calculate_risk_score DetectorSamples.plain_match DetectorSamples.liquid_market m.
Proof.
  eexists. split; [reflexivity|].
  pose proof (polymarket_market_in_detector two_prices no_parse no_slug no_end_date
                yes_no_market [] _ eq_refl) as [Hrisk Hprice].
  split.
  - apply Hprice. intros token _. reflexivity.
  - apply Hrisk. vm_compute. discriminate.
Defined.

(** A run of the batch conversion on six markets against a server that
    prices whatever it is asked: the first market comes back without a
    price, the sixth with its YES price. *)
Example batch_conversion_six_markets_run :
  map _get_best_price
    (fst (_convert_markets_with_batch_pricing quoting_server
            (_convert_to_standardized_market_with_prices two_prices no_parse no_slug
               no_end_date) tt six_markets))
  = [None; None; None; None; None; Some 0.55].
Proof. vm_compute. reflexivity. Qed.

End PolymarketNormalizerRuns.

(** ** The demo runner and the detector *)

Section ScannerDemoFacts.
Import Detector ScannerDemo.
Open Scope Q_scope.

Lemma best_yes_price_agrees (m : StandardizedMarket) :
  _best_yes_price m = _get_best_price m.
Proof.
  unfold _best_yes_price, _get_best_price.
  destruct (outcomes m); reflexivity.
Qed.

Lemma pair_opportunity_iff (utcnow : string) (km pm : StandardizedMarket)
  (s kp pp : Q) :
  (exists o,
     _calculate_arbitrage_opportunity utcnow km pm = Some o /\
     pair_spread o = s /\ pair_kalshi_price o = kp /\ pair_polymarket_price o = pp)
  <->
  (_get_best_price km = Some kp /\ _get_best_price pm = Some pp /\
   s = Qabs (kp - pp) /\ PyFloat.leb 0.03 (Qabs (kp - pp)) = true).
Proof.
  unfold _calculate_arbitrage_opportunity, PyFloat.ltb, PyFloat.leb.
  destruct (_get_best_price km) as [kp'|], (_get_best_price pm) as [pp'|];
    try (split; [intros (o & H & _); discriminate | intros (H & H' & _); discriminate]).
  cbn zeta. split.
  - intros (o & H & Hs & Hk & Hp).
    destruct (Qle_bool 0.03 (Qabs (kp' - pp'))) eqn:E; cbn [negb] in H; [|discriminate].
    destruct (negb (Qle_bool pp' kp')); injection H as <-; cbn in Hs, Hk, Hp; subst;
      repeat split; exact E.
  - intros (Hk & Hp & -> & E). injection Hk as ->. injection Hp as ->.
    rewrite E. cbn [negb].
    destruct (negb (Qle_bool pp kp)); eexists; (split; [reflexivity|]);
      cbn; repeat split.
Qed.


End ScannerDemoFacts.

(** ** The VPN manager *)

Section NordVPNFacts.
Import PyStr KalshiNormalizer NordVPN.

Lemma sleeps_app (l1 l2 : list Event) : sleeps (l1 ++ l2) = sleeps l1 ++ sleeps l2.
Proof.
  induction l1 as [|[command|seconds] l1 IH]; cbn [app sleeps]; [reflexivity | exact IH|].
  rewrite IH. reflexivity.
Qed.

Lemma country_connections_app (l1 l2 : list Event) :
  country_connections (l1 ++ l2) = country_connections l1 + country_connections l2.
Proof. unfold country_connections. rewrite filter_app, length_app. reflexivity. Qed.

Lemma installation_checks_app (l1 l2 : list Event) :
  installation_checks (l1 ++ l2) = installation_checks l1 + installation_checks l2.
Proof. unfold installation_checks. rewrite filter_app, length_app. reflexivity. Qed.

Lemma filter_ltb_seq (n : nat) :
  filter (fun attempt => attempt <? n) (seq 1 n) = seq 1 (n - 1).
Proof.
  destruct n as [|k]; [reflexivity|].
  rewrite seq_S, filter_app. cbn [filter Nat.add]. rewrite Nat.ltb_irrefl, app_nil_r.
  replace (S k - 1) with k by lia.
  assert (Hall : forall l, (forall a, In a l -> a < S k) ->
                           filter (fun attempt => attempt <? S k) l = l).
  { induction l as [|a l IH]; intro H; [reflexivity|]. cbn [filter].
    destruct (Nat.ltb_spec a (S k)) as [_ | Hge].
    - rewrite IH; [reflexivity|]. intros b Hb. apply H. right. exact Hb.
    - specialize (H a (or_introl eq_refl)). lia. }
  apply Hall. intros a Ha. apply in_seq in Ha. lia.
Qed.

(** The word "disconnected" contains the word "connected". *)
Lemma disconnected_contains_connected (line : str) :
  contains line (lit "disconnected") = true -> contains line (lit "connected") = true.
Proof.
  intro H. apply contains_iff in H. destruct H as (before & after & ->).
  apply contains_iff. exists (before ++ lit "dis"), after.
  rewrite <- app_assoc. reflexivity.
Qed.

Section WithSubprocess.
Variable W : Type.
Variable run : W -> Command -> Ran * W.

Lemma fallback_facts (self : NordVPNManager) (w : W) :
  let status := _check_status_via_connect_attempt run self w in
  sleeps (events status) = [] /\
  country_connections (events status) = 0 /\
  installation_checks (events status) = 0 /\
  (returned status = true -> manager status = connected_manager self).
Proof.
  cbn zeta. unfold _check_status_via_connect_attempt.
  destruct (run w (nordvpn_command self ["-c"%string] 15)) as [[result | e] w1].
  - destruct (existsb _ _); [|destruct (_ && _)]; cbn;
      repeat split; auto; discriminate.
  - cbn. repeat split; auto; discriminate.
Qed.

Lemma get_status_facts (self : NordVPNManager) (w : W) :
  let status := get_status run self w in
  sleeps (events status) = [] /\
  country_connections (events status) = 0 /\
  installation_checks (events status) = 0 /\
  (returned status = true -> manager status = connected_manager self).
Proof.
  cbn zeta. unfold get_status.
  pose proof (fun w1 => fallback_facts self w1) as F. cbn zeta in F.
  destruct (run w netsh_command) as [[result | e] w1].
  - destruct (returncode result =? 0)%Z.
    + destruct (existsb is_vpn_line _); cbn; repeat split; auto; discriminate.
    + destruct (F w1) as (F1 & F2 & F3 & F4). cbn [events returned manager].
      cbn [sleeps]. unfold country_connections, installation_checks in *.
      cbn [filter is_country_connection is_installation_check argv netsh_command
           String.eqb Ascii.eqb Bool.eqb andb].
      repeat split; assumption.
  - destruct (F w1) as (F1 & F2 & F3 & F4). cbn [events returned manager].
    cbn [sleeps]. unfold country_connections, installation_checks in *.
    cbn [filter is_country_connection is_installation_check argv netsh_command
         String.eqb Ascii.eqb Bool.eqb andb].
    repeat split; assumption.
Qed.

Lemma connect_facts (self : NordVPNManager) (country : option string) (w : W) :
  let connection := connect run self country w in
  sleeps (events connection) = [] /\
  country_connections (events connection) <= 1 /\
  installation_checks (events connection) = 1 /\
  (country_or_default country = None -> country_connections (events connection) = 0).
Proof.
  cbn zeta. unfold connect, check_nordvpn_installation.
  destruct (run w (nordvpn_command self ["-v"%string] 10)) as [[result | e] w1].
  - destruct (returncode result =? 0)%Z.
    + destruct (country_or_default country) as [name|].
      * destruct (run w1 (nordvpn_command self ["-c"; "-g"; name]%string 60))
          as [[result' | e'] w2].
        -- destruct (returncode result' =? 0)%Z.
           ++ match goal with
              | |- context [get_status run ?m ?x] =>
                  destruct (get_status_facts m x) as (S1 & S2 & S3 & _)
              end.
              cbn zeta in S1, S2, S3. cbn [events]. cbn [sleeps].
              unfold country_connections, installation_checks in *.
              cbn [filter is_country_connection is_installation_check argv
                   nordvpn_command].
              cbn [String.eqb Ascii.eqb Bool.eqb andb List.length].
              rewrite S2, S3. repeat split; auto; discriminate.
           ++ cbn. repeat split; auto; discriminate.
        -- cbn. repeat split; auto; discriminate.
      * cbn. repeat split; auto.
    + cbn. repeat split; auto.
  - destruct e; cbn; repeat split; auto.
Qed.

Lemma connection_attempts_facts (country : option string) (max_retries : nat)
  (attempts : list nat) :
  forall (self : NordVPNManager) (w : W),
    let after := connection_attempts run country max_retries attempts self w in
    country_connections (events after) <= List.length attempts /\
    (country_or_default country = None -> country_connections (events after) = 0) /\
    (returned after = true ->
     is_connected (manager after) = true /\
     current_server (manager after) = Some "NordVPN Connected"%string) /\
    (returned after = false ->
     installation_checks (events after) = List.length attempts /\
     sleeps (events after)
     = map (fun attempt => 2 * attempt)
         (filter (fun attempt => attempt <? max_retries) attempts)).
Proof.
  induction attempts as [|attempt rest IH]; intros self w; cbn zeta.
  - cbn. repeat split; auto; discriminate.
  - cbn [connection_attempts].
    destruct (connect_facts self country w) as (C1 & C2 & C3 & C4). cbn zeta in C1, C2, C3, C4.
    set (connection := connect run self country w) in *.
    assert (V : let verification :=
                  if returned connection
                  then get_status run (manager connection) (world connection)
                  else mkOutcome false (manager connection) (world connection) [] in
                sleeps (events verification) = [] /\
                country_connections (events verification) = 0 /\
                installation_checks (events verification) = 0 /\
                (returned verification = true ->
                 is_connected (manager verification) = true /\
                 current_server (manager verification) = Some "NordVPN Connected"%string)).
    { cbn zeta. destruct (returned connection).
      - destruct (get_status_facts (manager connection) (world connection))
          as (S1 & S2 & S3 & S4). cbn zeta in S1, S2, S3, S4.
        repeat split; try assumption; rewrite (S4 H); reflexivity.
      - cbn. repeat split; auto; discriminate. }
    cbn zeta in V.
    set (verification := if returned connection then _ else _) in *.
    destruct V as (V1 & V2 & V3 & V4).
    destruct (returned verification) eqn:Ev.
    + cbn [events returned manager]. rewrite country_connections_app, V2.
      split; [cbn [List.length]; lia|]. split; [intro H; rewrite (C4 H); reflexivity|].
      split; [intros _; apply V4; reflexivity | discriminate].
    + destruct (IH (manager verification) (world verification)) as (I1 & I2 & I3 & I4).
      cbn zeta in I1, I2, I3, I4.
      set (after := connection_attempts run country max_retries rest _ _) in *.
      cbn [events returned manager].
      assert (Hwait_c : country_connections
                (if attempt <? max_retries then [Sleep (2 * attempt)] else []) = 0)
        by (destruct (attempt <? max_retries); reflexivity).
      assert (Hwait_i : installation_checks
                (if attempt <? max_retries then [Sleep (2 * attempt)] else []) = 0)
        by (destruct (attempt <? max_retries); reflexivity).
      rewrite !country_connections_app, V2, Hwait_c.
      split; [cbn [List.length]; lia|].
      split; [intro H; rewrite (C4 H), (I2 H); reflexivity|].
      split; [exact I3|].
      intro Hr. destruct (I4 Hr) as [I5 I6].
      rewrite !installation_checks_app, !sleeps_app, C1, C3, V1, V3, Hwait_i, I5, I6.
      split; [cbn [List.length]; lia|].
      cbn [filter app]. destruct (attempt <? max_retries); reflexivity.
Qed.

End WithSubprocess.

(** X30: [ensure_connection]. It connects to a country at most
    [max_retries] times. It returns [True] only when the last status check
    found the VPN connected. It returns [False] only for a country that is
    given and not empty, after [max_retries] attempts with waits of 2, 4,
    ... seconds between them and none after the last. Without such a
    country it never connects to a country: it returns [True] or fails on
    the undefined name. A line of [netsh] that lists a VPN adapter as
    disconnected counts as connected: then [True] is returned after that
    one command. *)
Theorem ensure_connection_behaviour (W : Type) (run : W -> Command -> Ran * W)
  (self : NordVPNManager) (country : option string) (max_retries : nat) (w : W) :
  let ensured := ensure_connection run self country max_retries w in
  country_connections (events ensured) <= max_retries /\
  (returned ensured = Returned true ->
   is_connected (manager ensured) = true /\
   current_server (manager ensured) = Some "NordVPN Connected"%string) /\
  (returned ensured = Returned false ->
   country_or_default country <> None /\
   installation_checks (events ensured) = max_retries /\
   sleeps (events ensured) = map (fun attempt => 2 * attempt) (seq 1 (max_retries - 1))) /\
  (country_or_default country = None ->
   returned ensured <> Returned false /\ country_connections (events ensured) = 0) /\
  (forall result w' line,
     run w netsh_command = (Completes result, w') ->
     returncode result = 0%Z ->
     In line (split_on (ascii_of_nat 10) (lower (stdout result))) ->
     contains line (lit "disconnected") = true ->
     contains line (lit "vpn") = true ->
     ensured = mkOutcome (Returned true) (connected_manager self) w' [Run netsh_command]).
Proof.
  cbn zeta. unfold ensure_connection.
  destruct (get_status_facts W run self w) as (S1 & S2 & S3 & S4). cbn zeta in S1, S2, S3, S4.
  assert (Hline : forall result w' line,
     run w netsh_command = (Completes result, w') ->
     returncode result = 0%Z ->
     In line (split_on (ascii_of_nat 10) (lower (stdout result))) ->
     contains line (lit "disconnected") = true ->
     contains line (lit "vpn") = true ->
     get_status run self w = mkOutcome true (connected_manager self) w' [Run netsh_command]).
  { intros result w' line Hrun Hcode Hin Hdis Hvpn. unfold get_status.
    rewrite Hrun, Hcode. cbn [Z.eqb].
    replace (existsb is_vpn_line (split_on (ascii_of_nat 10) (lower (stdout result))))
      with true; [reflexivity|].
    symmetry. apply existsb_exists. exists line. split; [exact Hin|].
    unfold is_vpn_line. rewrite (disconnected_contains_connected line Hdis), Hvpn.
    rewrite !orb_true_r. reflexivity. }
  set (status := get_status run self w) in *.
  destruct (returned status) eqn:Es.
  - cbn [events returned manager]. rewrite S2, (S4 eq_refl).
    split; [lia|]. split; [intros _; split; reflexivity|].
    split; [discriminate|]. split; [intros _; split; [discriminate | reflexivity]|].
    intros result w' line Hrun Hcode Hin Hdis Hvpn.
    pose proof (Hline result w' line Hrun Hcode Hin Hdis Hvpn) as E.
    rewrite E. reflexivity.
  - assert (Hno : forall result w' line,
       run w netsh_command = (Completes result, w') ->
       returncode result = 0%Z ->
       In line (split_on (ascii_of_nat 10) (lower (stdout result))) ->
       contains line (lit "disconnected") = true ->
       contains line (lit "vpn") = true -> False).
    { intros result w' line Hrun Hcode Hin Hdis Hvpn.
      pose proof (Hline result w' line Hrun Hcode Hin Hdis Hvpn) as E.
      rewrite E in Es. discriminate. }
    destruct (country_or_default country) as [name|] eqn:Ec.
    + destruct (connection_attempts_facts W run country max_retries (seq 1 max_retries)
                  (manager status) (world status)) as (I1 & _ & I3 & I4).
      cbn zeta in I1, I3, I4.
      set (after := connection_attempts run country max_retries _ _ _) in *.
      cbn [events returned manager].
      rewrite country_connections_app, S2. rewrite length_seq in I1.
      split; [lia|]. split.
      { intro H. apply I3. injection H as ->. reflexivity. }
      split.
      { intro H. assert (Hr : returned after = false) by (injection H as ->; reflexivity).
        destruct (I4 Hr) as [I5 I6].
        rewrite installation_checks_app, sleeps_app, S1, S3, I5, I6, length_seq,
          filter_ltb_seq.
        split; [discriminate|]. split; reflexivity. }
      split; [discriminate|].
      intros result w' line Hrun Hcode Hin Hdis Hvpn.
      exfalso. exact (Hno result w' line Hrun Hcode Hin Hdis Hvpn).
    + cbn [events returned manager]. rewrite S2.
      split; [lia|]. split; [discriminate|]. split; [discriminate|].
      split; [intros _; split; [discriminate | reflexivity]|].
      intros result w' line Hrun Hcode Hin Hdis Hvpn.
      exfalso. exact (Hno result w' line Hrun Hcode Hin Hdis Hvpn).
Qed.

(** A disconnected TAP adapter: [ensure_connection] reports success after
    the one [netsh] command, without country. *)
Lemma ensure_connection_behaviour_witness :
  ensure_connection adapter_down fresh_manager None 3 tt
  = mkOutcome (Returned true) (connected_manager fresh_manager) tt [Run netsh_command].
Proof.
  refine (proj2 (proj2 (proj2 (proj2
            (ensure_connection_behaviour unit adapter_down fresh_manager None 3 tt))))
            _ tt (lit "enabled  disconnected  dedicated  tap-nordvpn")
            eq_refl eq_refl _ eq_refl eq_refl).
  left. reflexivity.
Defined.

(** No adapter and a failing client: three attempts, waits of 2 and 4
    seconds, [False]. *)
Example ensure_connection_three_attempts_run :
  let ensured := ensure_connection no_adapter fresh_manager (Some "Canada"%string) 3 tt in
  returned ensured = Returned false /\ sleeps (events ensured) = [2; 4] /\
  country_connections (events ensured) = 3.
Proof. vm_compute. repeat split; reflexivity. Qed.

End NordVPNFacts.
